(** * html-resource-embedder: a shallow embedding of [cli.js]

    The program walks a directory of HTML files, parses each one with
    htmlparser2, inlines scripts, stylesheets and (optionally) images, and
    writes the serialized document to the output directory.

    JavaScript strings are modelled by [string]; a character is a code unit
    below 256.  Objects that the program mutates in place live in a store
    keyed by their position in the parsed document. *)

From Stdlib Require Import Ascii String List Bool Arith Lia.
From stdpp Require Import base option list gmap strings pretty.
Import ListNotations.

Local Open Scope string_scope.
Local Open Scope list_scope.

(** ** JavaScript string primitives used by [cli.js] *)

Module Js.

Definition code (c : ascii) : nat := nat_of_ascii c.

Definition between (lo hi : nat) (c : ascii) : bool :=
  ((lo <=? code c) && (code c <=? hi))%nat.

(** [String.prototype.toLowerCase], one code unit at a time: A-Z and the
    Latin-1 capitals (all of U+00C0..U+00DE but the multiplication sign). *)
Definition lowerChar (c : ascii) : ascii :=
  if between 65 90 c then ascii_of_nat (code c + 32)
  else if between 192 222 c && negb (code c =? 215)%nat then ascii_of_nat (code c + 32)
  else c.

Fixpoint toLowerCase (s : string) : string :=
  match s with
  | EmptyString => EmptyString
  | String c s' => String (lowerChar c) (toLowerCase s')
  end.

(** [Canonicalize] of the regular-expression semantics under the [i]
    flag: the upper-case form, when it is a single code unit and does not
    move a non-ASCII character into ASCII.  Within Latin-1 only a-z and
    U+00E0..U+00FE (but the division sign) change. *)
Definition canonicalize (c : ascii) : ascii :=
  if between 97 122 c then ascii_of_nat (code c - 32)
  else if between 224 254 c && negb (code c =? 247)%nat then ascii_of_nat (code c - 32)
  else c.

Definition eqChar (a b : ascii) : bool := Ascii.eqb a b.

(** [s.startsWith(pre)] *)
Fixpoint startsWith (pre s : string) : bool :=
  match pre with
  | EmptyString => true
  | String a pre' =>
      match s with
      | EmptyString => false
      | String b s' => eqChar a b && startsWith pre' s'
      end
  end.

(** [s.split(sep)] for a one-character separator: never the empty array. *)
Fixpoint split (sep : ascii) (s : string) : list string :=
  match s with
  | EmptyString => [EmptyString]
  | String c s' =>
      if eqChar c sep then EmptyString :: split sep s'
      else match split sep s' with
           | [] => [String c EmptyString]
           | seg :: segs => String c seg :: segs
           end
  end.

(** [a.pop()]: the last element, [undefined] on the empty array. *)
Fixpoint pop (l : list string) : option string :=
  match l with
  | [] => None
  | [x] => Some x
  | _ :: l' => pop l'
  end.

(** A truthy string is a non-empty one; [undefined] is falsy. *)
Definition truthy (v : option string) : bool :=
  match v with
  | Some (String _ _) => true
  | _ => false
  end.

(** [LineTerminator] code units below 256: LF and CR. *)
Definition isLineTerminator (c : ascii) : bool :=
  ((code c =? 10) || (code c =? 13))%nat.

End Js.

(** ** The regular expression of the CSS URL rewriter

    A backtracking matcher in continuation-passing style, with the
    priorities of the ECMAScript semantics: alternatives left to right, a
    greedy [?] tries its body first, a lazy [.*?] tries the continuation
    first and then one more character. *)

Module Regex.

Inductive regex : Type :=
| Eps                      (* the empty pattern *)
| Chr (c : ascii)          (* a literal character *)
| Dot                      (* [.] *)
| Seq (r1 r2 : regex)
| Alt (r1 r2 : regex)      (* [r1|r2] *)
| Opt (r : regex)          (* [(?:r)?], greedy *)
| LazyDots                 (* [.*?] *)
| Group (r : regex).       (* [(r)], the capture p1 *)

(** The continuation receives the rest of the input and the capture. *)
Definition cont : Type := string -> option string -> option (string * option string).

Fixpoint lazyDots (k : string -> option (string * option string)) (s : string)
  : option (string * option string) :=
  match k s with
  | Some r => Some r
  | None =>
      match s with
      | EmptyString => None
      | String c s' => if Js.isLineTerminator c then None else lazyDots k s'
      end
  end.

Fixpoint run (ignoreCase : bool) (r : regex) (s : string) (cap : option string) (k : cont)
  : option (string * option string) :=
  match r with
  | Eps => k s cap
  | Chr c =>
      match s with
      | String x s' =>
          if (if ignoreCase
              then Js.eqChar (Js.canonicalize x) (Js.canonicalize c)
              else Js.eqChar x c)
          then k s' cap else None
      | EmptyString => None
      end
  | Dot =>
      match s with
      | String x s' => if Js.isLineTerminator x then None else k s' cap
      | EmptyString => None
      end
  | Seq r1 r2 => run ignoreCase r1 s cap (fun s' cap' => run ignoreCase r2 s' cap' k)
  | Alt r1 r2 =>
      match run ignoreCase r1 s cap k with
      | Some res => Some res
      | None => run ignoreCase r2 s cap k
      end
  | Opt r1 =>
      match run ignoreCase r1 s cap k with
      | Some res => Some res
      | None => k s cap
      end
  | LazyDots => lazyDots (fun s' => k s' cap) s
  | Group r1 =>
      run ignoreCase r1 s cap
        (fun s' _ => k s' (Some (substring 0 (String.length s - String.length s') s)))
  end.

(** One attempt at the start of [s]: the text left after the match and
    the capture. *)
Definition matchHere (ignoreCase : bool) (r : regex) (s : string)
  : option (string * option string) :=
  run ignoreCase r s None (fun s' cap => Some (s', cap)).

(** A literal word, and a non-empty alternation of literal words. *)
Fixpoint lit (s : string) : regex :=
  match s with
  | EmptyString => Eps
  | String c s' => Seq (Chr c) (lit s')
  end.

Fixpoint alts (x : string) (l : list string) : regex :=
  match l with
  | [] => lit x
  | y :: l' => Alt (lit x) (alts y l')
  end.

End Regex.

Import Regex.

(** The extensions of the allow-list, in the order of the source. *)
Definition imageExtensions : list string :=
  ["jpg"; "gif"; "png"; "jpeg"; "exif"; "bmp"; "tiff"; "ppm"; "pgm"; "pbm"; "pnm"; "svg"].

Definition extension : regex :=
  match imageExtensions with
  | x :: l => alts x l
  | [] => Eps
  end.

Definition dquote : ascii := ascii_of_nat 34.

(** An optional single or double quotation mark, greedy. *)
Definition quote : regex := Opt (Alt (Chr dquote) (Chr "'")).

(** The pattern of the source, with the flags g and i: [url(], an optional
    quotation mark, the capture [.*?] followed by a dot and one of the
    extensions, an optional quotation mark, [)]. *)
Definition urlRegex : regex :=
  Seq (lit "url(")
    (Seq quote
      (Seq (Group (Seq LazyDots (Seq (Chr ".") extension)))
        (Seq quote (Chr ")")))).

(** What a global [replace] sees, left to right: a character outside every
    match, or a match with its capture. *)
Inductive piece : Type :=
| Keep (c : ascii)
| Hit (whole p1 : string).

(** The scan of [data.replace(regex, ...)] with the [g] flag: try the
    pattern at each index from the left, and resume right after a match.
    [skip] counts the characters of the current match still to step over
    (a match is never empty: it holds [url(] at least). *)
Fixpoint scan (s : string) (skip : nat) : list piece :=
  match s with
  | EmptyString => []
  | String c s' =>
      match skip with
      | S n => scan s' n
      | O =>
          match matchHere true urlRegex s with
          | Some (rest, Some p1) =>
              let len := String.length s - String.length rest in
              Hit (substring 0 len s) p1 :: scan s' (len - 1)
          | _ => Keep c :: scan s' 0
          end
      end
  end.

(** ** The document and the objects the program mutates

    htmlparser2 hands [embedResources] a forest of objects.  [node] is that
    forest as parsed.  The three [findAll] calls collect references before
    anything is mutated, so an object is named by its position in the parsed
    forest, and the fields the program assigns to are kept in a store under
    that name: an object the program drops from the document (a child of a
    tag whose [children] array is replaced) is still there for the loop that
    collected it. *)

Definition attrs : Type := list (string * string).

#[local] Unset Elimination Schemes.
Inductive node : Type :=
  Node (type : string) (name : option string) (attribs : option attrs)
       (children : list node) (data : option string).
#[local] Set Elimination Schemes.

Definition nodeType (n : node) : string := let 'Node t _ _ _ _ := n in t.
Definition nodeName (n : node) : option string := let 'Node _ m _ _ _ := n in m.
Definition nodeAttribs (n : node) : option attrs := let 'Node _ _ a _ _ := n in a.
Definition nodeChildren (n : node) : list node := let 'Node _ _ _ c _ := n in c.
Definition nodeData (n : node) : option string := let 'Node _ _ _ _ d := n in d.

(** The [children] field of an object: the array the parser built, or the
    one-element array with a fresh text node holding [data]. *)
Inductive kids : Type :=
| Parsed
| Replaced (data : string).

Record tag : Type := mkTag {
  type : string;
  name : option string;
  attribs : option attrs;
  children : kids
}.

Abbreviation ref := (list nat).

Definition tagOf (n : node) : tag :=
  {| type := nodeType n; name := nodeName n; attribs := nodeAttribs n; children := Parsed |}.

(** Attribute objects keep insertion order. *)
Fixpoint getAttr (k : string) (a : attrs) : option string :=
  match a with
  | [] => None
  | (k', v) :: a' => if String.eqb k' k then Some v else getAttr k a'
  end.

Fixpoint deleteAttr (k : string) (a : attrs) : attrs :=
  match a with
  | [] => []
  | (k', v) :: a' => if String.eqb k' k then deleteAttr k a' else (k', v) :: deleteAttr k a'
  end.

Fixpoint setAttr (k v : string) (a : attrs) : attrs :=
  match a with
  | [] => [(k, v)]
  | (k', v') :: a' => if String.eqb k' k then (k, v) :: a' else (k', v') :: setAttr k v a'
  end.

(** [ElementType.isTag] *)
Definition isTag (ty : string) : bool :=
  String.eqb ty "tag" || String.eqb ty "script" || String.eqb ty "style".

Definition optEqb (o : option string) (s : string) : bool :=
  match o with
  | Some x => String.eqb x s
  | None => false
  end.

(** [domutils.findAll]: the tags that pass [test], in document order; only
    tags are tested and only the children of tags are searched. *)
Fixpoint findAllFrom (test : node -> bool) (p : ref) (n : node) : list (ref * node) :=
  if isTag (nodeType n) then
    (if test n then [(p, n)] else []) ++
    (fix each (i : nat) (l : list node) : list (ref * node) :=
       match l with
       | [] => []
       | c :: l' => findAllFrom test (p ++ [i]) c ++ each (S i) l'
       end) 0 (nodeChildren n)
  else [].

Fixpoint findAllIn (test : node -> bool) (p : ref) (i : nat) (l : list node)
  : list (ref * node) :=
  match l with
  | [] => []
  | c :: l' => findAllFrom test (p ++ [i]) c ++ findAllIn test p (S i) l'
  end.

Definition findAll (test : node -> bool) (dom : list node) : list (ref * node) :=
  findAllIn test [] 0 dom.

(** ** Effects *)

Inductive effect : Type :=
| Log (line : string)                      (* console.log *)
| ReadDir (path : string)                  (* fs.readdir issued *)
| ReadFile (filePath file : string)        (* fs.readFile issued; its callback closes over file *)
| WriteFile (filePath content : string)    (* fs.writeFile issued *)
| MkDir (path : string)                    (* fs.mkdir issued *)
| SpinnerStop (clear : bool)               (* spinner.stop(clear) *)
| SpinnerTitle (title : string).           (* setSpinnerTitle(title) *)

(** The mutable state of the process: the objects of the document at hand,
    the two module-level counters, and what the process has done so far. *)
Record cstate : Type := mkState {
  heap : gmap ref tag;
  numberOfFilesToProcess : nat;
  numberOfFilesProcessed : nat;
  trace : list effect
}.

Definition withHeap (h : gmap ref tag) (s : cstate) : cstate :=
  {| heap := h; numberOfFilesToProcess := numberOfFilesToProcess s;
     numberOfFilesProcessed := numberOfFilesProcessed s; trace := trace s |}.

Definition withTrace (tr : list effect) (s : cstate) : cstate :=
  {| heap := heap s; numberOfFilesToProcess := numberOfFilesToProcess s;
     numberOfFilesProcessed := numberOfFilesProcessed s; trace := tr |}.

(** A synchronous piece of the program returns, ends the process through
    [process.exit], or dies of an uncaught exception. *)
Inductive outcome (A : Type) : Type :=
| Ret (a : A) (s : cstate)
| Exit (code : nat) (s : cstate)
| Throw (what : string) (s : cstate).

Arguments Ret {A} a s.
Arguments Exit {A} code s.
Arguments Throw {A} what s.

Definition M (A : Type) : Type := cstate -> outcome A.

Definition ret {A} (a : A) : M A := fun s => Ret a s.

Definition bind {A B} (m : M A) (f : A -> M B) : M B :=
  fun s =>
    match m s with
    | Ret a s' => f a s'
    | Exit c s' => Exit c s'
    | Throw w s' => Throw w s'
    end.

Notation "'do' x <- m ; k" := (bind m (fun x => k))
  (at level 10, x name, m at level 100, k at level 200).
Notation "m ;; k" := (bind m (fun _ => k))
  (at level 100, k at level 200, right associativity).

Definition emit (e : effect) : M unit :=
  fun s => Ret tt (withTrace (trace s ++ [e]) s).

Definition exit {A} (code : nat) : M A := fun s => Exit code s.

Definition throw {A} (what : string) : M A := fun s => Throw what s.

(** Reading and writing the fields of the object behind a reference. *)
Definition deref (h : gmap ref tag) (t : ref * node) : tag :=
  default (tagOf (snd t)) (h !! fst t).

Definition getTag (t : ref * node) : M tag :=
  fun s => Ret (deref (heap s) t) s.

Definition setTag (t : ref * node) (v : tag) : M unit :=
  fun s => Ret tt (withHeap (<[fst t := v]> (heap s)) s).

(** [array.forEach(f)] *)
Fixpoint forEach {A} (l : list A) (f : A -> M unit) : M unit :=
  match l with
  | [] => ret tt
  | x :: l' => f x ;; forEach l' f
  end.

(** ** The program *)

(** [cli.flags] as meow returns it. *)
Record flags : Type := mkFlags {
  source : string;
  output : string;
  images : bool;
  external : bool;
  minify : bool;
  all : bool;
  verbose : bool
}.

(** The top-level statement that expands [--all] before any callback runs. *)
Definition expandAll (f : flags) : flags :=
  if all f
  then {| source := source f; output := output f; images := true; external := true;
          minify := true; all := all f; verbose := verbose f |}
  else f.

(** What a path names on disk.  A file's content is its text; reading a
    directory throws. *)
Inductive entry : Type :=
| File (content : string)
| Dir.

Inductive color : Type := red | green | blue | yellow.

Section Program.

(** Node's [path] module, [chalk] and the encoder of base64-img (a data
    URI computed from the path and the content of a file). *)
Variable path_join : string -> string -> string.
Variable path_normalize : string -> string.
Variable path_dirname : string -> string.
Variable chalk : color -> string -> string.
Variable dataUri : string -> string -> string.

(** htmlparser2 with DomHandler: the document, or the error handed to
    the handler's callback; the flag is [normalizeWhitespace]. *)
Variable parseDOM : bool -> string -> option (list node).

(** Whether the constructor [Spinner] exported by cli-spinner carries a
    function under the given property name. *)
Variable spinnerStatic : string -> bool.

Variable dirname : string.           (* __dirname *)
Variable cli : flags.                (* the flags on the command line *)
Variable disk : string -> option entry.

Definition cliFlags : flags := expandAll cli.

Definition basePath : string := path_normalize (path_join dirname (source cli)).
Definition baseOutputPath : string := path_normalize (path_join dirname (output cli)).

Definition existsSync (p : string) : bool :=
  match disk p with
  | Some _ => true
  | None => false
  end.

Definition readFileSync (p : string) : M string :=
  match disk p with
  | Some (File content) => ret content
  | Some Dir => throw "EISDIR"
  | None => throw "ENOENT"
  end.

(** [b64img.base64Sync] *)
Definition base64Sync (p : string) : M string :=
  do content <- readFileSync p;
  ret (dataUri p content).

Definition assertError (err : bool) (msg : string) : M unit :=
  if err then
    emit (Log (chalk red ("Error: " +:+ msg))) ;;
    exit 1
  else ret tt.

Definition verboseLog (msg : string) : M unit :=
  if verbose cliFlags then emit (Log msg) else ret tt.

(** The callback of [data.replace(regex, ...)], and the replacement text
    put together from the pieces of the scan. *)
Definition embedUrl (baseResourceUrl : string) (pc : piece) : M string :=
  match pc with
  | Keep c => ret (String c EmptyString)
  | Hit _ p1 =>
      let p := path_join baseResourceUrl p1 in
      verboseLog ("Fetching image for css resource " +:+ chalk blue p) ;;
      do uri <- base64Sync p;
      ret ("url(" +:+ uri +:+ ")")
  end.

Fixpoint replaceEach (f : piece -> M string) (l : list piece) : M string :=
  match l with
  | [] => ret EmptyString
  | pc :: l' =>
      do a <- f pc;
      do b <- replaceEach f l';
      ret (a +:+ b)
  end.

Definition rewriteCss (baseResourceUrl data : string) : M string :=
  replaceEach (embedUrl baseResourceUrl) (scan data 0).

(** The flag [shouldProcess]: [tag.attribs] is defined and every
    required attribute is truthy. *)
Definition shouldProcess (tag0 : tag) (requiredAttributes : list string) : bool :=
  match attribs tag0 with
  | Some a => forallb (fun attribute => Js.truthy (getAttr attribute a)) requiredAttributes
  | None => false
  end.

(** The parameter [type] of the source is [kind] here, [tag] is the
    reference [t]. *)
Definition fetchAndEmbedResource (t : ref * node) (requiredAttributes : list string)
    (kind pathAttribute : string) (newTagType newTagName : option string) : M unit :=
  do tag0 <- getTag t;
  if shouldProcess tag0 requiredAttributes then
    match attribs tag0 ≫= getAttr pathAttribute with
    | None => throw "TypeError"
    | Some src =>
        let isExternal := Js.startsWith "http" src in
        if negb isExternal then
          let filePath := path_join basePath src in
          verboseLog ("Fetching " +:+ kind +:+ " " +:+ chalk blue src) ;;
          if negb (existsSync filePath) then
            emit (Log (chalk red ("Unable to fetch " +:+ kind +:+ " " +:+ src)))
          else if negb (String.eqb kind "image") then
            do data <- readFileSync filePath;
            (* delete tag.attribs.src *)
            setTag t {| type := type tag0; name := name tag0;
                        attribs := deleteAttr "src" <$> attribs tag0;
                        children := children tag0 |} ;;
            do data <- (if String.eqb kind "stylesheet" then
                          do data' <- rewriteCss (path_dirname filePath) data;
                          (* delete tag.attribs *)
                          do tag1 <- getTag t;
                          setTag t {| type := type tag1; name := name tag1;
                                      attribs := None; children := children tag1 |} ;;
                          ret data'
                        else ret data);
            do tag2 <- getTag t;
            setTag t {| type := default (type tag2) newTagType;
                        name := match newTagName with
                                | Some n => Some n
                                | None => name tag2
                                end;
                        attribs := attribs tag2;
                        children := Replaced data |}
          else
            do uri <- base64Sync filePath;
            do tag1 <- getTag t;
            setTag t {| type := type tag1; name := name tag1;
                        attribs := setAttr "src" uri <$> attribs tag1;
                        children := children tag1 |}
        else if external cliFlags then
          verboseLog ("Fetching " +:+ kind +:+ "  " +:+ chalk blue src) ;;
          assertError true "Resolving external files is not supported yet."
        else ret tt
    end
  else ret tt.

(** *** Serialization

    [domutils.getOuterHTML] is dom-serializer (0.1.0) called without
    options: entities are not encoded, and XML mode is entered below an
    [svg] element.  A cdata node always has the text child DomHandler
    gives it. *)

Definition booleanAttributes : list string :=
  ["allowfullscreen"; "async"; "autofocus"; "autoplay"; "checked"; "controls";
   "default"; "defer"; "disabled"; "hidden"; "ismap"; "loop"; "multiple"; "muted";
   "open"; "readonly"; "required"; "reversed"; "scoped"; "seamless"; "selected";
   "typemustmatch"].

Definition singleTag : list string :=
  ["area"; "base"; "basefont"; "br"; "col"; "command"; "embed"; "frame"; "hr";
   "img"; "input"; "isindex"; "keygen"; "link"; "meta"; "param"; "source";
   "track"; "wbr"].

Definition inList (x : string) (l : list string) : bool := existsb (String.eqb x) l.

Definition isEmpty (s : string) : bool :=
  match s with
  | EmptyString => true
  | String _ _ => false
  end.

Definition formatAttr (kv : string * string) : string :=
  let (key, value) := kv in
  if isEmpty value && inList key booleanAttributes then key
  else key +:+ "=" +:+ String dquote value +:+ String dquote EmptyString.

Definition formatAttrs (a : option attrs) : string :=
  match a with
  | Some l => String.concat " " (map formatAttr l)
  | None => EmptyString
  end.

Definition openTag (t : tag) : string :=
  let a := formatAttrs (attribs t) in
  "<" +:+ default "undefined" (name t) +:+ (if isEmpty a then EmptyString else " " +:+ a).

Definition closeTag (xmlMode : bool) (t : tag) : string :=
  let nm := default "undefined" (name t) in
  if negb (inList nm singleTag) || xmlMode then "</" +:+ nm +:+ ">" else EmptyString.

Fixpoint getOuterHTML (h : gmap ref tag) (xmlMode : bool) (p : ref) (n : node) : string :=
  let 'Node _ _ _ parsed data := n in
  let t := deref h (p, n) in
  if isTag (type t) then
    let xml := xmlMode || optEqb (name t) "svg" in
    match children t with
    | Replaced text => openTag t +:+ ">" +:+ text +:+ closeTag xml t
    | Parsed =>
        match parsed with
        | [] => if xml then openTag t +:+ "/>" else openTag t +:+ ">" +:+ closeTag xml t
        | _ :: _ =>
            openTag t +:+ ">" +:+
            (fix each (i : nat) (l : list node) : string :=
               match l with
               | [] => EmptyString
               | c :: l' => getOuterHTML h xml (p ++ [i]) c +:+ each (S i) l'
               end) 0 parsed +:+
            closeTag xml t
        end
    end
  else if String.eqb (type t) "directive" then "<" +:+ default "undefined" data +:+ ">"
  else if String.eqb (type t) "comment" then "<!--" +:+ default "undefined" data +:+ "-->"
  else if String.eqb (type t) "cdata" then
    "<![CDATA[" +:+
    match parsed with
    | c :: _ => default "undefined" (nodeData c)
    | [] => EmptyString
    end +:+ "]]>"
  else default EmptyString data.

Fixpoint outerHTMLs (h : gmap ref tag) (xmlMode : bool) (p : ref) (i : nat) (l : list node)
  : string :=
  match l with
  | [] => EmptyString
  | c :: l' => getOuterHTML h xmlMode (p ++ [i]) c +:+ outerHTMLs h xmlMode p (S i) l'
  end.

(** [writeFile], up to the call of [fs.writeFile]; the callback of that
    call is [writeFileDone] below. *)
Definition writeFile (dom : list node) (filePath : string) : M unit :=
  do domStr <- (fun s => Ret (outerHTMLs (heap s) false [] 0 dom) s);
  verboseLog ("Writing embedded file " +:+ chalk blue filePath) ;;
  emit (WriteFile filePath domStr).

Definition embedResources (dom : list node) (filePath : string) : M unit :=
  verboseLog "Embedding resources..." ;;
  let scriptTags := findAll (fun elem => String.eqb (nodeType elem) "script") dom in
  let linkTags := findAll (fun elem => optEqb (nodeName elem) "link") dom in
  let imageTags :=
    if images cliFlags then findAll (fun elem => optEqb (nodeName elem) "img") dom
    else [] in
  forEach scriptTags (fun tag =>
    fetchAndEmbedResource tag ["src"] "script" "src" None None) ;;
  forEach linkTags (fun tag =>
    fetchAndEmbedResource tag ["rel"; "href"] "stylesheet" "href" (Some "style") (Some "style")) ;;
  forEach imageTags (fun tag =>
    fetchAndEmbedResource tag ["src"] "image" "src" None None) ;;
  writeFile dom filePath.

(** *** The callbacks of the asynchronous calls *)

(** The callback of [fs.writeFile] in [writeFile].  The last statement
    calls [setSpinnerTitle] on the constructor [Spinner], not on the
    instance [spinner] that [stop] is called on: a call of a property the
    constructor does not have is a TypeError. *)
Definition writeFileDone (filePath : string) (err : option string) : M unit :=
  assertError (bool_decide (is_Some err))
    ("Failed to write file " +:+ filePath +:+ " - " +:+ default "null" err) ;;
  verboseLog (chalk green "Success!") ;;
  do n <- (fun s =>
             let n := S (numberOfFilesProcessed s) in
             Ret n {| heap := heap s; numberOfFilesToProcess := numberOfFilesToProcess s;
                      numberOfFilesProcessed := n; trace := trace s |});
  do total <- (fun s => Ret (numberOfFilesToProcess s) s);
  if Nat.eqb n total then
    emit (Log (chalk green "Done :)")) ;;
    emit (SpinnerStop true)
  else if spinnerStatic "setSpinnerTitle" then
    emit (SpinnerTitle ("processed " +:+ pretty n +:+ " out of " +:+ pretty total))
  else throw "TypeError".

(** The callback of [fs.readFile] in [parseHtmlFiles]; the objects of the
    parsed document are new ones. *)
Definition readFileDone (file : string) (data : option string) : M unit :=
  let filePath := path_join basePath file in
  assertError (bool_decide (data = None)) ("Unable to read file " +:+ filePath) ;;
  verboseLog "Parsing file..." ;;
  match parseDOM (minify cliFlags) (default EmptyString data) with
  | None => assertError true "Error parsing file."
  | Some dom =>
      (fun s => Ret tt (withHeap ∅ s)) ;;
      embedResources dom (path_join baseOutputPath file)
  end.

Definition parseHtmlFiles (htmlFiles : list string) : M unit :=
  forEach htmlFiles (fun file =>
    let filePath := path_join basePath file in
    verboseLog ("Opening file " +:+ chalk blue filePath) ;;
    emit (ReadFile filePath file)).

(** The test of the [data.forEach] loop in the callback of [fs.readdir]. *)
Definition isHtmlFile (file : string) : bool :=
  match Js.pop (Js.split "." file) with
  | Some ext => String.eqb (Js.toLowerCase ext) "html"
  | None => false
  end.

Definition mkdirDone (err : option string) : M unit :=
  assertError (bool_decide (is_Some err))
    ("Failed to create directory " +:+ baseOutputPath +:+ " - " +:+ default "null" err).

(** The callback of [fs.readdir]: [data] is [None] when the call failed. *)
Definition readdirDone (data : option (list string)) : M unit :=
  assertError (bool_decide (data = None))
    ("Source directory not found (" +:+ basePath +:+ ")") ;;
  (if negb (existsSync baseOutputPath) then emit (MkDir baseOutputPath) else ret tt) ;;
  let htmlFiles := List.filter isHtmlFile (default [] data) in
  let n := length htmlFiles in
  (fun s => Ret tt {| heap := heap s; numberOfFilesToProcess := n;
                      numberOfFilesProcessed := numberOfFilesProcessed s;
                      trace := trace s |}) ;;
  if (0 <? n)%nat then
    emit (Log ("Processing " +:+ pretty n +:+ " html file" +:+
               (if (1 <? n)%nat then "s" else EmptyString) +:+
               " in directory " +:+ chalk blue basePath)) ;;
    parseHtmlFiles htmlFiles
  else
    emit (SpinnerStop false) ;;
    emit (Log (chalk yellow ("Did not find any .html files in directory " +:+
                             chalk blue basePath))).

End Program.

(** ** The process: callbacks run one at a time, in any order *)

Inductive event : Type :=
| ReaddirDone (data : option (list string))
| MkdirDone (err : option string)
| ReadFileDone (file : string) (data : option string)
| WriteFileDone (filePath : string) (err : option string).

Inductive status : Type :=
| Running
| Exited (code : nat)
| Uncaught (what : string).

Record world : Type := mkWorld {
  state : cstate;
  pending : list effect;      (* asynchronous calls whose callback has not run *)
  stat : status
}.

(** The asynchronous calls among the effects of a callback. *)
Definition isRequest (e : effect) : bool :=
  match e with
  | ReadDir _ | ReadFile _ _ | WriteFile _ _ | MkDir _ => true
  | _ => false
  end.

(** The request an event answers. *)
Definition answers (ev : event) (e : effect) : bool :=
  match ev, e with
  | ReaddirDone _, ReadDir _ => true
  | MkdirDone _, MkDir _ => true
  | ReadFileDone file _, ReadFile _ file' => String.eqb file file'
  | WriteFileDone filePath _, WriteFile filePath' _ => String.eqb filePath filePath'
  | _, _ => false
  end.

Fixpoint removeFirst (ev : event) (l : list effect) : option (list effect) :=
  match l with
  | [] => None
  | e :: l' =>
      if answers ev e then Some l'
      else match removeFirst ev l' with
           | Some r => Some (e :: r)
           | None => None
           end
  end.

Section Process.

Variable path_join : string -> string -> string.
Variable path_normalize : string -> string.
Variable path_dirname : string -> string.
Variable chalk : color -> string -> string.
Variable dataUri : string -> string -> string.
Variable parseDOM : bool -> string -> option (list node).
Variable spinnerStatic : string -> bool.
Variable dirname : string.
Variable cli : flags.

(** The state when the module has been evaluated: the counters are zero,
    the spinner runs and [fs.readdir] has been called. *)
Definition start : world :=
  {| state := {| heap := ∅; numberOfFilesToProcess := 0; numberOfFilesProcessed := 0;
                 trace := [ReadDir (source cli)] |};
     pending := [ReadDir (source cli)];
     stat := Running |}.

Definition callback (disk : string -> option entry) (ev : event) : M unit :=
  match ev with
  | ReaddirDone data =>
      readdirDone path_join path_normalize chalk dirname cli disk data
  | MkdirDone err =>
      mkdirDone path_join path_normalize chalk dirname cli err
  | ReadFileDone file data =>
      readFileDone path_join path_normalize path_dirname chalk dataUri parseDOM
        dirname cli disk file data
  | WriteFileDone filePath err =>
      writeFileDone chalk spinnerStatic cli filePath err
  end.

(** The world after a callback: the asynchronous calls it issued are
    pending, and the process goes on, has exited, or has died. *)
Definition after (w : world) (rest : list effect) (o : outcome unit) : world :=
  let issued (s : cstate) :=
    List.filter isRequest (drop (length (trace (state w))) (trace s)) in
  match o with
  | Ret _ s => {| state := s; pending := rest ++ issued s; stat := Running |}
  | Exit code s => {| state := s; pending := rest ++ issued s; stat := Exited code |}
  | Throw what s => {| state := s; pending := rest ++ issued s; stat := Uncaught what |}
  end.

(** One callback runs to its end, on the disk as it is then; it answers a
    pending call of a process that is still running. *)
Definition step (w : world) (disk : string -> option entry) (ev : event) : option world :=
  match stat w with
  | Running =>
      match removeFirst ev (pending w) with
      | Some rest => Some (after w rest (callback disk ev (state w)))
      | None => None
      end
  | _ => None
  end.

Fixpoint steps (w : world) (evs : list ((string -> option entry) * event)) : option world :=
  match evs with
  | [] => Some w
  | (disk, ev) :: evs' =>
      match step w disk ev with
      | Some w' => steps w' evs'
      | None => None
      end
  end.

(** The overall-completion signal: [spinner.stop(true)], after the line
    that says so. *)
Definition isDone (e : effect) : bool :=
  match e with
  | SpinnerStop true => true
  | _ => false
  end.

Definition completions (w : world) : nat := length (List.filter isDone (trace (state w))).

Definition isStop (e : effect) : bool :=
  match e with
  | SpinnerStop _ => true
  | _ => false
  end.

(** The exit code once the process is over.  A process that neither exits
    nor dies ends with code 0 when no callback is left and the spinner has
    been stopped; an uncaught exception ends it with code 1. *)
Definition exitCode (w : world) : option nat :=
  match stat w with
  | Exited code => Some code
  | Uncaught _ => Some 1
  | Running =>
      match pending w with
      | [] => if existsb isStop (trace (state w)) then Some 0 else None
      | _ :: _ => None
      end
  end.

End Process.

(** ** Notions used in the statements *)

(** [sub] occurs in [s]. *)
Definition contains (sub s : string) : Prop :=
  exists pre post, s = pre +:+ sub +:+ post.

(** The extension of a directory entry in the usual sense: what follows
    the last dot of its name; a name without a dot has none. *)
Fixpoint extensionOf (file : string) : option string :=
  match file with
  | EmptyString => None
  | String c rest =>
      match extensionOf rest with
      | Some e => Some e
      | None => if Js.eqChar c "." then Some rest else None
      end
  end.

(** A state with more effects in its trace. *)
Definition logged (l : list effect) (s : cstate) : cstate := withTrace (trace s ++ l) s.

(** What [verboseLog] adds to the trace. *)
Definition said (cli : flags) (msg : string) : list effect :=
  if verbose (cliFlags cli) then [Log msg] else [].

(** The text the CSS URL rewriter returns, [None] when the encoder cannot
    read one of the files, and the lines it logs on the way. *)
Definition urlText (path_join : string -> string -> string)
    (dataUri : string -> string -> string) (disk : string -> option entry)
    (baseResourceUrl : string) (pc : piece) : option string :=
  match pc with
  | Keep c => Some (String c EmptyString)
  | Hit _ p1 =>
      match disk (path_join baseResourceUrl p1) with
      | Some (File content) =>
          Some ("url(" +:+ dataUri (path_join baseResourceUrl p1) content +:+ ")")
      | _ => None
      end
  end.

Fixpoint cssText (path_join : string -> string -> string)
    (dataUri : string -> string -> string) (disk : string -> option entry)
    (baseResourceUrl : string) (l : list piece) : option string :=
  match l with
  | [] => Some EmptyString
  | pc :: l' =>
      match urlText path_join dataUri disk baseResourceUrl pc,
            cssText path_join dataUri disk baseResourceUrl l' with
      | Some a, Some b => Some (a +:+ b)
      | _, _ => None
      end
  end.

Fixpoint cssSaid (path_join : string -> string -> string) (chalk : color -> string -> string)
    (cli : flags) (baseResourceUrl : string) (l : list piece) : list effect :=
  match l with
  | [] => []
  | Keep _ :: l' => cssSaid path_join chalk cli baseResourceUrl l'
  | Hit _ p1 :: l' =>
      said cli ("Fetching image for css resource " +:+
                chalk blue (path_join baseResourceUrl p1)) ++
      cssSaid path_join chalk cli baseResourceUrl l'
  end.

(** The state a synchronous piece of the program leaves behind. *)
Definition final {A} (o : outcome A) : cstate :=
  match o with
  | Ret _ s | Exit _ s | Throw _ s => s
  end.

(** [m] relates every state to the one it leaves behind by [R]. *)
Definition keeps (R : cstate -> cstate -> Prop) {A} (m : M A) : Prop :=
  forall s, R s (final (m s)).

(** The object at [r] is not written to. *)
Definition sameAt (r : ref) (s s' : cstate) : Prop := heap s' !! r = heap s !! r.

(** The node at a position of the document: [i :: q] is position [q] below
    the [i]-th node. *)
Fixpoint locate (dom : list node) (q : ref) : option node :=
  match q with
  | [] => None
  | i :: q' =>
      match dom !! i with
      | Some n =>
          match q' with
          | [] => Some n
          | _ :: _ => locate (nodeChildren n) q'
          end
      | None => None
      end
  end.

(** Every node strictly above position [q] passes [P]. *)
Fixpoint ancestors (P : node -> bool) (dom : list node) (q : ref) : bool :=
  match q with
  | [] => true
  | i :: q' =>
      match q' with
      | [] => true
      | _ :: _ =>
          match dom !! i with
          | Some n => P n && ancestors P (nodeChildren n) q'
          | None => false
          end
      end
  end.

Definition isElement (n : node) : bool := isTag (nodeType n).

(** An element none of the three loops collects: a tag that is neither a
    script, nor a link, nor an img.  htmlparser2 puts no element below a
    script, a link or an img, so every element of a parsed document has
    only such elements above it. *)
Definition plain (n : node) : bool :=
  isTag (nodeType n) && negb (String.eqb (nodeType n) "script") &&
  negb (optEqb (nodeName n) "link") && negb (optEqb (nodeName n) "img").

(** [s.includes(sub)], the decision of [contains]. *)
Fixpoint includes (sub s : string) : bool :=
  Js.startsWith sub s ||
  match s with
  | EmptyString => false
  | String _ s' => includes sub s'
  end.

(** The pieces of a scan that are matches. *)
Definition isHit (pc : piece) : bool :=
  match pc with
  | Hit _ _ => true
  | Keep _ => false
  end.

(** ** A small installation, for the examples

    Paths are joined with a slash and are already normal, chalk has its
    colours off, and the encoder of the examples keeps the bytes as they
    are instead of writing them in base64.  The constructor of cli-spinner
    carries the two functions that set defaults; [setSpinnerTitle],
    [setSpinnerString], [start] and [stop] are on its prototype. *)

Module Example.

Definition join (a b : string) : string := a +:+ "/" +:+ b.

Definition normalize (p : string) : string := p.

Fixpoint beforeLastSlash (p : string) : option string :=
  match p with
  | EmptyString => None
  | String c rest =>
      match beforeLastSlash rest with
      | Some d => Some (String c d)
      | None => if Js.eqChar c "/" then Some EmptyString else None
      end
  end.

Definition dirnameOf (p : string) : string := default "." (beforeLastSlash p).

Definition plainChalk (c : color) (s : string) : string := s.

Definition uri (p content : string) : string := "data:image/png;base64," +:+ content.

Definition statics (property : string) : bool :=
  existsb (String.eqb property) ["setDefaultSpinnerString"; "setDefaultSpinnerDelay"].

Definition flagsOf (images external verbose : bool) : flags :=
  {| source := "src"; output := "dist"; images := images; external := external;
     minify := false; all := false; verbose := verbose |}.

Definition files (p : string) : option entry :=
  if String.eqb p "/site/src/a.js" then Some (File "alert(1)")
  else if String.eqb p "/site/src/css/b.css" then Some (File "p{background:url(img/c.png)}")
  else if String.eqb p "/site/src/css/img/c.png" then Some (File "PNG")
  else if String.eqb p "/site/src/d.png" then Some (File "PNG")
  else if String.eqb p "/site/src/favicon.ico" then Some (File "ICO")
  else if String.eqb p "/site/src/httpdocs/app.js" then Some (File "app()")
  else None.

(** An element and a text node as DomHandler builds them. *)
Definition element (nm : string) (a : attrs) (ch : list node) : node :=
  Node (if String.eqb nm "script" then "script"
        else if String.eqb nm "style" then "style" else "tag")
       (Some nm) (Some a) ch None.

Definition text (data : string) : node := Node "text" None None [] (Some data).

Definition scriptA : node :=
  element "script" [("type", "text/javascript"); ("src", "a.js")] [].

Definition scriptBare : node := element "script" [("src", "a.js")] [].

Definition linkB : node := element "link" [("rel", "stylesheet"); ("href", "css/b.css")] [].

Definition linkIcon : node := element "link" [("rel", "icon"); ("href", "favicon.ico")] [].

Definition imgD : node := element "img" [("alt", "d"); ("src", "d.png")] [].

Definition imgMissing : node := element "img" [("src", "none.png")] [].

Definition scriptExternal : node := element "script" [("src", "httpdocs/app.js")] [].

Definition page : list node :=
  [element "html" []
     [element "head" [] [scriptA; linkB; linkIcon; scriptBare];
      element "body" [] [text "hi"; imgD; imgMissing; scriptExternal]]].

Definition pageA : list node := [element "html" [] [element "head" [] [scriptA]]].

Definition fresh : cstate :=
  {| heap := ∅; numberOfFilesToProcess := 1; numberOfFilesProcessed := 0; trace := [] |}.

Definition embedOn (cli : flags) (dom : list node) : outcome unit :=
  embedResources join normalize dirnameOf plainChalk uri "/site" cli files dom
    "/site/dist/index.html" fresh.

(** The parser of the examples returns one paragraph that holds the text
    of the file. *)
Definition parse (normalizeWhitespace : bool) (data : string) : option (list node) :=
  Some [element "p" [] [text data]].

(** The disk does not change in the examples. *)
Definition run (statics : string -> bool) (evs : list event) : option world :=
  steps join normalize dirnameOf plainChalk uri parse statics "/site" (flagsOf false false false)
    (start (flagsOf false false false)) (map (fun ev => (files, ev)) evs).

Definition twoFiles : list event :=
  [ReaddirDone (Some ["a.html"; "b.html"; "notes.txt"]); MkdirDone None;
   ReadFileDone "a.html" (Some "A"); ReadFileDone "b.html" (Some "B")].

End Example.

(** ** Notions for the completion counters *)

Definition isLog (e : effect) : bool :=
  match e with
  | Log _ => true
  | _ => false
  end.

Definition isReadDir (e : effect) : bool :=
  match e with
  | ReadDir _ => true
  | _ => false
  end.

Definition isReadFile (e : effect) : bool :=
  match e with
  | ReadFile _ _ => true
  | _ => false
  end.

Definition isWriteFile (e : effect) : bool :=
  match e with
  | WriteFile _ _ => true
  | _ => false
  end.

Definition count (f : effect -> bool) (l : list effect) : nat := length (List.filter f l).

(** A piece of the program that leaves the counters alone and only logs. *)
Definition onlyLogs (s s' : cstate) : Prop :=
  numberOfFilesToProcess s' = numberOfFilesToProcess s /\
  numberOfFilesProcessed s' = numberOfFilesProcessed s /\
  exists l, trace s' = trace s ++ l /\ forallb isLog l = true.

(** A piece of the program that only logs and, when it returns, has
    issued one write as its last effect. *)
Definition writesLast (m : M unit) : Prop :=
  forall s,
    match m s with
    | Ret _ s' =>
        exists s3 filePath out, onlyLogs s s3 /\ s' = logged [WriteFile filePath out] s3
    | Exit _ s' | Throw _ s' => onlyLogs s s'
    end.

(** The files counted as queued are processed, being read, or being
    written; the signal has fired if and only if all of at least one are
    processed. *)
Definition settled (w : world) : Prop :=
  count isReadDir (pending w) = 0 /\
  numberOfFilesProcessed (state w) + count isReadFile (pending w) +
    count isWriteFile (pending w) <= numberOfFilesToProcess (state w) /\
  (stat w = Running ->
   numberOfFilesProcessed (state w) + count isReadFile (pending w) +
     count isWriteFile (pending w) = numberOfFilesToProcess (state w)) /\
  completions w =
    (if (0 <? numberOfFilesToProcess (state w))%nat &&
        (numberOfFilesProcessed (state w) =? numberOfFilesToProcess (state w))%nat
     then 1 else 0).

(** Two files have been read and both writes are under way; the write to
    [filePath] finishes first, and the process is over: it died of a
    TypeError before the signal, and no callback runs any more. *)
Definition diesAfterFirstWrite (filePath : string) : Prop :=
  exists w,
    Example.run Example.statics (Example.twoFiles ++ [WriteFileDone filePath None]) = Some w /\
    numberOfFilesToProcess (state w) = 2 /\
    numberOfFilesProcessed (state w) = 1 /\
    stat w = Uncaught "TypeError" /\
    exitCode w = Some 1 /\
    completions w = 0 /\
    length (pending w) = 1 /\
    forall disk ev,
      step Example.join Example.normalize Example.dirnameOf Example.plainChalk Example.uri
        Example.parse Example.statics "/site" (Example.flagsOf false false false)
        w disk ev = None.

(** ** Notions for the statements about the URL rewriter *)

(** The text a piece stands for in the input: a replacement callback that
    returns its first argument puts the pieces back together. *)
Definition pieceText (pc : piece) : string :=
  match pc with
  | Keep c => String c EmptyString
  | Hit whole _ => whole
  end.



Fixpoint allChars (P : ascii -> bool) (s : string) : bool :=
  match s with
  | EmptyString => true
  | String c s' => P c && allChars P s'
  end.

(** The words a pattern matches, with the capture before and after,
    whatever the priorities among the ways to match. *)
Fixpoint matches (ignoreCase : bool) (r : regex) (w : string) (cin cout : option string)
  : Prop :=
  match r with
  | Eps => w = EmptyString /\ cout = cin
  | Chr c =>
      exists x, w = String x EmptyString /\
        (if ignoreCase then Js.eqChar (Js.canonicalize x) (Js.canonicalize c)
         else Js.eqChar x c) = true /\ cout = cin
  | Dot => exists x, w = String x EmptyString /\ Js.isLineTerminator x = false /\ cout = cin
  | Seq r1 r2 =>
      exists w1 w2 c1, w = w1 +:+ w2 /\ matches ignoreCase r1 w1 cin c1 /\
        matches ignoreCase r2 w2 c1 cout
  | Alt r1 r2 => matches ignoreCase r1 w cin cout \/ matches ignoreCase r2 w cin cout
  | Opt r1 => (w = EmptyString /\ cout = cin) \/ matches ignoreCase r1 w cin cout
  | LazyDots => allChars (fun c => negb (Js.isLineTerminator c)) w = true /\ cout = cin
  | Group r1 => (exists c1, matches ignoreCase r1 w cin c1) /\ cout = Some w
  end.

Definition isQuote (c : ascii) : bool := Js.eqChar c dquote || Js.eqChar c "'".

(** Nothing, or one quotation mark. *)
Definition optionalQuote (q : string) : bool :=
  match q with
  | EmptyString => true
  | String c EmptyString => isQuote c
  | _ => false
  end.

(** A character of a path that holds no line terminator, no quotation
    mark and no closing parenthesis. *)
Definition pathChar (c : ascii) : bool :=
  negb (Js.isLineTerminator c) && negb (isQuote c) && negb (Js.eqChar c ")").

Definition isMark (c : ascii) : bool := isQuote c || Js.eqChar c ")".

Definition startsWithMark (s : string) : Prop :=
  match s with
  | String c _ => isMark c = true
  | EmptyString => False
  end.

(** ** Notions for the statements about a pass *)

(** The arguments of the call of [fetchAndEmbedResource] in the loop for
    a kind of resource: the required attributes, the attribute that holds
    the path, and the new type and name. *)
Definition requiredOf (kind : string) : list string :=
  if String.eqb kind "stylesheet" then ["rel"; "href"] else ["src"].

Definition pathAttributeOf (kind : string) : string :=
  if String.eqb kind "stylesheet" then "href" else "src".

Definition newTagOf (kind : string) : option string :=
  if String.eqb kind "stylesheet" then Some "style" else None.

(** The call that acts on a node as parsed, if any: its kind and the path
    it reads.  Only elements are collected, the loops run in this order,
    and a call acts on a tag that has every attribute it requires. *)
Definition resource (imagesOn : bool) (n : node) : option (string * string) :=
  if negb (isTag (nodeType n)) then None
  else if String.eqb (nodeType n) "script" && shouldProcess (tagOf n) ["src"]
  then pair "script" <$> (nodeAttribs n ≫= getAttr "src")
  else if optEqb (nodeName n) "link" && shouldProcess (tagOf n) ["rel"; "href"]
  then pair "stylesheet" <$> (nodeAttribs n ≫= getAttr "href")
  else if imagesOn && optEqb (nodeName n) "img" && shouldProcess (tagOf n) ["src"]
  then pair "image" <$> (nodeAttribs n ≫= getAttr "src")
  else None.

(** No element that the loops collect has the attributes its call
    requires. *)
Definition nothingToEmbed (imagesOn : bool) (dom : list node) : bool :=
  forallb (fun t => negb (shouldProcess (tagOf (snd t)) ["src"]))
    (findAll (fun elem => String.eqb (nodeType elem) "script") dom) &&
  forallb (fun t => negb (shouldProcess (tagOf (snd t)) ["rel"; "href"]))
    (findAll (fun elem => optEqb (nodeName elem) "link") dom) &&
  (negb imagesOn ||
   forallb (fun t => negb (shouldProcess (tagOf (snd t)) ["src"]))
     (findAll (fun elem => optEqb (nodeName elem) "img") dom)).

(** ** Notions for the statements about the callbacks *)

(** An event that reports the failure of its call. *)
Definition failed (ev : event) : bool :=
  match ev with
  | ReaddirDone None | MkdirDone (Some _) | ReadFileDone _ None | WriteFileDone _ (Some _) =>
      true
  | _ => false
  end.

(** ** More documents and a disk for the examples *)

Module Cases.

Definition inlineScript : node := Example.element "script" [] [Example.text "run()"].

Definition linkNoRel : node := Example.element "link" [("href", "css/b.css")] [].

Definition scriptCdn : node := Example.element "script" [("src", "http://cdn/lib.js")] [].

Definition scriptDir : node := Example.element "script" [("src", "css")] [].

Definition linkBroken : node :=
  Example.element "link" [("rel", "stylesheet"); ("href", "css/broken.css")] [].

Definition head : node := Example.element "head" [] [inlineScript; linkNoRel].

Definition plainPage : list node :=
  [Example.element "html" [] [head; Example.element "body" [] [Example.text "hi"]]].

Definition pageWith (n : node) : list node :=
  [Example.element "html" [] [Example.element "head" [] [n; Example.scriptA]]].

(** The disk of the examples, with the two directories and a stylesheet
    that refers to an image that is not there. *)
Definition disk (p : string) : option entry :=
  if String.eqb p "/site/dist" then Some Dir
  else if String.eqb p "/site/src/css" then Some Dir
  else if String.eqb p "/site/src/css/broken.css" then Some (File "a{background:url(none.png)}")
  else Example.files p.

Definition passOn (cli : flags) (dom : list node) : outcome unit :=
  embedResources Example.join Example.normalize Example.dirnameOf Example.plainChalk
    Example.uri "/site" cli disk dom "/site/dist/index.html" Example.fresh.

(** A running process with one call under way. *)
Definition waiting (call : effect) : world :=
  {| state := Example.fresh; pending := [call]; stat := Running |}.

Definition runOn (evs : list event) : world :=
  default (start (Example.flagsOf false false false)) (Example.run Example.statics evs).

(** An img and a link whose local path starts with http, and a link to a
    stylesheet whose [rel] is not stylesheet. *)
Definition imgDocs : node := Example.element "img" [("src", "httpdocs/d.png")] [].

Definition linkDocs : node :=
  Example.element "link" [("rel", "icon"); ("href", "httpdocs/app.js")] [].

Definition linkIconCss : node :=
  Example.element "link" [("rel", "icon"); ("href", "css/b.css")] [].

(** The disk with the image of [imgDocs]. *)
Definition diskDocs (p : string) : option entry :=
  if String.eqb p "/site/src/httpdocs/d.png" then Some (File "PNG") else disk p.

(** A page with an element and, after it, a script at an http address: with
    the external flag on, the loop over the scripts ends the process. *)
Definition bodyWith (n : node) : list node :=
  [Example.element "html" [] [Example.element "body" [] [n; scriptCdn]]].

Definition passFrom (files : string -> option entry) (cli : flags) (dom : list node)
  : outcome unit :=
  embedResources Example.join Example.normalize Example.dirnameOf Example.plainChalk
    Example.uri "/site" cli files dom "/site/dist/index.html" Example.fresh.

End Cases.

(** ** Notions for the statement about the verbose flag *)

Definition notLog (e : effect) : bool := negb (isLog e).

(** A state and an outcome without the lines logged. *)
Definition silent (s : cstate) : cstate := withTrace (List.filter notLog (trace s)) s.

Definition silentOutcome {A} (o : outcome A) : outcome A :=
  match o with
  | Ret a s => Ret a (silent s)
  | Exit code s => Exit code (silent s)
  | Throw what s => Throw what (silent s)
  end.

(** Two pieces of the program that do the same but for what they log. *)
Definition alike {A} (m1 m2 : M A) : Prop :=
  forall s1 s2, silent s1 = silent s2 -> silentOutcome (m1 s1) = silentOutcome (m2 s2).

(** Two command lines that differ in the verbose flag at most. *)
Definition sameButVerbose (c1 c2 : flags) : Prop :=
  source c1 = source c2 /\ output c1 = output c2 /\ images c1 = images c2 /\
  external c1 = external c2 /\ minify c1 = minify c2 /\ all c1 = all c2.

(** * Properties *)

(** ** Strings *)

Lemma append_cons (c : ascii) (s t : string) : String c s +:+ t = String c (s +:+ t).
Proof. reflexivity. Qed.

Lemma append_nil_l (s : string) : EmptyString +:+ s = s.
Proof. reflexivity. Qed.

Lemma append_nil_r (s : string) : s +:+ EmptyString = s.
Proof. induction s as [|c s IH]; [reflexivity|]. rewrite append_cons, IH. reflexivity. Qed.

Lemma append_assoc (s t u : string) : (s +:+ t) +:+ u = s +:+ (t +:+ u).
Proof.
  induction s as [|c s IH]; [reflexivity|].
  rewrite !append_cons, IH. reflexivity.
Qed.


Lemma contains_refl (s : string) : contains s s.
Proof. exists EmptyString, EmptyString. rewrite append_nil_r. reflexivity. Qed.

Lemma contains_app_l (sub s t : string) : contains sub s -> contains sub (s +:+ t).
Proof.
  intros (pre & post & ->). exists pre, (post +:+ t).
  rewrite !append_assoc. reflexivity.
Qed.

Lemma contains_app_r (sub s t : string) : contains sub t -> contains sub (s +:+ t).
Proof.
  intros (pre & post & ->). exists (s +:+ pre), post.
  rewrite !append_assoc. reflexivity.
Qed.

Lemma startsWith_prefix (pre s : string) :
  Js.startsWith pre s = true <-> exists rest, s = pre +:+ rest.
Proof.
  revert s. induction pre as [|a pre IH]; intros s; simpl.
  - split; [exists s; reflexivity | reflexivity].
  - destruct s as [|b s].
    + split; [discriminate | intros [rest H]; discriminate H].
    + unfold Js.eqChar. destruct (Ascii.eqb_spec a b) as [->|Hne]; simpl.
      * rewrite IH. split; intros [rest H]; exists rest.
        -- rewrite append_cons, H. reflexivity.
        -- rewrite append_cons in H. congruence.
      * split; [discriminate|]. intros [rest H]. rewrite append_cons in H. congruence.
Qed.

(** ** The selection of the input files *)


Lemma split_pop (file : string) :
  match Js.split "." file with
  | [] => False
  | [x] => x = file /\ extensionOf file = None
  | _ :: l => Js.pop l = extensionOf file /\ extensionOf file <> None
  end.
Proof.
  induction file as [|c rest IH]; simpl; [auto|].
  destruct (Js.eqChar c ".") eqn:Hc.
  - destruct (Js.split "." rest) as [|x [|y l]]; [destruct IH| |].
    + destruct IH as [-> ->]. simpl. split; [reflexivity | discriminate].
    + destruct IH as [IH1 IH2]. cbn [Js.pop] in *.
      destruct (extensionOf rest) as [e|]; [|congruence].
      split; [exact IH1 | discriminate].
  - destruct (Js.split "." rest) as [|x [|y l]]; [destruct IH| |].
    + destruct IH as [-> ->]. auto.
    + destruct IH as [IH1 IH2].
      destruct (extensionOf rest) as [e|]; [|congruence].
      split; [exact IH1 | discriminate].
Qed.

(** What the loop of the [fs.readdir] callback tests: the text after the
    last dot, or the whole name when it has no dot. *)
Lemma isHtmlFile_spec (file : string) :
  isHtmlFile file = String.eqb (Js.toLowerCase (default file (extensionOf file))) "html".
Proof.
  unfold isHtmlFile. pose proof (split_pop file) as H.
  destruct (Js.split "." file) as [|x [|y l]]; [destruct H| |].
  - destruct H as [-> ->]. reflexivity.
  - destruct H as [H1 H2]. cbn [Js.pop] in *. rewrite H1.
    destruct (extensionOf file); [reflexivity | congruence].
Qed.

(** C7: an entry is selected if and only if its extension, compared
    case-insensitively, is html.  The loop selects by the text after the
    last dot and takes the whole name when there is no dot: the entries
    [html] and [HTML], which have no extension, are selected as well. *)
Theorem C7_entry_without_extension_selected :
  extensionOf "html" = None /\ isHtmlFile "html" = true /\
  extensionOf "HTML" = None /\ isHtmlFile "HTML" = true /\
  List.filter isHtmlFile ["index.html"; "html"; "a.HTML"; "b.htm"; "c.html.bak"; "lib"]
    = ["index.html"; "html"; "a.HTML"].
Proof. repeat split; reflexivity. Qed.

(** ** One call of [fetchAndEmbedResource] *)


Lemma logged_nil (s : cstate) : logged [] s = s.
Proof. destruct s. unfold logged, withTrace. simpl. rewrite app_nil_r. reflexivity. Qed.

Lemma logged_logged (l1 l2 : list effect) (s : cstate) :
  logged l2 (logged l1 s) = logged (l1 ++ l2) s.
Proof. unfold logged, withTrace. simpl. rewrite app_assoc. reflexivity. Qed.

Lemma emit_logged (e : effect) (s : cstate) : emit e s = Ret tt (logged [e] s).
Proof. reflexivity. Qed.

Section Facts.

Variable path_join : string -> string -> string.
Variable path_normalize : string -> string.
Variable path_dirname : string -> string.
Variable chalk : color -> string -> string.
Variable dataUri : string -> string -> string.
Variable dirname : string.
Variable cli : flags.
Variable disk : string -> option entry.

Abbreviation fetch :=
  (fetchAndEmbedResource path_join path_normalize path_dirname chalk dataUri dirname cli disk).
Abbreviation base := (basePath path_join path_normalize dirname cli).
Abbreviation vlog := (verboseLog cli).


Lemma verboseLog_said (msg : string) (s : cstate) :
  vlog msg s = Ret tt (logged (said cli msg) s).
Proof.
  unfold verboseLog, said. destruct (verbose (cliFlags cli)); [reflexivity|].
  rewrite logged_nil. reflexivity.
Qed.

Lemma fetch_skip t req kind pa nt nn s :
  shouldProcess (deref (heap s) t) req = false ->
  fetch t req kind pa nt nn s = Ret tt s.
Proof.
  intros H. unfold fetchAndEmbedResource, bind, getTag. rewrite H. reflexivity.
Qed.

Lemma fetch_external t req kind pa nt nn s a src :
  shouldProcess (deref (heap s) t) req = true ->
  attribs (deref (heap s) t) = Some a ->
  getAttr pa a = Some src ->
  Js.startsWith "http" src = true ->
  fetch t req kind pa nt nn s =
    if external (cliFlags cli)
    then Exit 1 (logged (said cli ("Fetching " +:+ kind +:+ "  " +:+ chalk blue src) ++
                         [Log (chalk red "Error: Resolving external files is not supported yet.")]) s)
    else Ret tt s.
Proof.
  intros H Ha Hs Hx. unfold fetchAndEmbedResource, bind, getTag.
  rewrite H, Ha. cbn [mbind option_bind]. rewrite Hs, Hx. cbn [negb].
  destruct (external (cliFlags cli)); [|reflexivity].
  rewrite verboseLog_said. unfold assertError, bind. rewrite emit_logged.
  unfold exit. rewrite logged_logged. reflexivity.
Qed.


Lemma embedUrl_text baseUrl (pc : piece) (a : string) (s : cstate) :
  urlText path_join dataUri disk baseUrl pc = Some a ->
  embedUrl path_join chalk dataUri cli disk baseUrl pc s =
    Ret a (logged (cssSaid path_join chalk cli baseUrl [pc]) s).
Proof.
  destruct pc as [c|whole p1]; simpl; intros Ha.
  - injection Ha as <-. rewrite logged_nil. reflexivity.
  - destruct (disk (path_join baseUrl p1)) as [[content|]|] eqn:Hd; try discriminate.
    injection Ha as <-. unfold bind. rewrite verboseLog_said.
    unfold base64Sync, bind, readFileSync. rewrite Hd, app_nil_r. reflexivity.
Qed.

Lemma cssSaid_cons baseUrl (pc : piece) (l : list piece) :
  cssSaid path_join chalk cli baseUrl (pc :: l) =
  cssSaid path_join chalk cli baseUrl [pc] ++ cssSaid path_join chalk cli baseUrl l.
Proof. destruct pc; simpl; [reflexivity|]. rewrite app_nil_r. reflexivity. Qed.

Lemma replaceEach_text baseUrl (l : list piece) (Y : string) (s : cstate) :
  cssText path_join dataUri disk baseUrl l = Some Y ->
  replaceEach (embedUrl path_join chalk dataUri cli disk baseUrl) l s =
    Ret Y (logged (cssSaid path_join chalk cli baseUrl l) s).
Proof.
  revert Y s. induction l as [|pc l IH]; intros Y s H.
  - injection H as <-. rewrite logged_nil. reflexivity.
  - cbn [cssText] in H.
    destruct (urlText path_join dataUri disk baseUrl pc) as [a|] eqn:Ha; [|discriminate].
    destruct (cssText path_join dataUri disk baseUrl l) as [b|] eqn:Hb; [|discriminate].
    injection H as <-. cbn [replaceEach]. unfold bind.
    rewrite (embedUrl_text _ _ _ _ Ha), (IH b _ eq_refl), logged_logged, <- cssSaid_cons.
    reflexivity.
Qed.

Lemma rewriteCss_text baseUrl (data Y : string) (s : cstate) :
  cssText path_join dataUri disk baseUrl (scan data 0) = Some Y ->
  rewriteCss path_join chalk dataUri cli disk baseUrl data s =
    Ret Y (logged (cssSaid path_join chalk cli baseUrl (scan data 0)) s).
Proof. apply replaceEach_text. Qed.

Lemma deref_insert (h : gmap ref tag) (t : ref * node) (v : tag) :
  deref (<[fst t := v]> h) t = v.
Proof. unfold deref. rewrite lookup_insert_eq. reflexivity. Qed.

Lemma truthy_some (src : string) : src <> EmptyString -> Js.truthy (Some src) = true.
Proof. destruct src; [congruence | reflexivity]. Qed.

(** A script whose file is there. *)
Lemma fetch_script t s a src X :
  attribs (deref (heap s) t) = Some a ->
  getAttr "src" a = Some src ->
  src <> EmptyString ->
  Js.startsWith "http" src = false ->
  disk (path_join base src) = Some (File X) ->
  fetch t ["src"] "script" "src" None None s =
    Ret tt (withHeap (<[fst t := {| type := type (deref (heap s) t);
                                    name := name (deref (heap s) t);
                                    attribs := Some (deleteAttr "src" a);
                                    children := Replaced X |}]> (heap s))
              (logged (said cli ("Fetching script " +:+ chalk blue src)) s)).
Proof.
  intros Ha Hs Hne Hx Hd. unfold fetchAndEmbedResource, bind, getTag, shouldProcess.
  rewrite Ha. cbn [forallb mbind option_bind]. rewrite Hs, (truthy_some _ Hne), Hx.
  cbn [andb negb]. rewrite verboseLog_said. unfold existsSync, readFileSync.
  cbn [logged withTrace heap]. rewrite Hd.
  change (String.eqb "script" "image") with false.
  change (String.eqb "script" "stylesheet") with false. cbn [negb].
  unfold ret, setTag, withHeap. cbn [heap trace numberOfFilesToProcess numberOfFilesProcessed].
  rewrite !deref_insert. cbn [type name attribs children default fmap option_fmap option_map].
  rewrite insert_insert_eq. reflexivity.
Qed.

(** A link whose file is there and whose images can all be read. *)
Lemma fetch_stylesheet t s a rel href X Y :
  attribs (deref (heap s) t) = Some a ->
  getAttr "rel" a = Some rel -> rel <> EmptyString ->
  getAttr "href" a = Some href -> href <> EmptyString ->
  Js.startsWith "http" href = false ->
  disk (path_join base href) = Some (File X) ->
  cssText path_join dataUri disk (path_dirname (path_join base href)) (scan X 0) = Some Y ->
  fetch t ["rel"; "href"] "stylesheet" "href" (Some "style") (Some "style") s =
    Ret tt (withHeap (<[fst t := {| type := "style"; name := Some "style";
                                    attribs := None; children := Replaced Y |}]> (heap s))
              (logged (said cli ("Fetching stylesheet " +:+ chalk blue href) ++
                       cssSaid path_join chalk cli (path_dirname (path_join base href))
                         (scan X 0)) s)).
Proof.
  intros Ha Hr Hrne Hh Hhne Hx Hd Hy.
  unfold fetchAndEmbedResource, bind, getTag, shouldProcess.
  rewrite Ha. cbn [forallb mbind option_bind].
  rewrite Hr, Hh, (truthy_some _ Hrne), (truthy_some _ Hhne), Hx.
  cbn [andb negb]. rewrite verboseLog_said. unfold existsSync, readFileSync.
  cbn [logged withTrace heap]. rewrite Hd.
  change (String.eqb "stylesheet" "image") with false.
  change (String.eqb "stylesheet" "stylesheet") with true. cbn [negb].
  unfold ret, setTag, bind. rewrite (rewriteCss_text _ _ _ _ Hy).
  unfold withHeap, logged, withTrace.
  cbn [heap trace numberOfFilesToProcess numberOfFilesProcessed].
  rewrite !deref_insert. cbn [type name attribs children default].
  rewrite !insert_insert_eq, <- app_assoc. reflexivity.
Qed.

(** An image whose file is there. *)
Lemma fetch_image t s a src X :
  attribs (deref (heap s) t) = Some a ->
  getAttr "src" a = Some src ->
  src <> EmptyString ->
  Js.startsWith "http" src = false ->
  disk (path_join base src) = Some (File X) ->
  fetch t ["src"] "image" "src" None None s =
    Ret tt (withHeap (<[fst t := {| type := type (deref (heap s) t);
                                    name := name (deref (heap s) t);
                                    attribs := Some (setAttr "src" (dataUri (path_join base src) X) a);
                                    children := children (deref (heap s) t) |}]> (heap s))
              (logged (said cli ("Fetching image " +:+ chalk blue src)) s)).
Proof.
  intros Ha Hs Hne Hx Hd. unfold fetchAndEmbedResource, bind, getTag, shouldProcess.
  rewrite Ha. cbn [forallb mbind option_bind]. rewrite Hs, (truthy_some _ Hne), Hx.
  cbn [andb negb]. rewrite verboseLog_said. unfold existsSync, base64Sync, bind, readFileSync.
  cbn [logged withTrace heap]. rewrite Hd.
  change (String.eqb "image" "image") with true. cbn [negb].
  unfold ret, setTag, withHeap, logged, withTrace.
  cbn [heap trace numberOfFilesToProcess numberOfFilesProcessed].
  rewrite Ha. reflexivity.
Qed.

End Facts.

(** ** What a piece of the program can change *)

Section Keeps.

Variable R : cstate -> cstate -> Prop.
Hypothesis R_refl : forall s, R s s.
Hypothesis R_trans : forall s1 s2 s3, R s1 s2 -> R s2 s3 -> R s1 s3.
Hypothesis R_log : forall s line, R s (logged [Log line] s).

Lemma keeps_ret {A} (a : A) : keeps R (ret a).
Proof. intros s. apply R_refl. Qed.

Lemma keeps_exit {A} (code : nat) : keeps R (@exit A code).
Proof. intros s. apply R_refl. Qed.

Lemma keeps_throw {A} (what : string) : keeps R (@throw A what).
Proof. intros s. apply R_refl. Qed.

Lemma keeps_bind {A B} (m : M A) (f : A -> M B) :
  keeps R m -> (forall a, keeps R (f a)) -> keeps R (bind m f).
Proof.
  intros Hm Hf s. unfold bind. specialize (Hm s).
  destruct (m s) as [a s'|c s'|w s']; simpl in *; [|assumption..].
  eapply R_trans; [exact Hm | apply Hf].
Qed.

Lemma keeps_log (line : string) : keeps R (emit (Log line)).
Proof. intros s. apply R_log. Qed.

Lemma keeps_getTag (t : ref * node) : keeps R (getTag t).
Proof. intros s. apply R_refl. Qed.

Lemma keeps_forEach {A} (l : list A) (f : A -> M unit) :
  (forall x, In x l -> keeps R (f x)) -> keeps R (forEach l f).
Proof.
  induction l as [|x l IH]; intros H; simpl.
  - apply keeps_ret.
  - apply keeps_bind; [apply H; left; reflexivity|].
    intros _. apply IH. intros y Hy. apply H. right. exact Hy.
Qed.

Section Calls.

Variable path_join : string -> string -> string.
Variable path_normalize : string -> string.
Variable path_dirname : string -> string.
Variable chalk : color -> string -> string.
Variable dataUri : string -> string -> string.
Variable dirname : string.
Variable cli : flags.
Variable disk : string -> option entry.

Lemma keeps_verboseLog (msg : string) : keeps R (verboseLog cli msg).
Proof. unfold verboseLog. destruct (verbose (cliFlags cli)); [apply keeps_log | apply keeps_ret]. Qed.

Lemma keeps_readFileSync (p : string) : keeps R (readFileSync disk p).
Proof.
  unfold readFileSync. destruct (disk p) as [[c|]|];
    [apply keeps_ret | apply keeps_throw | apply keeps_throw].
Qed.

Lemma keeps_base64Sync (p : string) : keeps R (base64Sync dataUri disk p).
Proof.
  unfold base64Sync. apply keeps_bind; [apply keeps_readFileSync|].
  intros c. apply keeps_ret.
Qed.

Lemma keeps_assertError (err : bool) (msg : string) : keeps R (assertError chalk err msg).
Proof.
  unfold assertError. destruct err; [|apply keeps_ret].
  apply keeps_bind; [apply keeps_log | intros _; apply keeps_exit].
Qed.

Lemma keeps_rewriteCss (baseUrl data : string) :
  keeps R (rewriteCss path_join chalk dataUri cli disk baseUrl data).
Proof.
  unfold rewriteCss. induction (scan data 0) as [|pc l IH]; simpl.
  - apply keeps_ret.
  - apply keeps_bind.
    + destruct pc as [c|w p1]; simpl; [apply keeps_ret|].
      apply keeps_bind; [apply keeps_verboseLog | intros _].
      apply keeps_bind; [apply keeps_base64Sync | intros uri; apply keeps_ret].
    + intros a. apply keeps_bind; [exact IH | intros b; apply keeps_ret].
Qed.

(** A call of [fetchAndEmbedResource] logs lines and writes to the fields
    of its own tag, and nothing else. *)
Lemma keeps_fetch t req kind pa nt nn :
  (forall s v, R s (withHeap (<[fst t := v]> (heap s)) s)) ->
  keeps R (fetchAndEmbedResource path_join path_normalize path_dirname chalk dataUri
             dirname cli disk t req kind pa nt nn).
Proof.
  intros R_set.
  assert (Hset : forall v, keeps R (setTag t v)) by (intros v s; apply R_set).
  unfold fetchAndEmbedResource.
  apply keeps_bind; [apply keeps_getTag | intros tag0].
  destruct (shouldProcess tag0 req); [|apply keeps_ret].
  destruct (attribs tag0 ≫= getAttr pa) as [src|]; [|apply keeps_throw].
  cbv zeta. destruct (negb (Js.startsWith "http" src)).
  - apply keeps_bind; [apply keeps_verboseLog | intros _].
    destruct (negb (existsSync disk _)); [apply keeps_log|].
    destruct (negb (String.eqb kind "image")).
    + apply keeps_bind; [apply keeps_readFileSync | intros data].
      apply keeps_bind; [apply Hset | intros _].
      apply keeps_bind.
      * destruct (String.eqb kind "stylesheet"); [|apply keeps_ret].
        apply keeps_bind; [apply keeps_rewriteCss | intros data'].
        apply keeps_bind; [apply keeps_getTag | intros tag1].
        apply keeps_bind; [apply Hset | intros _; apply keeps_ret].
      * intros data'. apply keeps_bind; [apply keeps_getTag | intros tag2; apply Hset].
    + apply keeps_bind; [apply keeps_base64Sync | intros uri].
      apply keeps_bind; [apply keeps_getTag | intros tag1; apply Hset].
  - destruct (external (cliFlags cli)); [|apply keeps_ret].
    apply keeps_bind; [apply keeps_verboseLog | intros _; apply keeps_assertError].
Qed.

End Calls.

End Keeps.

(** ** The document as a tree *)

Fixpoint node_ind (P : node -> Prop)
    (H : forall ty nm a ch d, Forall P ch -> P (Node ty nm a ch d)) (n : node) : P n :=
  match n with
  | Node ty nm a ch d =>
      H ty nm a ch d
        ((fix all (l : list node) : Forall P l :=
            match l with
            | [] => List.Forall_nil P
            | c :: l' => @List.Forall_cons node P c l' (node_ind P H c) (all l')
            end) ch)
  end.

Lemma findAllFrom_eq (test : node -> bool) (p : ref) (n : node) :
  findAllFrom test p n =
  if isTag (nodeType n)
  then (if test n then [(p, n)] else []) ++ findAllIn test p 0 (nodeChildren n)
  else [].
Proof.
  destruct n as [ty nm a ch d]. cbn [findAllFrom nodeType nodeChildren].
  destruct (isTag ty); [|reflexivity]. f_equal.
  generalize 0. induction ch as [|c ch IH]; intros i; [reflexivity|].
  cbn [findAllIn]. rewrite <- IH. reflexivity.
Qed.

Lemma findAllIn_lookup (test : node -> bool) (p : ref) (l : list node) (i : nat) x :
  In x (findAllIn test p i l) <->
  exists j c, l !! j = Some c /\ In x (findAllFrom test (p ++ [i + j]) c).
Proof.
  revert i. induction l as [|c l IH]; intros i; cbn [findAllIn].
  - split; [intros [] | intros (j & c & H & _); discriminate H].
  - rewrite in_app_iff, IH. split.
    + intros [H | (j & c' & Hj & H)].
      * exists 0, c. rewrite Nat.add_0_r. split; [reflexivity | exact H].
      * exists (S j), c'. rewrite Nat.add_succ_r. split; [exact Hj | exact H].
    + intros ([|j] & c' & Hj & H).
      * left. cbn in Hj. injection Hj as <-. rewrite Nat.add_0_r in H. exact H.
      * right. exists j, c'. rewrite Nat.add_succ_r in H. split; [exact Hj | exact H].
Qed.

Lemma locate_one (dom : list node) (j : nat) : locate dom [j] = dom !! j.
Proof. cbn [locate]. destruct (dom !! j); reflexivity. Qed.

Lemma locate_cons (dom : list node) (j j' : nat) (rest : ref) :
  locate dom (j :: j' :: rest) = dom !! j ≫= fun n => locate (nodeChildren n) (j' :: rest).
Proof. cbn [locate]. destruct (dom !! j); reflexivity. Qed.

Lemma ancestors_cons (P : node -> bool) (dom : list node) (j j' : nat) (rest : ref) :
  ancestors P dom (j :: j' :: rest) =
  match dom !! j with
  | Some n => P n && ancestors P (nodeChildren n) (j' :: rest)
  | None => false
  end.
Proof. reflexivity. Qed.

(** Every collected reference is a position of a tag that passes the test,
    below tags only; and every such position is collected. *)
Lemma findAllFrom_spec (test : node -> bool) (c : node) :
  forall p q n,
    In (q, n) (findAllFrom test p c) <->
    isElement c = true /\
    ((q = p /\ n = c /\ test c = true) \/
     exists j rest, q = p ++ j :: rest /\
       locate (nodeChildren c) (j :: rest) = Some n /\
       ancestors isElement (nodeChildren c) (j :: rest) = true /\
       isElement n = true /\ test n = true).
Proof.
  induction c as [ty nm a ch d IH] using node_ind. intros p q n.
  rewrite findAllFrom_eq. unfold isElement at 1. cbn [nodeType nodeChildren].
  destruct (isTag ty) eqn:Hty; [|split; [intros [] | intros [H _]; discriminate H]].
  rewrite in_app_iff, findAllIn_lookup. cbn [Nat.add]. rewrite Forall_forall in IH. split.
  - intros [H | (j & c & Hj & H)].
    + split; [reflexivity|]. left.
      destruct (test _) eqn:Ht; [|destruct H].
      destruct H as [H|[]]. injection H as <- <-. auto.
    + split; [reflexivity|]. right.
      apply (IH c) in H; [|eapply list_elem_of_lookup_2; exact Hj].
      destruct H as [Hc [(-> & -> & Ht) | (j' & rest & -> & Hl & Ha & Hn & Ht)]].
      * exists j, []. rewrite locate_one. auto.
      * exists j, (j' :: rest). rewrite <- app_assoc, locate_cons, ancestors_cons, Hj.
        cbn [mbind option_bind app]. rewrite Hc, Ha. auto.
  - intros [_ [(-> & -> & Ht) | (j & rest & -> & Hl & Ha & Hn & Ht)]].
    + left. rewrite Ht. left. reflexivity.
    + right. destruct rest as [|j' rest].
      * rewrite locate_one in Hl. exists j, n. split; [exact Hl|].
        apply (IH n); [eapply list_elem_of_lookup_2; exact Hl|].
        split; [exact Hn|]. left. auto.
      * rewrite locate_cons in Hl. rewrite ancestors_cons in Ha.
        destruct (ch !! j) as [c|] eqn:Hj; [|discriminate].
        cbn [mbind option_bind] in Hl. apply andb_true_iff in Ha as [Hc Ha].
        exists j, c. split; [exact Hj|].
        apply (IH c); [eapply list_elem_of_lookup_2; exact Hj|].
        split; [exact Hc|]. right. exists j', rest. rewrite <- app_assoc. auto.
Qed.

Lemma findAll_spec (test : node -> bool) (dom : list node) (q : ref) (n : node) :
  In (q, n) (findAll test dom) <->
  locate dom q = Some n /\ ancestors isElement dom q = true /\
  isElement n = true /\ test n = true.
Proof.
  unfold findAll. rewrite findAllIn_lookup. cbn [Nat.add app]. split.
  - intros (j & c & Hj & H). apply findAllFrom_spec in H.
    destruct H as [Hc [(-> & -> & Ht) | (j' & rest & -> & Hl & Ha & Hn & Ht)]].
    + rewrite locate_one. auto.
    + cbn [app]. rewrite locate_cons, ancestors_cons, Hj.
      cbn [mbind option_bind]. rewrite Hc, Ha. auto.
  - intros (Hl & Ha & Hn & Ht). destruct q as [|j [|j' rest]]; [discriminate| |].
    + rewrite locate_one in Hl. exists j, n. split; [exact Hl|].
      apply findAllFrom_spec. split; [exact Hn|]. left. auto.
    + rewrite locate_cons in Hl. rewrite ancestors_cons in Ha.
      destruct (dom !! j) as [c|] eqn:Hj; [|discriminate].
      cbn [mbind option_bind] in Hl. apply andb_true_iff in Ha as [Hc Ha].
      exists j, c. split; [exact Hj|]. apply findAllFrom_spec.
      split; [exact Hc|]. right. exists j', rest. auto.
Qed.

Lemma findAllFrom_below (test : node -> bool) (c : node) (p : ref) (x : ref * node) :
  In x (findAllFrom test p c) -> exists rest, fst x = p ++ rest.
Proof.
  destruct x as [q n]. intros H. apply findAllFrom_spec in H.
  destruct H as [_ [(-> & _) | (j & rest & -> & _)]].
  - exists []. rewrite app_nil_r. reflexivity.
  - exists (j :: rest). reflexivity.
Qed.

Lemma findAllIn_below (test : node -> bool) (l : list node) (p : ref) (i : nat) (x : ref * node) :
  In x (findAllIn test p i l) -> exists j rest, fst x = p ++ (i + j) :: rest.
Proof.
  intros H. apply findAllIn_lookup in H. destruct H as (j & c & _ & H).
  apply findAllFrom_below in H. destruct H as [rest H].
  exists j, rest. rewrite H, <- app_assoc. reflexivity.
Qed.

Lemma findAllIn_NoDup (test : node -> bool) (l : list node) :
  Forall (fun c => forall p, NoDup (fst <$> findAllFrom test p c)) l ->
  forall p i, NoDup (fst <$> findAllIn test p i l).
Proof.
  induction 1 as [|c l Hc _ IH]; intros p i; cbn [findAllIn].
  - constructor.
  - rewrite fmap_app. apply NoDup_app. split; [apply Hc|]. split; [|apply IH].
    intros q Hq1 Hq2.
    apply list_elem_of_fmap in Hq1 as (x1 & -> & Hx1).
    apply list_elem_of_fmap in Hq2 as (x2 & Heq & Hx2).
    apply list_elem_of_In, findAllFrom_below in Hx1 as [rest1 H1].
    apply list_elem_of_In, findAllIn_below in Hx2 as (j & rest2 & H2).
    rewrite H1, H2, <- app_assoc in Heq. apply app_inv_head in Heq.
    injection Heq as Heq _. lia.
Qed.

(** No position is collected twice. *)
Lemma findAllFrom_NoDup (test : node -> bool) (c : node) :
  forall p, NoDup (fst <$> findAllFrom test p c).
Proof.
  induction c as [ty nm a ch d IH] using node_ind. intros p.
  rewrite findAllFrom_eq. cbn [nodeType nodeChildren].
  destruct (isTag ty); [|constructor].
  rewrite fmap_app. apply NoDup_app. split; [|split].
  - destruct (test _); [apply NoDup_singleton | constructor].
  - intros q Hq1 Hq2.
    assert (q = p) as ->.
    { destruct (test _); [|inversion Hq1].
      apply list_elem_of_singleton in Hq1. exact Hq1. }
    apply list_elem_of_fmap in Hq2 as (x & Heq & Hx).
    apply list_elem_of_In, findAllIn_below in Hx as (j & rest & Hx).
    rewrite Hx in Heq. rewrite <- (app_nil_r p) in Heq at 1.
    apply app_inv_head in Heq. discriminate Heq.
  - apply findAllIn_NoDup. exact IH.
Qed.

Lemma findAll_NoDup (test : node -> bool) (dom : list node) :
  NoDup (fst <$> findAll test dom).
Proof.
  apply findAllIn_NoDup. apply Forall_forall. intros c _. apply findAllFrom_NoDup.
Qed.

Lemma includes_contains (sub s : string) : includes sub s = true <-> contains sub s.
Proof.
  induction s as [|c s IH]; cbn [includes].
  - rewrite orb_false_r, startsWith_prefix. split.
    + intros [rest H]. exists EmptyString, rest. exact H.
    + intros (pre & post & H). destruct pre; [exists post; exact H | discriminate H].
  - rewrite orb_true_iff, IH, startsWith_prefix. split.
    + intros [[rest H] | (pre & post & H)].
      * exists EmptyString, rest. exact H.
      * exists (String c pre), post. rewrite append_cons, H. reflexivity.
    + intros (pre & post & H). destruct pre as [|c' pre].
      * left. exists post. exact H.
      * right. exists pre, post. rewrite append_cons in H. congruence.
Qed.

Lemma not_includes (sub s : string) : includes sub s = false -> ~ contains sub s.
Proof. intros H Hc. apply includes_contains in Hc. congruence. Qed.

(** ** Attribute objects *)

Lemma setAttr_same (k v : string) (a : attrs) : getAttr k (setAttr k v a) = Some v.
Proof.
  induction a as [|[k' v'] a IH]; cbn [setAttr getAttr].
  - rewrite String.eqb_refl. reflexivity.
  - destruct (String.eqb k' k) eqn:E; cbn [getAttr].
    + rewrite String.eqb_refl. reflexivity.
    + rewrite E. exact IH.
Qed.

Lemma setAttr_other (k k' v : string) (a : attrs) :
  k' <> k -> getAttr k' (setAttr k v a) = getAttr k' a.
Proof.
  intros Hne. induction a as [|[k0 v0] a IH]; cbn [setAttr getAttr].
  - apply String.eqb_neq in Hne. rewrite String.eqb_sym, Hne. reflexivity.
  - destruct (String.eqb k0 k) eqn:E; cbn [getAttr].
    + apply String.eqb_eq in E. subst k0.
      apply String.eqb_neq in Hne. rewrite String.eqb_sym, Hne. reflexivity.
    + rewrite IH. reflexivity.
Qed.

Lemma setAttr_names (k v : string) (a : attrs) :
  getAttr k a <> None -> fst <$> setAttr k v a = fst <$> a.
Proof.
  induction a as [|[k0 v0] a IH]; cbn [setAttr getAttr]; [congruence|].
  destruct (String.eqb k0 k) eqn:E; intros H.
  - apply String.eqb_eq in E. subst k0. reflexivity.
  - rewrite !fmap_cons, (IH H). reflexivity.
Qed.

(** [delete a[k]] removes the attribute [k], keeps every other attribute
    with its value, and keeps the order of those that are left. *)
Lemma deleteAttr_same (k : string) (a : attrs) : getAttr k (deleteAttr k a) = None.
Proof.
  induction a as [|[k' v'] a IH]; cbn [deleteAttr getAttr]; [reflexivity|].
  destruct (String.eqb k' k) eqn:E; [exact IH|]. cbn [getAttr]. rewrite E. exact IH.
Qed.

Lemma deleteAttr_other (k k' : string) (a : attrs) :
  k' <> k -> getAttr k' (deleteAttr k a) = getAttr k' a.
Proof.
  intros Hne. induction a as [|[k0 v0] a IH]; cbn [deleteAttr getAttr]; [reflexivity|].
  destruct (String.eqb k0 k) eqn:E; cbn [getAttr].
  - apply String.eqb_eq in E. subst k0.
    apply String.eqb_neq in Hne. rewrite String.eqb_sym, Hne. exact IH.
  - rewrite IH. reflexivity.
Qed.

Lemma deleteAttr_filter (k : string) (a : attrs) :
  deleteAttr k a = List.filter (fun kv => negb (String.eqb (fst kv) k)) a.
Proof.
  induction a as [|[k0 v0] a IH]; cbn [deleteAttr List.filter fst]; [reflexivity|].
  destruct (String.eqb k0 k); cbn [negb]; rewrite IH; reflexivity.
Qed.

Lemma deleteAttr_only (k : string) (a : attrs) :
  (forall k', In k' (fst <$> a) -> k' = k) -> deleteAttr k a = [].
Proof.
  induction a as [|[k0 v0] a IH]; intros H; cbn [deleteAttr]; [reflexivity|].
  rewrite (H k0 (or_introl eq_refl)), String.eqb_refl.
  apply IH. intros k' Hk'. apply H. right. exact Hk'.
Qed.

(** A text in which the pattern matches nowhere is returned as it is. *)
Lemma cssText_no_hit (path_join : string -> string -> string)
    (dataUri : string -> string -> string) (disk : string -> option entry)
    (baseUrl data : string) :
  forallb (fun pc => negb (isHit pc)) (scan data 0) = true ->
  cssText path_join dataUri disk baseUrl (scan data 0) = Some data.
Proof.
  induction data as [|c data IH]; [reflexivity|]. cbn [scan].
  destruct (matchHere true urlRegex (String c data)) as [[rest [p1|]]|];
    cbn [forallb isHit negb andb cssText urlText]; try discriminate;
    intros H; rewrite (IH H); reflexivity.
Qed.

(** ** Loops over collected tags *)

Lemma bind_ret {A B} (m : M A) (f : A -> M B) (s s' : cstate) (b : B) :
  bind m f s = Ret b s' -> exists a s1, m s = Ret a s1 /\ f a s1 = Ret b s'.
Proof.
  unfold bind. destruct (m s) as [a s1|c s1|w s1]; [|discriminate..].
  intros H. exists a, s1. auto.
Qed.

Lemma sameAt_refl (q : ref) (s : cstate) : sameAt q s s.
Proof. reflexivity. Qed.

Lemma sameAt_trans (q : ref) (s1 s2 s3 : cstate) :
  sameAt q s1 s2 -> sameAt q s2 s3 -> sameAt q s1 s3.
Proof. unfold sameAt. congruence. Qed.

Lemma sameAt_log (q : ref) (s : cstate) (line : string) : sameAt q s (logged [Log line] s).
Proof. reflexivity. Qed.

Lemma sameAt_set (q : ref) (t : ref * node) (s : cstate) (v : tag) :
  fst t <> q -> sameAt q s (withHeap (<[fst t := v]> (heap s)) s).
Proof. intros H. unfold sameAt, withHeap. cbn [heap]. apply lookup_insert_ne. exact H. Qed.

Lemma forEach_sameAt {A} (q : ref) (l : list A) (f : A -> M unit) (s s' : cstate) :
  (forall x, In x l -> keeps (sameAt q) (f x)) ->
  forEach l f s = Ret tt s' ->
  heap s' !! q = heap s !! q.
Proof.
  intros H Hrun.
  pose proof (keeps_forEach (sameAt q) (sameAt_refl q) (sameAt_trans q) l f H s) as K.
  rewrite Hrun in K. exact K.
Qed.

(** In a loop over tags at distinct positions whose body writes to its own
    tag only, the tag at [q] is handled once, on the fields it had before
    the loop, and keeps the fields this leaves it with. *)
Lemma forEach_reach (q : ref) (n : node) (l : list (ref * node)) (f : ref * node -> M unit)
    (s s' : cstate) :
  NoDup (fst <$> l) ->
  In (q, n) l ->
  (forall t, fst t <> q -> keeps (sameAt q) (f t)) ->
  forEach l f s = Ret tt s' ->
  exists sa sb, heap sa !! q = heap s !! q /\ f (q, n) sa = Ret tt sb /\
                heap s' !! q = heap sb !! q.
Proof.
  intros Hnd Hin Hf. revert s. induction l as [|t l IH]; intros s Hrun; [destruct Hin|].
  cbn [forEach] in Hrun. apply bind_ret in Hrun as ([] & s1 & Ht & Hrest).
  rewrite fmap_cons in Hnd. apply NoDup_cons in Hnd as [Hnotin Hnd].
  destruct Hin as [-> | Hin].
  - exists s, s1. split; [reflexivity|]. split; [exact Ht|].
    apply (forEach_sameAt q l f s1 s'); [|exact Hrest].
    intros x Hx. apply Hf. intros Heq. apply Hnotin.
    apply list_elem_of_fmap. exists x. split; [symmetry; exact Heq|].
    apply list_elem_of_In. exact Hx.
  - assert (fst t <> q) as Hne.
    { intros Heq. apply Hnotin. apply list_elem_of_fmap. exists (q, n).
      split; [exact Heq | apply list_elem_of_In; exact Hin]. }
    destruct (IH Hnd Hin s1 Hrest) as (sa & sb & H1 & H2 & H3).
    exists sa, sb. split; [|auto].
    rewrite H1. pose proof (Hf t Hne s) as K. rewrite Ht in K. exact K.
Qed.

(** ** Serialization *)

Lemma getOuterHTML_eq (h : gmap ref tag) (xmlMode : bool) (p : ref) (n : node) :
  getOuterHTML h xmlMode p n =
  let t := deref h (p, n) in
  if isTag (type t) then
    let xml := xmlMode || optEqb (name t) "svg" in
    match children t with
    | Replaced text => openTag t +:+ ">" +:+ text +:+ closeTag xml t
    | Parsed =>
        match nodeChildren n with
        | [] => if xml then openTag t +:+ "/>" else openTag t +:+ ">" +:+ closeTag xml t
        | _ :: _ =>
            openTag t +:+ ">" +:+ outerHTMLs h xml p 0 (nodeChildren n) +:+ closeTag xml t
        end
    end
  else if String.eqb (type t) "directive" then "<" +:+ default "undefined" (nodeData n) +:+ ">"
  else if String.eqb (type t) "comment" then "<!--" +:+ default "undefined" (nodeData n) +:+ "-->"
  else if String.eqb (type t) "cdata" then
    "<![CDATA[" +:+
    match nodeChildren n with
    | c :: _ => default "undefined" (nodeData c)
    | [] => EmptyString
    end +:+ "]]>"
  else default EmptyString (nodeData n).
Proof.
  destruct n as [ty nm a ch d]. cbn [getOuterHTML nodeChildren nodeData]. cbv zeta.
  generalize (deref h (p, Node ty nm a ch d)). intros t.
  destruct (isTag _); [|reflexivity].
  destruct (children _); [|reflexivity].
  destruct ch as [|c ch]; [reflexivity|].
  cbn [outerHTMLs]. do 5 f_equal.
  generalize 1. induction ch as [|c' l IH]; intros i; [reflexivity|].
  cbn [outerHTMLs]. rewrite <- IH. reflexivity.
Qed.

(** An embedded script or stylesheet: its tag, the text, its end tag. *)
Lemma getOuterHTML_replaced (h : gmap ref tag) (xmlMode : bool) (p : ref) (n : node)
    (t : tag) (text : string) :
  deref h (p, n) = t -> isTag (type t) = true -> children t = Replaced text ->
  getOuterHTML h xmlMode p n =
    openTag t +:+ ">" +:+ text +:+ closeTag (xmlMode || optEqb (name t) "svg") t.
Proof.
  intros Ht Hty Hch. rewrite getOuterHTML_eq. cbv zeta. rewrite Ht, Hty, Hch. reflexivity.
Qed.

Lemma outerHTMLs_lookup (h : gmap ref tag) (xmlMode : bool) (p : ref) (l : list node)
    (i j : nat) (c : node) :
  l !! j = Some c ->
  contains (getOuterHTML h xmlMode (p ++ [i + j]) c) (outerHTMLs h xmlMode p i l).
Proof.
  revert i j. induction l as [|c' l IH]; intros i j Hj; [discriminate|].
  cbn [outerHTMLs]. destruct j as [|j].
  - injection Hj as ->. rewrite Nat.add_0_r. apply contains_app_l, contains_refl.
  - apply contains_app_r. rewrite Nat.add_succ_r. apply (IH (S i) j). exact Hj.
Qed.

Lemma contains_trans (a b c : string) : contains a b -> contains b c -> contains a c.
Proof.
  intros (p1 & q1 & ->) (p2 & q2 & ->). exists (p2 +:+ p1), (q1 +:+ q2).
  rewrite !append_assoc. reflexivity.
Qed.

(** The text of a node below elements that were not written to is part of
    the text of the document. *)
Lemma outerHTMLs_contains (h : gmap ref tag) (rest : ref) :
  forall (l : list node) (p : ref) (j : nat) (xmlMode : bool) (n : node),
    locate l (j :: rest) = Some n ->
    ancestors isElement l (j :: rest) = true ->
    (forall r1 r2, j :: rest = r1 ++ r2 -> r1 <> [] -> r2 <> [] -> h !! (p ++ r1) = None) ->
    exists xml, contains (getOuterHTML h xml (p ++ j :: rest) n) (outerHTMLs h xmlMode p 0 l).
Proof.
  induction rest as [|j' rest IH]; intros l p j xmlMode n Hl Ha Hh.
  - rewrite locate_one in Hl. exists xmlMode.
    apply (outerHTMLs_lookup h xmlMode p l 0 j n Hl).
  - rewrite locate_cons in Hl. rewrite ancestors_cons in Ha.
    destruct (l !! j) as [c|] eqn:Hj; [|discriminate].
    cbn [mbind option_bind] in Hl. apply andb_true_iff in Ha as [Hc Ha].
    assert (h !! (p ++ [j]) = None) as Hnone.
    { apply (Hh [j] (j' :: rest)); [reflexivity | discriminate | discriminate]. }
    destruct (IH (nodeChildren c) (p ++ [j]) j'
                (xmlMode || optEqb (name (tagOf c)) "svg") n Hl Ha) as [xml Hin].
    { intros r1 r2 Heq Hr1 Hr2. rewrite <- app_assoc. apply (Hh (j :: r1) r2).
      - cbn [app]. rewrite Heq. reflexivity.
      - discriminate.
      - exact Hr2. }
    exists xml. rewrite <- app_assoc in Hin. cbn [app] in Hin.
    eapply contains_trans; [exact Hin|].
    eapply contains_trans; [|apply (outerHTMLs_lookup h xmlMode p l 0 j c Hj)].
    cbn [Nat.add]. rewrite (getOuterHTML_eq h xmlMode (p ++ [j]) c). cbv zeta.
    unfold deref. cbn [fst snd]. rewrite Hnone. cbn [default].
    unfold isElement in Hc. cbn [tagOf type children]. rewrite Hc.
    destruct (nodeChildren c) as [|c0 cs] eqn:Hch.
    { cbn [locate] in Hl. rewrite lookup_nil in Hl. discriminate Hl. }
    apply contains_app_r, contains_app_r, contains_app_l, contains_refl.
Qed.

Lemma ancestors_impl (P Q : node -> bool) (dom : list node) (q : ref) :
  (forall n, P n = true -> Q n = true) ->
  ancestors P dom q = true -> ancestors Q dom q = true.
Proof.
  intros HPQ. revert dom. induction q as [|j [|j' rest] IH]; intros dom H; [reflexivity..|].
  rewrite ancestors_cons in *. destruct (dom !! j) as [n|]; [|discriminate].
  apply andb_true_iff in H as [Hn H]. rewrite (HPQ n Hn), (IH _ H). reflexivity.
Qed.

(** A position strictly above [q] holds a node that passes [P]. *)
Lemma ancestors_above (P : node -> bool) (r1 r2 : ref) (dom : list node) :
  ancestors P dom (r1 ++ r2) = true -> r1 <> [] -> r2 <> [] ->
  exists m, locate dom r1 = Some m /\ P m = true.
Proof.
  revert dom. induction r1 as [|j [|j' r1] IH]; intros dom H H1 H2; [congruence| |].
  - destruct r2 as [|j2 r2]; [congruence|]. cbn [app] in H. rewrite ancestors_cons in H.
    rewrite locate_one. destruct (dom !! j) as [n|]; [|discriminate].
    apply andb_true_iff in H as [Hn _]. exists n. auto.
  - cbn [app] in H. rewrite ancestors_cons in H. rewrite locate_cons.
    destruct (dom !! j) as [n|]; [|discriminate].
    apply andb_true_iff in H as [_ H]. cbn [mbind option_bind].
    apply (IH (nodeChildren n)); [exact H | discriminate | exact H2].
Qed.

(** A position whose node fails the test is not among the collected
    references. *)
Lemma not_collected (test : node -> bool) (dom : list node) (r : ref) (l : list (ref * node)) :
  (forall t, In t l -> In t (findAll test dom)) ->
  (forall m, locate dom r = Some m -> test m = false) ->
  forall t, In t l -> fst t <> r.
Proof.
  intros Hsub Htest [q n] Hin Heq. cbn [fst] in Heq. subst q.
  apply Hsub, findAll_spec in Hin as (Hl & _ & _ & Ht).
  rewrite (Htest n Hl) in Ht. discriminate.
Qed.

(** ** The embedding pass *)

Section Pass.

Variable path_join : string -> string -> string.
Variable path_normalize : string -> string.
Variable path_dirname : string -> string.
Variable chalk : color -> string -> string.
Variable dataUri : string -> string -> string.
Variable dirname : string.
Variable cli : flags.
Variable disk : string -> option entry.

Abbreviation fetch :=
  (fetchAndEmbedResource path_join path_normalize path_dirname chalk dataUri dirname cli disk).
Abbreviation embed :=
  (embedResources path_join path_normalize path_dirname chalk dataUri dirname cli disk).
Abbreviation base := (basePath path_join path_normalize dirname cli).

Lemma fetch_sameAt (q : ref) t req kind pa nt nn :
  fst t <> q -> keeps (sameAt q) (fetch t req kind pa nt nn).
Proof.
  intros H. apply keeps_fetch.
  - apply sameAt_refl.
  - apply sameAt_trans.
  - apply sameAt_log.
  - intros s v. apply sameAt_set. exact H.
Qed.

(** A pass that returns ran its three loops to the end and then issued the
    write of the serialized document. *)
Lemma embedResources_ret (dom : list node) (filePath : string) (s s' : cstate) :
  embed dom filePath s = Ret tt s' ->
  exists s1 s2 s3,
    forEach (findAll (fun elem => String.eqb (nodeType elem) "script") dom)
      (fun tag => fetch tag ["src"] "script" "src" None None)
      (logged (said cli "Embedding resources...") s) = Ret tt s1 /\
    forEach (findAll (fun elem => optEqb (nodeName elem) "link") dom)
      (fun tag => fetch tag ["rel"; "href"] "stylesheet" "href" (Some "style") (Some "style"))
      s1 = Ret tt s2 /\
    forEach (if images (cliFlags cli)
             then findAll (fun elem => optEqb (nodeName elem) "img") dom else [])
      (fun tag => fetch tag ["src"] "image" "src" None None) s2 = Ret tt s3 /\
    s' = logged (said cli ("Writing embedded file " +:+ chalk blue filePath) ++
                 [WriteFile filePath (outerHTMLs (heap s3) false [] 0 dom)]) s3.
Proof.
  unfold embedResources. intros H.
  apply bind_ret in H as ([] & s0 & H0 & H). rewrite verboseLog_said in H0.
  injection H0 as <-. cbv zeta in H.
  apply bind_ret in H as ([] & s1 & H1 & H).
  apply bind_ret in H as ([] & s2 & H2 & H).
  apply bind_ret in H as ([] & s3 & H3 & H).
  exists s1, s2, s3. repeat (split; [assumption|]).
  unfold writeFile, bind in H. rewrite verboseLog_said, emit_logged, logged_logged in H.
  injection H as <-. reflexivity.
Qed.

(** The object at a position none of the three loops collects is never
    written to. *)
Lemma embedResources_untouched (dom : list node) (filePath : string) (s s' : cstate) (r : ref) :
  embed dom filePath s = Ret tt s' ->
  (forall m, locate dom r = Some m ->
     String.eqb (nodeType m) "script" = false /\ optEqb (nodeName m) "link" = false /\
     (images (cliFlags cli) = false \/ optEqb (nodeName m) "img" = false)) ->
  heap s' !! r = heap s !! r.
Proof.
  intros H Hr. apply embedResources_ret in H as (s1 & s2 & s3 & H1 & H2 & H3 & ->).
  change (heap (logged _ s3)) with (heap s3).
  assert (heap s3 !! r = heap s2 !! r) as ->.
  { apply (forEach_sameAt r _ _ s2 s3) in H3; [exact H3|].
    intros x Hx. apply fetch_sameAt. revert x Hx.
    destruct (images (cliFlags cli)) eqn:Himg; [|intros x []].
    apply (not_collected (fun elem => optEqb (nodeName elem) "img") dom); [auto|].
    intros m Hm. destruct (Hr m Hm) as (_ & _ & [Hi | Hi]); [discriminate | exact Hi]. }
  assert (heap s2 !! r = heap s1 !! r) as ->.
  { apply (forEach_sameAt r _ _ s1 s2) in H2; [exact H2|].
    intros x Hx. apply fetch_sameAt. revert x Hx.
    apply (not_collected (fun elem => optEqb (nodeName elem) "link") dom); [auto|].
    intros m Hm. apply (Hr m Hm). }
  apply (forEach_sameAt r _ _ _ s1) in H1; [exact H1|].
  intros x Hx. apply fetch_sameAt. revert x Hx.
  apply (not_collected (fun elem => String.eqb (nodeType elem) "script") dom); [auto|].
  intros m Hm. apply (Hr m Hm).
Qed.

Lemma plain_not_collected (m : node) :
  plain m = true ->
  String.eqb (nodeType m) "script" = false /\ optEqb (nodeName m) "link" = false /\
  (images (cliFlags cli) = false \/ optEqb (nodeName m) "img" = false).
Proof.
  unfold plain. intros H.
  apply andb_true_iff in H as [H Hi]. apply andb_true_iff in H as [H Hl].
  apply andb_true_iff in H as [_ Hs].
  apply negb_true_iff in Hi, Hl, Hs. auto.
Qed.

(** The text written for the document holds the text of every node that
    lies below plain elements only. *)
Lemma embedResources_writes (dom : list node) (filePath : string) (s s' : cstate)
    (q : ref) (n : node) :
  heap s = ∅ ->
  embed dom filePath s = Ret tt s' ->
  locate dom q = Some n ->
  ancestors plain dom q = true ->
  exists out xml,
    last (trace s') = Some (WriteFile filePath out) /\
    contains (getOuterHTML (heap s') xml q n) out.
Proof.
  intros Hs H Hl Ha.
  pose proof (embedResources_ret dom filePath s s' H) as (s1 & s2 & s3 & _ & _ & _ & Heq).
  exists (outerHTMLs (heap s') false [] 0 dom).
  destruct q as [|j rest]; [discriminate|].
  destruct (outerHTMLs_contains (heap s') rest dom [] j false n Hl) as [xml Hin].
  - apply (ancestors_impl plain); [|exact Ha].
    intros m Hm. unfold plain in Hm. unfold isElement.
    apply andb_true_iff in Hm as [Hm _]. apply andb_true_iff in Hm as [Hm _].
    apply andb_true_iff in Hm as [Hm _]. exact Hm.
  - intros r1 r2 Heq' Hr1 Hr2. cbn [app].
    rewrite (embedResources_untouched dom filePath s s' r1 H).
    + rewrite Hs. apply lookup_empty.
    + intros m Hm. rewrite Heq' in Ha.
      destruct (ancestors_above plain r1 r2 dom Ha Hr1 Hr2) as (m' & Hm' & Hp).
      rewrite Hm in Hm'. injection Hm' as <-. apply plain_not_collected. exact Hp.
  - exists xml. split; [|exact Hin].
    rewrite Heq. unfold logged, withTrace. cbn [trace heap].
    rewrite app_assoc, last_snoc. reflexivity.
Qed.

(** The loop over the tags collected by [test] handles the tag at a
    collected position once, on the fields it had before the loop. *)
Lemma loop_at (test : node -> bool) req kind pa nt nn (dom : list node) (q : ref) (n : node)
    (s s' : cstate) :
  In (q, n) (findAll test dom) ->
  forEach (findAll test dom) (fun tag => fetch tag req kind pa nt nn) s = Ret tt s' ->
  exists sa sb, heap sa !! q = heap s !! q /\
                fetch (q, n) req kind pa nt nn sa = Ret tt sb /\
                heap s' !! q = heap sb !! q.
Proof.
  intros Hin Hrun.
  apply (forEach_reach q n (findAll test dom) (fun tag => fetch tag req kind pa nt nn)
           s s' (findAll_NoDup test dom) Hin); [|exact Hrun].
  intros t Ht. apply fetch_sameAt. exact Ht.
Qed.

(** The loop does not write to a position it did not collect. *)
Lemma loop_skip (test : node -> bool) req kind pa nt nn (dom : list node) (r : ref)
    (l : list (ref * node)) (s s' : cstate) :
  (forall t, In t l -> In t (findAll test dom)) ->
  (forall m, locate dom r = Some m -> test m = false) ->
  forEach l (fun tag => fetch tag req kind pa nt nn) s = Ret tt s' ->
  heap s' !! r = heap s !! r.
Proof.
  intros Hsub Htest Hrun.
  apply (forEach_sameAt r l (fun tag => fetch tag req kind pa nt nn) s s'); [|exact Hrun].
  intros x Hx. apply fetch_sameAt. exact (not_collected test dom r l Hsub Htest x Hx).
Qed.

Lemma imageTags_sub (dom : list node) (t : ref * node) :
  In t (if images (cliFlags cli)
        then findAll (fun elem => optEqb (nodeName elem) "img") dom else []) ->
  In t (findAll (fun elem => optEqb (nodeName elem) "img") dom).
Proof. destruct (images (cliFlags cli)); [auto | intros []]. Qed.

Lemma plain_isElement (m : node) : plain m = true -> isElement m = true.
Proof.
  unfold plain, isElement. intros H.
  apply andb_true_iff in H as [H _]. apply andb_true_iff in H as [H _].
  apply andb_true_iff in H as [H _]. exact H.
Qed.

Lemma deref_none (h : gmap ref tag) (q : ref) (n : node) :
  h !! q = None -> deref h (q, n) = tagOf n.
Proof. unfold deref. cbn [fst snd]. intros ->. reflexivity. Qed.

Lemma deref_some (h : gmap ref tag) (q : ref) (n : node) (v : tag) :
  h !! q = Some v -> deref h (q, n) = v.
Proof. unfold deref. cbn [fst snd]. intros ->. reflexivity. Qed.

(** C1: in a pass that returns, a script whose [src] is not empty, does
    not start with http and names a file that is there loses the [src]
    attribute and no other (the attributes that are left keep their values
    and their order), stays a script, and has the text of the file as its
    only child; the serialized document holds its start tag with the
    attributes that are left, the text of the file and its end tag: this is
    [<script>X</script>] when [src] was its only attribute. *)
Theorem C1_script_embedded (dom : list node) (filePath : string) (s s' : cstate)
    (q : ref) (n : node) (a : attrs) (src X : string) :
  heap s = ∅ ->
  locate dom q = Some n ->
  ancestors plain dom q = true ->
  nodeType n = "script" ->
  nodeName n = Some "script" ->
  nodeAttribs n = Some a ->
  getAttr "src" a = Some src ->
  src <> EmptyString ->
  Js.startsWith "http" src = false ->
  disk (path_join base src) = Some (File X) ->
  embed dom filePath s = Ret tt s' ->
  exists a',
    deref (heap s') (q, n) =
      {| type := "script"; name := Some "script";
         attribs := Some a'; children := Replaced X |} /\
    getAttr "src" a' = None /\
    (forall k, k <> "src" -> getAttr k a' = getAttr k a) /\
    a' = List.filter (fun kv => negb (String.eqb (fst kv) "src")) a /\
    exists out,
      last (trace s') = Some (WriteFile filePath out) /\
      contains ("<script" +:+
                (if isEmpty (formatAttrs (Some a')) then EmptyString
                 else " " +:+ formatAttrs (Some a')) +:+
                ">" +:+ X +:+ "</script>") out /\
      ((forall k, In k (fst <$> a) -> k = "src") ->
       contains ("<script>" +:+ X +:+ "</script>") out).
Proof.
  intros Hs Hl Ha Hty Hnm Hat Hsrc Hne Hx Hd Hrun.
  assert (heap s' !! q =
          Some {| type := "script"; name := Some "script";
                  attribs := Some (deleteAttr "src" a); children := Replaced X |}) as Hq.
  { pose proof (embedResources_ret dom filePath s s' Hrun)
      as (s1 & s2 & s3 & H1 & H2 & H3 & ->).
    change (heap (logged _ s3)) with (heap s3).
    assert (heap s3 !! q = heap s2 !! q) as ->.
    { eapply loop_skip; [apply imageTags_sub | | exact H3].
      intros m Hm. rewrite Hl in Hm. injection Hm as <-. cbv beta. rewrite Hnm. reflexivity. }
    assert (heap s2 !! q = heap s1 !! q) as ->.
    { eapply loop_skip; [intros t Ht; exact Ht | | exact H2].
      intros m Hm. rewrite Hl in Hm. injection Hm as <-. cbv beta. rewrite Hnm. reflexivity. }
    assert (In (q, n) (findAll (fun elem => String.eqb (nodeType elem) "script") dom)) as Hin.
    { apply findAll_spec. split; [exact Hl|]. split.
      - apply (ancestors_impl plain); [exact plain_isElement | exact Ha].
      - unfold isElement. rewrite Hty. split; reflexivity. }
    destruct (loop_at _ _ _ _ _ _ dom q n _ s1 Hin H1) as (sa & sb & Hsa & Hf & Hsb).
    change (heap (logged _ s)) with (heap s) in Hsa. rewrite Hs, lookup_empty in Hsa.
    rewrite (fetch_script path_join path_normalize path_dirname chalk dataUri dirname cli disk
               (q, n) sa a src X) in Hf; try assumption.
    2:{ rewrite (deref_none _ _ _ Hsa). exact Hat. }
    injection Hf as <-. rewrite Hsb. unfold withHeap. cbn [heap fst].
    rewrite lookup_insert_eq, (deref_none _ _ _ Hsa). cbn [tagOf type name].
    rewrite Hty, Hnm. reflexivity. }
  exists (deleteAttr "src" a).
  split; [apply deref_some; exact Hq|].
  split; [apply deleteAttr_same|].
  split; [intros k Hk; apply deleteAttr_other; exact Hk|].
  split; [apply deleteAttr_filter|].
  destruct (embedResources_writes dom filePath s s' q n Hs Hrun Hl Ha)
    as (out & xml & Hlast & Hin).
  exists out. split; [exact Hlast|].
  rewrite (getOuterHTML_replaced (heap s') xml q n _ X (deref_some _ _ _ _ Hq)
             eq_refl eq_refl) in Hin.
  split; [exact Hin|].
  intros Honly. rewrite (deleteAttr_only "src" a Honly) in Hin. exact Hin.
Qed.

(** The pass over a link with [rel] and [href] whose file is there. *)
Lemma link_pass (dom : list node) (filePath : string) (s s' : cstate)
    (q : ref) (n : node) (a : attrs) (rel href X Y : string) :
  heap s = ∅ ->
  locate dom q = Some n ->
  ancestors plain dom q = true ->
  nodeType n = "tag" ->
  nodeName n = Some "link" ->
  nodeAttribs n = Some a ->
  getAttr "rel" a = Some rel -> rel <> EmptyString ->
  getAttr "href" a = Some href -> href <> EmptyString ->
  Js.startsWith "http" href = false ->
  disk (path_join base href) = Some (File X) ->
  cssText path_join dataUri disk (path_dirname (path_join base href)) (scan X 0) = Some Y ->
  embed dom filePath s = Ret tt s' ->
  In (q, n) (findAll (fun elem => optEqb (nodeName elem) "link") dom) /\
  deref (heap s') (q, n) =
    {| type := "style"; name := Some "style"; attribs := None; children := Replaced Y |} /\
  exists out,
    last (trace s') = Some (WriteFile filePath out) /\
    contains ("<style>" +:+ Y +:+ "</style>") out.
Proof.
  intros Hs Hl Ha Hty Hnm Hat Hrel Hrne Hhref Hhne Hx Hd HY Hrun.
  assert (In (q, n) (findAll (fun elem => optEqb (nodeName elem) "link") dom)) as Hin.
  { apply findAll_spec. split; [exact Hl|]. split.
    - apply (ancestors_impl plain); [exact plain_isElement | exact Ha].
    - unfold isElement. rewrite Hty, Hnm. split; reflexivity. }
  split; [exact Hin|].
  assert (heap s' !! q =
          Some {| type := "style"; name := Some "style"; attribs := None;
                  children := Replaced Y |}) as Hq.
  { pose proof (embedResources_ret dom filePath s s' Hrun)
      as (s1 & s2 & s3 & H1 & H2 & H3 & ->).
    change (heap (logged _ s3)) with (heap s3).
    assert (heap s3 !! q = heap s2 !! q) as ->.
    { eapply loop_skip; [apply imageTags_sub | | exact H3].
      intros m Hm. rewrite Hl in Hm. injection Hm as <-. cbv beta. rewrite Hnm. reflexivity. }
    assert (heap s1 !! q = None) as Hs1.
    { erewrite loop_skip; [ | intros t Ht; exact Ht | | exact H1].
      - change (heap (logged _ s)) with (heap s). rewrite Hs. apply lookup_empty.
      - intros m Hm. rewrite Hl in Hm. injection Hm as <-. cbv beta. rewrite Hty. reflexivity. }
    destruct (loop_at _ _ _ _ _ _ dom q n s1 s2 Hin H2) as (sa & sb & Hsa & Hf & Hsb).
    rewrite Hs1 in Hsa.
    rewrite (fetch_stylesheet path_join path_normalize path_dirname chalk dataUri dirname cli
               disk (q, n) sa a rel href X Y) in Hf; try assumption.
    2:{ rewrite (deref_none _ _ _ Hsa). exact Hat. }
    injection Hf as <-. rewrite Hsb. unfold withHeap. cbn [heap fst].
    apply lookup_insert_eq. }
  split; [apply deref_some; exact Hq|].
  destruct (embedResources_writes dom filePath s s' q n Hs Hrun Hl Ha)
    as (out & xml & Hlast & Hin').
  exists out. split; [exact Hlast|].
  rewrite (getOuterHTML_replaced (heap s') xml q n _ Y (deref_some _ _ _ _ Hq)
             eq_refl eq_refl) in Hin'.
  exact Hin'.
Qed.

(** C2: in a pass that returns, a link with non-empty [rel] and [href]
    whose [href] does not start with http and names a file that is there,
    in which every image the rewriter matches can be read, loses all its
    attributes, becomes a style element, and has the text the rewriter
    returns, Y, as its only child; the serialized document holds
    [<style>Y</style>]. *)
Theorem C2_link_becomes_style (dom : list node) (filePath : string) (s s' : cstate)
    (q : ref) (n : node) (a : attrs) (rel href X Y : string) :
  heap s = ∅ ->
  locate dom q = Some n ->
  ancestors plain dom q = true ->
  nodeType n = "tag" ->
  nodeName n = Some "link" ->
  nodeAttribs n = Some a ->
  getAttr "rel" a = Some rel -> rel <> EmptyString ->
  getAttr "href" a = Some href -> href <> EmptyString ->
  Js.startsWith "http" href = false ->
  disk (path_join base href) = Some (File X) ->
  cssText path_join dataUri disk (path_dirname (path_join base href)) (scan X 0) = Some Y ->
  embed dom filePath s = Ret tt s' ->
  attribs (deref (heap s') (q, n)) = None /\
  type (deref (heap s') (q, n)) = "style" /\
  name (deref (heap s') (q, n)) = Some "style" /\
  children (deref (heap s') (q, n)) = Replaced Y /\
  exists out,
    last (trace s') = Some (WriteFile filePath out) /\
    contains ("<style>" +:+ Y +:+ "</style>") out.
Proof.
  intros Hs Hl Ha Hty Hnm Hat Hrel Hrne Hhref Hhne Hx Hd HY Hrun.
  destruct (link_pass dom filePath s s' q n a rel href X Y) as (_ & -> & Hout);
    try assumption.
  repeat (split; [reflexivity|]). exact Hout.
Qed.

(** C10: the loop over stylesheets collects every element named link,
    whatever its [rel] says: in a pass that returns, with non-empty [rel]
    and [href], an [href] that does not start with http and names a file
    that is there, in which every image the rewriter matches can be read,
    the element becomes a style element whose only child is the text of
    the file, passed through the rewriter as for any stylesheet (so it is
    the text as it is when the rewriter finds no image reference in it). *)
Theorem C10_any_rel_is_embedded (dom : list node) (filePath : string) (s s' : cstate)
    (q : ref) (n : node) (a : attrs) (rel href X Y : string) :
  heap s = ∅ ->
  locate dom q = Some n ->
  ancestors plain dom q = true ->
  nodeType n = "tag" ->
  nodeName n = Some "link" ->
  nodeAttribs n = Some a ->
  getAttr "rel" a = Some rel -> rel <> EmptyString ->
  getAttr "href" a = Some href -> href <> EmptyString ->
  Js.startsWith "http" href = false ->
  disk (path_join base href) = Some (File X) ->
  cssText path_join dataUri disk (path_dirname (path_join base href)) (scan X 0) = Some Y ->
  embed dom filePath s = Ret tt s' ->
  In (q, n) (findAll (fun elem => optEqb (nodeName elem) "link") dom) /\
  deref (heap s') (q, n) =
    {| type := "style"; name := Some "style"; attribs := None; children := Replaced Y |} /\
  (forallb (fun pc => negb (isHit pc)) (scan X 0) = true -> Y = X) /\
  exists out,
    last (trace s') = Some (WriteFile filePath out) /\
    contains ("<style>" +:+ Y +:+ "</style>") out.
Proof.
  intros Hs Hl Ha Hty Hnm Hat Hrel Hrne Hhref Hhne Hx Hd HY Hrun.
  destruct (link_pass dom filePath s s' q n a rel href X Y) as (Hin & Hq & Hout);
    try assumption.
  repeat (split; [assumption|]). split; [|exact Hout].
  intros Hno.
  rewrite (cssText_no_hit path_join dataUri disk _ X Hno) in HY. congruence.
Qed.

Lemma getOuterHTML_leaf (h : gmap ref tag) (xmlMode : bool) (q : ref) (n : node) :
  h !! q = None -> nodeChildren n = [] ->
  getOuterHTML h xmlMode q n = getOuterHTML ∅ xmlMode q n.
Proof.
  intros Hq Hch. rewrite !getOuterHTML_eq.
  rewrite (deref_none h q n Hq), (deref_none ∅ q n (lookup_empty q)), Hch. reflexivity.
Qed.

(** A pass does not write to an element that none of its loops collects,
    however it ends. *)
Lemma embedResources_sameAt (dom : list node) (filePath : string) (r : ref) :
  (forall m, locate dom r = Some m ->
     String.eqb (nodeType m) "script" = false /\ optEqb (nodeName m) "link" = false /\
     (images (cliFlags cli) = false \/ optEqb (nodeName m) "img" = false)) ->
  keeps (sameAt r) (embed dom filePath).
Proof.
  intros Hr. unfold embedResources. cbv zeta.
  assert (forall test req kind pa nt nn (l : list (ref * node)),
            (forall t, In t l -> In t (findAll test dom)) ->
            (forall m, locate dom r = Some m -> test m = false) ->
            keeps (sameAt r) (forEach l (fun tag => fetch tag req kind pa nt nn))) as Hloop.
  { intros test req kind pa nt nn l Hsub Htest.
    apply keeps_forEach; [apply sameAt_refl | apply sameAt_trans|].
    intros t Ht. apply fetch_sameAt. exact (not_collected test dom r l Hsub Htest t Ht). }
  apply keeps_bind; [apply sameAt_trans | | intros _].
  { apply keeps_verboseLog; [apply sameAt_refl | apply sameAt_log]. }
  apply keeps_bind; [apply sameAt_trans | | intros _].
  { apply (Hloop (fun elem => String.eqb (nodeType elem) "script")); [auto|].
    intros m Hm. exact (proj1 (Hr m Hm)). }
  apply keeps_bind; [apply sameAt_trans | | intros _].
  { apply (Hloop (fun elem => optEqb (nodeName elem) "link")); [auto|].
    intros m Hm. exact (proj1 (proj2 (Hr m Hm))). }
  apply keeps_bind; [apply sameAt_trans | | intros _].
  { destruct (images (cliFlags cli)) eqn:Himg.
    - apply (Hloop (fun elem => optEqb (nodeName elem) "img")); [auto|].
      intros m Hm. destruct (Hr m Hm) as (_ & _ & [Hi | Hi]); [discriminate | exact Hi].
    - intros s. apply sameAt_refl. }
  intros s. unfold writeFile, bind. rewrite verboseLog_said, emit_logged. reflexivity.
Qed.

(** C6: with the images flag on, in a pass that returns, an img whose
    [src] is not empty, does not start with http and names a file that is
    there gets the data URI of the encoder as the value of [src]; its type,
    name, children and other attributes stay as they are.  With the flag
    off no img is collected, and no img is written to, however the pass
    ends: its text, serialized, is that of the parsed element. *)
Theorem C6_img_only_src_changes (dom : list node) (filePath : string) (s : cstate)
    (q : ref) (n : node) :
  heap s = ∅ ->
  locate dom q = Some n ->
  nodeType n = "tag" ->
  nodeName n = Some "img" ->
  (images (cliFlags cli) = true ->
   ancestors plain dom q = true ->
   forall (a : attrs) (src X : string) (s' : cstate),
     nodeAttribs n = Some a ->
     getAttr "src" a = Some src ->
     src <> EmptyString ->
     Js.startsWith "http" src = false ->
     disk (path_join base src) = Some (File X) ->
     embed dom filePath s = Ret tt s' ->
     exists a',
       deref (heap s') (q, n) =
         {| type := "tag"; name := Some "img"; attribs := Some a'; children := Parsed |} /\
       getAttr "src" a' = Some (dataUri (path_join base src) X) /\
       (forall k, k <> "src" -> getAttr k a' = getAttr k a) /\
       fst <$> a' = fst <$> a) /\
  (images (cliFlags cli) = false ->
     (if images (cliFlags cli)
      then findAll (fun elem => optEqb (nodeName elem) "img") dom else []) = [] /\
     heap (final (embed dom filePath s)) !! q = None /\
     deref (heap (final (embed dom filePath s))) (q, n) = tagOf n /\
     (nodeChildren n = [] ->
      forall xml, getOuterHTML (heap (final (embed dom filePath s))) xml q n =
                  getOuterHTML ∅ xml q n)).
Proof.
  intros Hs Hl Hty Hnm.
  split; intros Himg.
  - intros Ha a src X s' Hat Hsrc Hne Hx Hd Hrun.
    pose proof (embedResources_ret dom filePath s s' Hrun)
      as (s1 & s2 & s3 & H1 & H2 & H3 & Heq).
    assert (heap s2 !! q = None) as Hs2.
    { erewrite loop_skip; [ | intros t Ht; exact Ht | | exact H2].
      2:{ intros m Hm. rewrite Hl in Hm. injection Hm as <-. cbv beta. rewrite Hnm.
          reflexivity. }
      erewrite loop_skip; [ | intros t Ht; exact Ht | | exact H1].
      2:{ intros m Hm. rewrite Hl in Hm. injection Hm as <-. cbv beta. rewrite Hty.
          reflexivity. }
      change (heap (logged _ s)) with (heap s). rewrite Hs. apply lookup_empty. }
    assert (heap s' = heap s3) as Hs' by (rewrite Heq; reflexivity).
    rewrite Himg in H3.
    assert (In (q, n) (findAll (fun elem => optEqb (nodeName elem) "img") dom)) as Hin.
    { apply findAll_spec. split; [exact Hl|]. split.
      - apply (ancestors_impl plain); [exact plain_isElement | exact Ha].
      - unfold isElement. rewrite Hty, Hnm. split; reflexivity. }
    destruct (loop_at _ _ _ _ _ _ dom q n s2 s3 Hin H3) as (sa & sb & Hsa & Hf & Hsb).
    rewrite Hs2 in Hsa.
    rewrite (fetch_image path_join path_normalize path_dirname chalk dataUri dirname cli
               disk (q, n) sa a src X) in Hf; try assumption.
    2:{ rewrite (deref_none _ _ _ Hsa). exact Hat. }
    injection Hf as <-.
    exists (setAttr "src" (dataUri (path_join base src) X) a).
    split; [|split; [apply setAttr_same | split]].
    + apply deref_some. rewrite Hs', Hsb. unfold withHeap. cbn [heap fst].
      rewrite lookup_insert_eq, (deref_none _ _ _ Hsa). cbn [tagOf type name children].
      rewrite Hty, Hnm. reflexivity.
    + intros k Hk. apply setAttr_other. exact Hk.
    + apply setAttr_names. rewrite Hsrc. discriminate.
  - assert (heap (final (embed dom filePath s)) !! q = None) as Hq.
    { pose proof (embedResources_sameAt dom filePath q) as Hkeep.
      unfold keeps, sameAt in Hkeep. rewrite Hkeep; [rewrite Hs; apply lookup_empty|].
      intros m Hm. rewrite Hl in Hm. injection Hm as <-. rewrite Hty, Hnm.
      split; [reflexivity|]. split; [reflexivity|]. left. exact Himg. }
    rewrite Himg.
    split; [reflexivity|]. split; [exact Hq|]. split; [apply deref_none; exact Hq|].
    intros Hch xml. apply getOuterHTML_leaf; assumption.
Qed.

End Pass.

(** ** Missing files and external references *)

Section Skipped.

Variable path_join : string -> string -> string.
Variable path_normalize : string -> string.
Variable path_dirname : string -> string.
Variable chalk : color -> string -> string.
Variable dataUri : string -> string -> string.
Variable dirname : string.
Variable cli : flags.
Variable disk : string -> option entry.

Abbreviation fetchOn :=
  (fetchAndEmbedResource path_join path_normalize path_dirname chalk dataUri dirname cli).
Abbreviation base := (basePath path_join path_normalize dirname cli).




End Skipped.

(** ** The CSS URL rewriter on one line with two references *)

(** C3: every [url(...)] whose path ends in an image extension is replaced
    by the data URI of that path, and every other [url(...)] is left as it
    is.  Not so on a line with a font reference followed by an image
    reference the lazy capture starts at the first [url(] and runs past its
    closing parenthesis: there is one match, from the first [url(] to the
    end of the second reference, its path is neither of the two paths, the
    font reference is not kept, and the encoder is asked for a file that
    does not exist.  An absolute reference that ends in an image extension
    is a match too. *)
Theorem C3_capture_runs_past_the_parenthesis :
  scan "a{src:url(f.woff)} b{background:url(img/c.png)}" 0 =
    [Keep "a"; Keep "{"; Keep "s"; Keep "r"; Keep "c"; Keep ":";
     Hit "url(f.woff)} b{background:url(img/c.png)" "f.woff)} b{background:url(img/c.png";
     Keep "}"] /\
  Example.files "/site/src/css/img/c.png" = Some (File "PNG") /\
  rewriteCss Example.join Example.plainChalk Example.uri (Example.flagsOf false false false)
    Example.files "/site/src/css" "a{src:url(f.woff)} b{background:url(img/c.png)}"
    Example.fresh = Throw "ENOENT" Example.fresh /\
  rewriteCss Example.join Example.plainChalk Example.uri (Example.flagsOf false false false)
    Example.files "/site/src/css" "b{background:url(img/c.png)}" Example.fresh =
    Ret "b{background:url(data:image/png;base64,PNG)}" Example.fresh /\
  scan "url(http://cdn/x.png)" 0 = [Hit "url(http://cdn/x.png)" "http://cdn/x.png"].
Proof. repeat split; vm_compute; reflexivity. Qed.

(** ** The completion counters *)

Lemma step_over path_join path_normalize path_dirname chalk dataUri parseDOM spinnerStatic
    dirname cli (w : world) (disk : string -> option entry) (ev : event) :
  stat w <> Running ->
  step path_join path_normalize path_dirname chalk dataUri parseDOM spinnerStatic
    dirname cli w disk ev = None.
Proof. unfold step. destruct (stat w); [congruence | reflexivity | reflexivity]. Qed.

(** C8: the completion signal fires exactly once, after all N writes have
    finished, in any finishing order.  Not so with two files: the
    callback of the write that finishes first counts 1 of 2 and goes on to
    set the title of the spinner through the constructor [Spinner], which
    has no [setSpinnerTitle]: the process dies of the TypeError with code
    1, the callback of the other write never runs, and the signal never
    fires, whichever write finishes first.  With one file the signal fires
    once. *)
Theorem C8_two_files_never_complete :
  diesAfterFirstWrite "/site/dist/a.html" /\
  diesAfterFirstWrite "/site/dist/b.html" /\
  (exists w,
     Example.run Example.statics
       [ReaddirDone (Some ["a.html"]); MkdirDone None; ReadFileDone "a.html" (Some "A");
        WriteFileDone "/site/dist/a.html" None] = Some w /\
     completions w = 1 /\ exitCode w = Some 0).
Proof.
  unfold diesAfterFirstWrite. repeat split.
  1,2: eexists; (split; [vm_compute; reflexivity|]);
       repeat (split; [reflexivity|]); intros disk ev; apply step_over; discriminate.
  eexists. split; [vm_compute; reflexivity|]. split; reflexivity.
Qed.

(** ** The claims on the page of the examples *)

Ltac computed := first [vm_compute; reflexivity | discriminate].

(** C1, as stated, fails for a script that has another attribute: the
    serialized document holds the start tag with that attribute, not
    [<script>X</script>].  It also fails in a pass that does not return: a
    script at an http address after it, with the external flag on, ends
    the process before anything is written. *)
Lemma C1_counterexample :
  (locate Example.pageA [0; 0; 0] = Some Example.scriptA /\
   nodeType Example.scriptA = "script" /\
   nodeAttribs Example.scriptA = Some [("type", "text/javascript"); ("src", "a.js")] /\
   Js.startsWith "http" "a.js" = false /\
   Example.files (Example.join (basePath Example.join Example.normalize "/site"
                                  (Example.flagsOf true false false)) "a.js") =
     Some (File "alert(1)") /\
   exists s' out,
     Example.embedOn (Example.flagsOf true false false) Example.pageA = Ret tt s' /\
     last (trace s') = Some (WriteFile "/site/dist/index.html" out) /\
     out = "<html><head><script type=" +:+ String dquote "text/javascript" +:+
           String dquote ">alert(1)</script></head></html>" /\
     ~ contains "<script>alert(1)</script>" out) /\
  (locate (Cases.bodyWith Example.scriptBare) [0; 0; 0] = Some Example.scriptBare /\
   nodeType Example.scriptBare = "script" /\
   nodeAttribs Example.scriptBare = Some [("src", "a.js")] /\
   Js.startsWith "http" "a.js" = false /\
   Example.files (Example.join (basePath Example.join Example.normalize "/site"
                                  (Example.flagsOf true true false)) "a.js") =
     Some (File "alert(1)") /\
   exists s',
     Cases.passFrom Example.files (Example.flagsOf true true false)
       (Cases.bodyWith Example.scriptBare) = Exit 1 s' /\
     count isWriteFile (trace s') = 0).
Proof.
  split.
  - repeat (split; [computed|]).
    eexists. eexists. split; [vm_compute; reflexivity|].
    split; [reflexivity|]. split; [reflexivity|].
    apply not_includes. vm_compute. reflexivity.
  - repeat (split; [computed|]).
    eexists. split; [vm_compute; reflexivity|]. reflexivity.
Qed.

Lemma C1_witness :
  exists out,
    last (trace (final (Example.embedOn (Example.flagsOf true false false) Example.page))) =
      Some (WriteFile "/site/dist/index.html" out) /\
    contains ("<script type=" +:+ String dquote "text/javascript" +:+
              String dquote ">alert(1)</script>") out /\
    contains "<script>alert(1)</script>" out.
Proof.
  destruct (C1_script_embedded Example.join Example.normalize Example.dirnameOf
              Example.plainChalk Example.uri "/site" (Example.flagsOf true false false)
              Example.files Example.page "/site/dist/index.html" Example.fresh
              (final (Example.embedOn (Example.flagsOf true false false) Example.page))
              [0; 0; 0] Example.scriptA
              [("type", "text/javascript"); ("src", "a.js")] "a.js" "alert(1)")
    as (a' & _ & _ & _ & Ha' & out & Hlast & Hin & _); [computed..|].
  destruct (C1_script_embedded Example.join Example.normalize Example.dirnameOf
              Example.plainChalk Example.uri "/site" (Example.flagsOf true false false)
              Example.files Example.page "/site/dist/index.html" Example.fresh
              (final (Example.embedOn (Example.flagsOf true false false) Example.page))
              [0; 0; 3] Example.scriptBare [("src", "a.js")] "a.js" "alert(1)")
    as (_ & _ & _ & _ & _ & out' & Hlast' & _ & Honly); [computed..|].
  subst a'. exists out. split; [exact Hlast|]. split; [exact Hin|].
  assert (out' = out) as <- by congruence.
  apply Honly. intros k [<- | []]. reflexivity.
Defined.

(** C2, as stated, fails for a link to a stylesheet in which the rewriter
    matches an image that cannot be read: the pass dies in the rewriter
    with the attributes of the link still there, and nothing is written.
    It also fails in a pass that does not return for another element. *)
Lemma C2_counterexample :
  (locate (Cases.pageWith Cases.linkBroken) [0; 0; 0] = Some Cases.linkBroken /\
   nodeName Cases.linkBroken = Some "link" /\
   nodeAttribs Cases.linkBroken = Some [("rel", "stylesheet"); ("href", "css/broken.css")] /\
   Js.startsWith "http" "css/broken.css" = false /\
   Cases.disk (Example.join (basePath Example.join Example.normalize "/site"
                               (Example.flagsOf true false false)) "css/broken.css") =
     Some (File "a{background:url(none.png)}") /\
   exists what s',
     Cases.passOn (Example.flagsOf true false false) (Cases.pageWith Cases.linkBroken) =
       Throw what s' /\
     deref (heap s') ([0; 0; 0], Cases.linkBroken) = tagOf Cases.linkBroken /\
     count isWriteFile (trace s') = 0) /\
  (locate (Cases.bodyWith Example.linkB) [0; 0; 0] = Some Example.linkB /\
   nodeName Example.linkB = Some "link" /\
   nodeAttribs Example.linkB = Some [("rel", "stylesheet"); ("href", "css/b.css")] /\
   Js.startsWith "http" "css/b.css" = false /\
   Example.files (Example.join (basePath Example.join Example.normalize "/site"
                                  (Example.flagsOf true true false)) "css/b.css") =
     Some (File "p{background:url(img/c.png)}") /\
   exists s',
     Cases.passFrom Example.files (Example.flagsOf true true false)
       (Cases.bodyWith Example.linkB) = Exit 1 s' /\
     deref (heap s') ([0; 0; 0], Example.linkB) = tagOf Example.linkB /\
     count isWriteFile (trace s') = 0).
Proof.
  split.
  - repeat (split; [computed|]).
    eexists. eexists. split; [vm_compute; reflexivity|]. split; vm_compute; reflexivity.
  - repeat (split; [computed|]).
    eexists. split; [vm_compute; reflexivity|]. split; vm_compute; reflexivity.
Qed.

Lemma C2_witness :
  exists out,
    last (trace (final (Example.embedOn (Example.flagsOf true false false) Example.page))) =
      Some (WriteFile "/site/dist/index.html" out) /\
    contains "<style>p{background:url(data:image/png;base64,PNG)}</style>" out.
Proof.
  destruct (C2_link_becomes_style Example.join Example.normalize Example.dirnameOf
              Example.plainChalk Example.uri "/site" (Example.flagsOf true false false)
              Example.files Example.page "/site/dist/index.html" Example.fresh
              (final (Example.embedOn (Example.flagsOf true false false) Example.page))
              [0; 0; 1] Example.linkB
              [("rel", "stylesheet"); ("href", "css/b.css")] "stylesheet" "css/b.css"
              "p{background:url(img/c.png)}" "p{background:url(data:image/png;base64,PNG)}")
    as (_ & _ & _ & _ & Hout); [computed..|].
  exact Hout.
Defined.

(** C10, as stated, fails for a link whose file holds an image reference:
    the text child is the text the rewriter returns, not the text of the
    file.  It fails for a link whose local path starts with http, which is
    left as it is; for a link to a stylesheet in which the rewriter matches
    an image that cannot be read; and in a pass that does not return for
    another element. *)
Lemma C10_counterexample :
  (locate (Cases.bodyWith Cases.linkIconCss) [0; 0; 0] = Some Cases.linkIconCss /\
   nodeAttribs Cases.linkIconCss = Some [("rel", "icon"); ("href", "css/b.css")] /\
   Example.files (Example.join (basePath Example.join Example.normalize "/site"
                                  (Example.flagsOf true false false)) "css/b.css") =
     Some (File "p{background:url(img/c.png)}") /\
   exists s' out,
     Cases.passFrom Example.files (Example.flagsOf true false false)
       (Cases.bodyWith Cases.linkIconCss) = Ret tt s' /\
     children (deref (heap s') ([0; 0; 0], Cases.linkIconCss)) =
       Replaced "p{background:url(data:image/png;base64,PNG)}" /\
     last (trace s') = Some (WriteFile "/site/dist/index.html" out) /\
     ~ contains "<style>p{background:url(img/c.png)}</style>" out) /\
  (locate (Cases.bodyWith Cases.linkDocs) [0; 0; 0] = Some Cases.linkDocs /\
   nodeAttribs Cases.linkDocs = Some [("rel", "icon"); ("href", "httpdocs/app.js")] /\
   Example.files (Example.join (basePath Example.join Example.normalize "/site"
                                  (Example.flagsOf true false false)) "httpdocs/app.js") =
     Some (File "app()") /\
   exists s' out,
     Cases.passFrom Example.files (Example.flagsOf true false false)
       (Cases.bodyWith Cases.linkDocs) = Ret tt s' /\
     deref (heap s') ([0; 0; 0], Cases.linkDocs) = tagOf Cases.linkDocs /\
     last (trace s') = Some (WriteFile "/site/dist/index.html" out) /\
     ~ contains "<style>" out) /\
  (locate (Cases.pageWith Cases.linkBroken) [0; 0; 0] = Some Cases.linkBroken /\
   nodeAttribs Cases.linkBroken = Some [("rel", "stylesheet"); ("href", "css/broken.css")] /\
   Cases.disk (Example.join (basePath Example.join Example.normalize "/site"
                               (Example.flagsOf true false false)) "css/broken.css") =
     Some (File "a{background:url(none.png)}") /\
   exists what s',
     Cases.passOn (Example.flagsOf true false false) (Cases.pageWith Cases.linkBroken) =
       Throw what s' /\
     deref (heap s') ([0; 0; 0], Cases.linkBroken) = tagOf Cases.linkBroken /\
     count isWriteFile (trace s') = 0) /\
  (locate (Cases.bodyWith Example.linkIcon) [0; 0; 0] = Some Example.linkIcon /\
   nodeAttribs Example.linkIcon = Some [("rel", "icon"); ("href", "favicon.ico")] /\
   Example.files (Example.join (basePath Example.join Example.normalize "/site"
                                  (Example.flagsOf true true false)) "favicon.ico") =
     Some (File "ICO") /\
   exists s',
     Cases.passFrom Example.files (Example.flagsOf true true false)
       (Cases.bodyWith Example.linkIcon) = Exit 1 s' /\
     deref (heap s') ([0; 0; 0], Example.linkIcon) = tagOf Example.linkIcon /\
     count isWriteFile (trace s') = 0).
Proof.
  split; [|split; [|split]].
  - repeat (split; [computed|]).
    eexists. eexists. split; [vm_compute; reflexivity|].
    split; [vm_compute; reflexivity|]. split; [reflexivity|].
    apply not_includes. vm_compute. reflexivity.
  - repeat (split; [computed|]).
    eexists. eexists. split; [vm_compute; reflexivity|].
    split; [vm_compute; reflexivity|]. split; [reflexivity|].
    apply not_includes. vm_compute. reflexivity.
  - repeat (split; [computed|]).
    eexists. eexists. split; [vm_compute; reflexivity|]. split; vm_compute; reflexivity.
  - repeat (split; [computed|]).
    eexists. split; [vm_compute; reflexivity|]. split; vm_compute; reflexivity.
Qed.

Lemma C10_witness :
  deref (heap (final (Example.embedOn (Example.flagsOf true false false) Example.page)))
    ([0; 0; 2], Example.linkIcon) =
    {| type := "style"; name := Some "style"; attribs := None; children := Replaced "ICO" |} /\
  deref (heap (final (Cases.passFrom Example.files (Example.flagsOf true false false)
                        (Cases.bodyWith Cases.linkIconCss))))
    ([0; 0; 0], Cases.linkIconCss) =
    {| type := "style"; name := Some "style"; attribs := None;
       children := Replaced "p{background:url(data:image/png;base64,PNG)}" |}.
Proof.
  split.
  - destruct (C10_any_rel_is_embedded Example.join Example.normalize Example.dirnameOf
                Example.plainChalk Example.uri "/site" (Example.flagsOf true false false)
                Example.files Example.page "/site/dist/index.html" Example.fresh
                (final (Example.embedOn (Example.flagsOf true false false) Example.page))
                [0; 0; 2] Example.linkIcon
                [("rel", "icon"); ("href", "favicon.ico")] "icon" "favicon.ico" "ICO" "ICO")
      as (_ & Hq & _); [computed..|].
    exact Hq.
  - destruct (C10_any_rel_is_embedded Example.join Example.normalize Example.dirnameOf
                Example.plainChalk Example.uri "/site" (Example.flagsOf true false false)
                Example.files (Cases.bodyWith Cases.linkIconCss) "/site/dist/index.html"
                Example.fresh
                (final (Cases.passFrom Example.files (Example.flagsOf true false false)
                          (Cases.bodyWith Cases.linkIconCss)))
                [0; 0; 0] Cases.linkIconCss
                [("rel", "icon"); ("href", "css/b.css")] "icon" "css/b.css"
                "p{background:url(img/c.png)}" "p{background:url(data:image/png;base64,PNG)}")
      as (_ & Hq & _); [computed..|].
    exact Hq.
Defined.

(** C6, as stated, fails for an img whose local path starts with http: with
    the images flag on and the file there, [src] is left as it is.  It also
    fails in a pass that does not return for another element. *)
Lemma C6_counterexample :
  (locate (Cases.bodyWith Cases.imgDocs) [0; 0; 0] = Some Cases.imgDocs /\
   nodeName Cases.imgDocs = Some "img" /\
   nodeAttribs Cases.imgDocs = Some [("src", "httpdocs/d.png")] /\
   Cases.diskDocs (Example.join (basePath Example.join Example.normalize "/site"
                                   (Example.flagsOf true false false)) "httpdocs/d.png") =
     Some (File "PNG") /\
   exists s' out,
     Cases.passFrom Cases.diskDocs (Example.flagsOf true false false)
       (Cases.bodyWith Cases.imgDocs) = Ret tt s' /\
     deref (heap s') ([0; 0; 0], Cases.imgDocs) = tagOf Cases.imgDocs /\
     last (trace s') = Some (WriteFile "/site/dist/index.html" out) /\
     contains "httpdocs/d.png" out /\
     ~ contains "data:" out) /\
  (locate (Cases.bodyWith Example.imgD) [0; 0; 0] = Some Example.imgD /\
   nodeName Example.imgD = Some "img" /\
   nodeAttribs Example.imgD = Some [("alt", "d"); ("src", "d.png")] /\
   Js.startsWith "http" "d.png" = false /\
   Example.files (Example.join (basePath Example.join Example.normalize "/site"
                                  (Example.flagsOf true true false)) "d.png") =
     Some (File "PNG") /\
   exists s',
     Cases.passFrom Example.files (Example.flagsOf true true false)
       (Cases.bodyWith Example.imgD) = Exit 1 s' /\
     deref (heap s') ([0; 0; 0], Example.imgD) = tagOf Example.imgD /\
     count isWriteFile (trace s') = 0).
Proof.
  split.
  - repeat (split; [computed|]).
    eexists. eexists. split; [vm_compute; reflexivity|].
    split; [vm_compute; reflexivity|]. split; [reflexivity|]. split.
    + apply includes_contains. vm_compute. reflexivity.
    + apply not_includes. vm_compute. reflexivity.
  - repeat (split; [computed|]).
    eexists. split; [vm_compute; reflexivity|]. split; vm_compute; reflexivity.
Qed.

Lemma C6_witness :
  (exists a',
     deref (heap (final (Example.embedOn (Example.flagsOf true false false) Example.page)))
       ([0; 1; 1], Example.imgD) =
       {| type := "tag"; name := Some "img"; attribs := Some a'; children := Parsed |} /\
     getAttr "src" a' = Some "data:image/png;base64,PNG" /\
     getAttr "alt" a' = Some "d") /\
  heap (final (Example.embedOn (Example.flagsOf false false false) Example.page))
    !! [0; 1; 1] = None /\
  deref (heap (final (Cases.passFrom Example.files (Example.flagsOf false true false)
                        (Cases.bodyWith Example.imgD))))
    ([0; 0; 0], Example.imgD) = tagOf Example.imgD.
Proof.
  split; [|split].
  - destruct (C6_img_only_src_changes Example.join Example.normalize Example.dirnameOf
                Example.plainChalk Example.uri "/site" (Example.flagsOf true false false)
                Example.files Example.page "/site/dist/index.html" Example.fresh
                [0; 1; 1] Example.imgD)
      as [Hon _]; [computed..|].
    destruct (Hon eq_refl eq_refl [("alt", "d"); ("src", "d.png")] "d.png" "PNG"
                (final (Example.embedOn (Example.flagsOf true false false) Example.page)))
      as (a' & Hq & Hsrc & Hother & _); [computed..|].
    exists a'. split; [exact Hq|]. split; [exact Hsrc|].
    rewrite (Hother "alt"); [reflexivity | discriminate].
  - destruct (C6_img_only_src_changes Example.join Example.normalize Example.dirnameOf
                Example.plainChalk Example.uri "/site" (Example.flagsOf false false false)
                Example.files Example.page "/site/dist/index.html" Example.fresh
                [0; 1; 1] Example.imgD)
      as [_ Hoff]; [computed..|].
    destruct (Hoff eq_refl) as (_ & Hq & _). exact Hq.
  - destruct (C6_img_only_src_changes Example.join Example.normalize Example.dirnameOf
                Example.plainChalk Example.uri "/site" (Example.flagsOf false true false)
                Example.files (Cases.bodyWith Example.imgD) "/site/dist/index.html"
                Example.fresh [0; 0; 0] Example.imgD)
      as [_ Hoff]; [computed..|].
    destruct (Hoff eq_refl) as (_ & _ & Hq & _). exact Hq.
Defined.




(** ** What the callbacks do to the counters *)

Lemma onlyLogs_refl (s : cstate) : onlyLogs s s.
Proof.
  split; [reflexivity|]. split; [reflexivity|]. exists []. rewrite app_nil_r. auto.
Qed.

Lemma onlyLogs_trans (s1 s2 s3 : cstate) : onlyLogs s1 s2 -> onlyLogs s2 s3 -> onlyLogs s1 s3.
Proof.
  intros (A1 & B1 & l1 & T1 & L1) (A2 & B2 & l2 & T2 & L2).
  split; [congruence|]. split; [congruence|]. exists (l1 ++ l2).
  rewrite T2, T1, <- app_assoc, forallb_app, L1, L2. auto.
Qed.

Lemma onlyLogs_log (s : cstate) (line : string) : onlyLogs s (logged [Log line] s).
Proof. split; [reflexivity|]. split; [reflexivity|]. exists [Log line]. auto. Qed.

Lemma onlyLogs_heap (s : cstate) (h : gmap ref tag) : onlyLogs s (withHeap h s).
Proof.
  split; [reflexivity|]. split; [reflexivity|]. exists []. cbn [withHeap trace].
  rewrite app_nil_r. auto.
Qed.

Section Callbacks.

Variable path_join : string -> string -> string.
Variable path_normalize : string -> string.
Variable path_dirname : string -> string.
Variable chalk : color -> string -> string.
Variable dataUri : string -> string -> string.
Variable parseDOM : bool -> string -> option (list node).
Variable spinnerStatic : string -> bool.
Variable dirname : string.
Variable cli : flags.

Abbreviation keepsLogs := (keeps onlyLogs).

Lemma logs_verboseLog (msg : string) : keepsLogs (verboseLog cli msg).
Proof. apply keeps_verboseLog; [apply onlyLogs_refl | apply onlyLogs_log]. Qed.

Lemma logs_assertError (err : bool) (msg : string) : keepsLogs (assertError chalk err msg).
Proof.
  apply keeps_assertError; [apply onlyLogs_refl | apply onlyLogs_trans | apply onlyLogs_log].
Qed.

Lemma logs_loop (disk : string -> option entry) (l : list (ref * node)) req kind pa nt nn :
  keepsLogs (forEach l (fun tag =>
    fetchAndEmbedResource path_join path_normalize path_dirname chalk dataUri dirname cli
      disk tag req kind pa nt nn)).
Proof.
  apply keeps_forEach; [apply onlyLogs_refl | apply onlyLogs_trans|].
  intros t _. apply keeps_fetch;
    [apply onlyLogs_refl | apply onlyLogs_trans | apply onlyLogs_log|].
  intros s v. apply onlyLogs_heap.
Qed.

Lemma writesLast_bind {A} (m : M A) (f : A -> M unit) :
  keepsLogs m -> (forall a, writesLast (f a)) -> writesLast (bind m f).
Proof.
  intros Hm Hf s. unfold bind. specialize (Hm s).
  destruct (m s) as [a s1|c s1|w s1]; cbn [final] in Hm; [|exact Hm..].
  specialize (Hf a s1). destruct (f a s1) as [[] s2|c s2|w s2].
  - destruct Hf as (s3 & filePath & out & H3 & ->).
    exists s3, filePath, out. split; [|reflexivity]. exact (onlyLogs_trans _ _ _ Hm H3).
  - exact (onlyLogs_trans _ _ _ Hm Hf).
  - exact (onlyLogs_trans _ _ _ Hm Hf).
Qed.

Lemma writesLast_exits (m : M unit) :
  keepsLogs m -> (forall s s', m s <> Ret tt s') -> writesLast m.
Proof.
  intros Hm Hno s. specialize (Hm s). specialize (Hno s).
  destruct (m s) as [[] s1|c s1|w s1]; cbn [final] in Hm; [|exact Hm..].
  destruct (Hno s1 eq_refl).
Qed.

Lemma writesLast_writeFile (dom : list node) (filePath : string) :
  writesLast (writeFile chalk cli dom filePath).
Proof.
  intros s. unfold writeFile, bind. rewrite verboseLog_said, emit_logged, logged_logged.
  exists (logged (said cli ("Writing embedded file " +:+ chalk blue filePath)) s).
  exists filePath, (outerHTMLs (heap s) false [] 0 dom). split.
  - pose proof (logs_verboseLog ("Writing embedded file " +:+ chalk blue filePath) s) as H.
    rewrite verboseLog_said in H. exact H.
  - rewrite logged_logged. reflexivity.
Qed.

Lemma writesLast_embedResources (disk : string -> option entry) (dom : list node)
    (filePath : string) :
  writesLast (embedResources path_join path_normalize path_dirname chalk dataUri dirname cli
                disk dom filePath).
Proof.
  unfold embedResources. cbv zeta.
  apply writesLast_bind; [apply logs_verboseLog | intros _].
  apply writesLast_bind; [apply logs_loop | intros _].
  apply writesLast_bind; [apply logs_loop | intros _].
  apply writesLast_bind; [apply logs_loop | intros _].
  apply writesLast_writeFile.
Qed.

(** The callback of [fs.readFile] leaves the counters alone and, when it
    returns, has issued the one write of its file. *)
Lemma writesLast_readFileDone (disk : string -> option entry) (file : string)
    (data : option string) :
  writesLast (readFileDone path_join path_normalize path_dirname chalk dataUri parseDOM
                dirname cli disk file data).
Proof.
  unfold readFileDone. cbv zeta.
  apply writesLast_bind; [apply logs_assertError | intros _].
  apply writesLast_bind; [apply logs_verboseLog | intros _].
  destruct (parseDOM _ _) as [dom|].
  - apply writesLast_bind; [|intros _; apply writesLast_embedResources].
    intros s. apply onlyLogs_heap.
  - apply writesLast_exits; [apply logs_assertError|].
    intros s s'. unfold assertError, bind, emit, exit. discriminate.
Qed.

Lemma parseHtmlFiles_run (htmlFiles : list string) (s : cstate) :
  parseHtmlFiles path_join path_normalize chalk dirname cli htmlFiles s =
    Ret tt (logged (flat_map (fun file =>
                      said cli ("Opening file " +:+
                                chalk blue (path_join (basePath path_join path_normalize
                                                         dirname cli) file)) ++
                      [ReadFile (path_join (basePath path_join path_normalize dirname cli) file)
                         file]) htmlFiles) s).
Proof.
  unfold parseHtmlFiles. revert s. induction htmlFiles as [|file l IH]; intros s.
  - cbn [forEach flat_map]. rewrite logged_nil. reflexivity.
  - cbn [forEach flat_map]. unfold bind at 1 2.
    rewrite verboseLog_said, emit_logged, IH, !logged_logged, <- !app_assoc. reflexivity.
Qed.

Lemma mkdirDone_run (err : option string) (s : cstate) :
  mkdirDone path_join path_normalize chalk dirname cli err s =
    match err with
    | Some e =>
        Exit 1 (logged [Log (chalk red ("Error: " +:+ "Failed to create directory " +:+
                                        baseOutputPath path_join path_normalize dirname cli +:+
                                        " - " +:+ e))] s)
    | None => Ret tt s
    end.
Proof. destruct err; reflexivity. Qed.

Lemma writeFileDone_run (filePath : string) (err : option string) (s : cstate) :
  writeFileDone chalk spinnerStatic cli filePath err s =
    match err with
    | Some e =>
        Exit 1 (logged [Log (chalk red ("Error: " +:+ "Failed to write file " +:+ filePath +:+
                                        " - " +:+ e))] s)
    | None =>
        let n := S (numberOfFilesProcessed s) in
        let s1 := {| heap := heap s; numberOfFilesToProcess := numberOfFilesToProcess s;
                     numberOfFilesProcessed := n;
                     trace := trace s ++ said cli (chalk green "Success!") |} in
        if Nat.eqb n (numberOfFilesToProcess s)
        then Ret tt (logged [Log (chalk green "Done :)"); SpinnerStop true] s1)
        else if spinnerStatic "setSpinnerTitle"
        then Ret tt (logged [SpinnerTitle ("processed " +:+ pretty n +:+ " out of " +:+
                                           pretty (numberOfFilesToProcess s))] s1)
        else Throw "TypeError" s1
    end.
Proof.
  destruct err as [e|]; [reflexivity|].
  unfold writeFileDone, bind, assertError.
  rewrite (bool_decide_eq_false_2 (is_Some None)) by (intros [x Hx]; discriminate Hx).
  unfold ret. rewrite verboseLog_said. cbn [logged withTrace numberOfFilesProcessed
    numberOfFilesToProcess heap trace]. cbv zeta.
  destruct (Nat.eqb _ _); [rewrite !emit_logged, logged_logged; reflexivity|].
  destruct (spinnerStatic _); reflexivity.
Qed.

Lemma readdirDone_run (disk : string -> option entry) (data : option (list string))
    (s : cstate) :
  readdirDone path_join path_normalize chalk dirname cli disk data s =
    match data with
    | None =>
        Exit 1 (logged [Log (chalk red ("Error: " +:+ "Source directory not found (" +:+
                                        basePath path_join path_normalize dirname cli +:+
                                        ")"))] s)
    | Some l =>
        let htmlFiles := List.filter isHtmlFile l in
        let n := length htmlFiles in
        Ret tt
          {| heap := heap s; numberOfFilesToProcess := n;
             numberOfFilesProcessed := numberOfFilesProcessed s;
             trace :=
               trace s ++
               (if existsSync disk (baseOutputPath path_join path_normalize dirname cli)
                then [] else [MkDir (baseOutputPath path_join path_normalize dirname cli)]) ++
               (if (0 <? n)%nat
                then Log ("Processing " +:+ pretty n +:+ " html file" +:+
                          (if (1 <? n)%nat then "s" else EmptyString) +:+
                          " in directory " +:+
                          chalk blue (basePath path_join path_normalize dirname cli)) ::
                     flat_map (fun file =>
                       said cli ("Opening file " +:+
                                 chalk blue (path_join (basePath path_join path_normalize
                                                          dirname cli) file)) ++
                       [ReadFile (path_join (basePath path_join path_normalize dirname cli)
                                    file) file]) htmlFiles
                else [SpinnerStop false;
                      Log (chalk yellow ("Did not find any .html files in directory " +:+
                                         chalk blue (basePath path_join path_normalize
                                                       dirname cli)))]) |}
    end.
Proof.
  destruct data as [l|]; [|reflexivity].
  unfold readdirDone, bind, assertError. cbn [default].
  rewrite (bool_decide_eq_false_2 (Some l = None)) by discriminate.
  unfold ret. cbv zeta.
  destruct (existsSync disk _); cbn [negb];
    destruct (0 <? _)%nat; cbn [emit];
    rewrite ?emit_logged, ?parseHtmlFiles_run; unfold logged, withTrace;
    cbn [heap numberOfFilesToProcess numberOfFilesProcessed trace];
    rewrite <- ?app_assoc; reflexivity.
Qed.

End Callbacks.

(** ** Counting effects *)

Lemma count_app (f : effect -> bool) (l1 l2 : list effect) :
  count f (l1 ++ l2) = count f l1 + count f l2.
Proof. unfold count. rewrite List.filter_app, length_app. reflexivity. Qed.

Lemma count_cons (f : effect -> bool) (e : effect) (l : list effect) :
  count f (e :: l) = (if f e then 1 else 0) + count f l.
Proof. unfold count. cbn [List.filter]. destruct (f e); reflexivity. Qed.

Lemma count_logs (f : effect -> bool) (l : list effect) :
  (forall line, f (Log line) = false) -> forallb isLog l = true -> count f l = 0.
Proof.
  intros Hf. induction l as [|e l IH]; [reflexivity|]. cbn [forallb]. intros H.
  apply andb_true_iff in H as [He Hl]. rewrite count_cons, (IH Hl).
  destruct e; try discriminate He. rewrite Hf. reflexivity.
Qed.

Lemma count_said (f : effect -> bool) (cli : flags) (msg : string) :
  (forall line, f (Log line) = false) -> count f (said cli msg) = 0.
Proof.
  intros Hf. unfold said. destruct (verbose _); [|reflexivity].
  rewrite count_cons, Hf. reflexivity.
Qed.

Lemma count_requests (f : effect -> bool) (l : list effect) :
  (forall e, f e = true -> isRequest e = true) ->
  count f (List.filter isRequest l) = count f l.
Proof.
  intros Hf. induction l as [|e l IH]; [reflexivity|]. cbn [List.filter].
  destruct (isRequest e) eqn:He; rewrite !count_cons, ?IH; [reflexivity|].
  destruct (f e) eqn:Hfe; [|reflexivity]. rewrite (Hf e Hfe) in He. discriminate.
Qed.

Lemma removeFirst_count (ev : event) (l rest : list effect) :
  removeFirst ev l = Some rest ->
  exists e, answers ev e = true /\
            forall f, count f l = (if f e then 1 else 0) + count f rest.
Proof.
  revert rest. induction l as [|e l IH]; intros rest; cbn [removeFirst]; [discriminate|].
  destruct (answers ev e) eqn:Ha.
  - intros H. injection H as <-. exists e. split; [exact Ha|]. intros f. apply count_cons.
  - destruct (removeFirst ev l) as [r|]; [|discriminate].
    intros H. injection H as <-. destruct (IH r eq_refl) as (e' & Ha' & Hc).
    exists e'. split; [exact Ha'|]. intros f. rewrite !count_cons, Hc. lia.
Qed.

Lemma count_reads (cli : flags) (f : effect -> bool) (v : bool) (g : string -> string)
    (h : string -> string) (files : list string) :
  (forall line, f (Log line) = false) ->
  (forall filePath file, f (ReadFile filePath file) = v) ->
  count f (flat_map (fun file => said cli (g file) ++ [ReadFile (h file) file]) files) =
  if v then length files else 0.
Proof.
  intros Hlog Hread. induction files as [|file files IH]; cbn [flat_map].
  - destruct v; reflexivity.
  - rewrite !count_app, count_cons, (count_said f cli _ Hlog), IH, Hread.
    destruct v; reflexivity.
Qed.

(** ** The invariant of the completion counters *)

Lemma settled_after (w : world) (rest : list effect) (o : outcome unit) (lnew : list effect) :
  trace (final o) = trace (state w) ++ lnew ->
  count isReadDir rest = 0 ->
  count isReadDir lnew = 0 ->
  numberOfFilesProcessed (final o) + (count isReadFile rest + count isReadFile lnew) +
    (count isWriteFile rest + count isWriteFile lnew) <= numberOfFilesToProcess (final o) ->
  ((exists s, o = Ret tt s) ->
   numberOfFilesProcessed (final o) + (count isReadFile rest + count isReadFile lnew) +
     (count isWriteFile rest + count isWriteFile lnew) = numberOfFilesToProcess (final o)) ->
  count isDone (trace (state w)) + count isDone lnew =
    (if (0 <? numberOfFilesToProcess (final o))%nat &&
        (numberOfFilesProcessed (final o) =? numberOfFilesToProcess (final o))%nat
     then 1 else 0) ->
  settled (after w rest o).
Proof.
  intros Htr Hd1 Hd2 Hle Heq Hdone.
  assert (pending (after w rest o) = rest ++ List.filter isRequest lnew) as Hp.
  { unfold after. destruct o as [[] s|c s|x s]; cbn [pending final] in *;
      rewrite Htr, drop_app_length; reflexivity. }
  assert (state (after w rest o) = final o) as Hs by (destruct o; reflexivity).
  unfold settled, completions. rewrite Hp, Hs, !count_app.
  rewrite !count_requests by (intros [] H; (discriminate H || reflexivity)).
  split; [lia|]. split; [exact Hle|]. split.
  - intros Hrun. apply Heq. destruct o as [[] s|c s|x s]; [eauto | discriminate..].
  - fold (count isDone (trace (final o))). rewrite Htr, count_app. exact Hdone.
Qed.

(** A callback that leaves the counters alone, only logs, and does not
    return keeps the counters settled. *)
Lemma settled_after_logs (w : world) (rest : list effect) (o : outcome unit) :
  (forall s, o <> Ret tt s) ->
  onlyLogs (state w) (final o) ->
  count isReadDir rest = 0 ->
  numberOfFilesProcessed (state w) + count isReadFile rest + count isWriteFile rest
    <= numberOfFilesToProcess (state w) ->
  count isDone (trace (state w)) =
    (if (0 <? numberOfFilesToProcess (state w))%nat &&
        (numberOfFilesProcessed (state w) =? numberOfFilesToProcess (state w))%nat
     then 1 else 0) ->
  settled (after w rest o).
Proof.
  intros Hno (A & B & l & T & L) Hd Hle Hdone.
  apply settled_after with (lnew := l); [exact T | exact Hd | ..].
  - apply count_logs; auto.
  - rewrite A, B, (count_logs isReadFile l), (count_logs isWriteFile l) by auto. lia.
  - intros [s Hs]. destruct (Hno s Hs).
  - rewrite A, B, (count_logs isDone l), Nat.add_0_r by auto. exact Hdone.
Qed.

Section Invariant.

Variable path_join : string -> string -> string.
Variable path_normalize : string -> string.
Variable path_dirname : string -> string.
Variable chalk : color -> string -> string.
Variable dataUri : string -> string -> string.
Variable parseDOM : bool -> string -> option (list node).
Variable spinnerStatic : string -> bool.
Variable dirname : string.
Variable cli : flags.

Abbreviation stepOf :=
  (step path_join path_normalize path_dirname chalk dataUri parseDOM spinnerStatic dirname cli).
Abbreviation stepsOf :=
  (steps path_join path_normalize path_dirname chalk dataUri parseDOM spinnerStatic dirname cli).

(** After the callback of [fs.readdir], every callback keeps the counters
    settled, whatever the constructor of cli-spinner carries. *)
Lemma step_settled (w w' : world) (disk : string -> option entry) (ev : event) :
  w = start cli \/ settled w ->
  stepOf w disk ev = Some w' ->
  settled w'.
Proof.
  intros Hinv Hstep. unfold step in Hstep.
  destruct (stat w) eqn:Hst; try discriminate.
  destruct (removeFirst ev (pending w)) as [rest|] eqn:Hrm; [|discriminate].
  injection Hstep as <-.
  destruct Hinv as [-> | (Hdir & Hle & Heq & Hdone)].
  - (* the first callback *)
    cbn [start pending state] in *. cbn [removeFirst] in Hrm.
    destruct ev; cbn [answers] in Hrm; try discriminate Hrm. injection Hrm as <-.
    cbn [callback]. rewrite readdirDone_run. destruct data as [l|].
    + eapply settled_after; [cbn [final trace state]; reflexivity|reflexivity|..].
      * rewrite count_app. destruct (existsSync _ _), (0 <? _)%nat;
          rewrite ?count_cons, ?(count_reads cli isReadDir false); cbn; auto.
      * cbn [final numberOfFilesProcessed numberOfFilesToProcess].
        rewrite !count_app. set (n := length (List.filter isHtmlFile l)).
        destruct (existsSync _ _), (0 <? n)%nat eqn:Hn;
          rewrite ?count_cons, ?(count_reads cli isReadFile true),
            ?(count_reads cli isWriteFile false); cbn; auto;
          fold n; try lia; apply Nat.ltb_ge in Hn; lia.
      * intros _. cbn [final numberOfFilesProcessed numberOfFilesToProcess].
        rewrite !count_app. set (n := length (List.filter isHtmlFile l)).
        destruct (existsSync _ _), (0 <? n)%nat eqn:Hn;
          rewrite ?count_cons, ?(count_reads cli isReadFile true),
            ?(count_reads cli isWriteFile false); cbn; auto;
          fold n; try lia; apply Nat.ltb_ge in Hn; lia.
      * cbn [final numberOfFilesProcessed numberOfFilesToProcess].
        rewrite !count_app. set (n := length (List.filter isHtmlFile l)).
        destruct (existsSync _ _), (0 <? n)%nat eqn:Hn;
          rewrite ?count_cons, ?(count_reads cli isDone false); cbn; auto;
          destruct n; try discriminate Hn; reflexivity.
    + eapply settled_after; [cbn [final trace state logged withTrace]; reflexivity|..];
        cbn; auto.
  - (* a later callback *)
    apply removeFirst_count in Hrm as (e & Hans & Hcount).
    pose proof (Hcount isReadDir) as Cd. pose proof (Hcount isReadFile) as Cr.
    pose proof (Hcount isWriteFile) as Cw. specialize (Heq Hst).
    unfold completions in Hdone. fold (count isDone (trace (state w))) in Hdone.
    destruct ev, e; cbn [answers] in Hans; try discriminate Hans;
      cbn [isReadDir isReadFile isWriteFile] in Cd, Cr, Cw; [lia| | |].
    + (* mkdir *)
      cbn [callback]. rewrite mkdirDone_run. destruct err as [msg|].
      * apply settled_after_logs; [discriminate | apply onlyLogs_log | lia | lia | exact Hdone].
      * apply settled_after with (lnew := []).
        -- cbn [final]. rewrite app_nil_r. reflexivity.
        -- lia.
        -- reflexivity.
        -- cbn [final]. change (count _ []) with 0. lia.
        -- intros _. cbn [final]. change (count _ []) with 0. lia.
        -- cbn [final]. change (count _ []) with 0. rewrite Nat.add_0_r. exact Hdone.
    + (* a file has been read *)
      cbn [callback].
      pose proof (writesLast_readFileDone path_join path_normalize path_dirname chalk dataUri
                    parseDOM dirname cli disk file data (state w)) as Hout.
      destruct (readFileDone _ _ _ _ _ _ _ _ _ _ _ _) as [[] s'|c s'|x s'].
      * destruct Hout as (s3 & fp & out & (A & B & l & T & L) & ->).
        apply settled_after with (lnew := l ++ [WriteFile fp out]).
        -- cbn [final logged withTrace trace]. rewrite T, app_assoc. reflexivity.
        -- lia.
        -- rewrite count_app, (count_logs isReadDir l) by auto. reflexivity.
        -- cbn [final logged withTrace numberOfFilesProcessed numberOfFilesToProcess].
           rewrite !count_app, (count_logs isReadFile l), (count_logs isWriteFile l) by auto.
           change (count isReadFile [WriteFile fp out]) with 0.
           change (count isWriteFile [WriteFile fp out]) with 1. lia.
        -- intros _.
           cbn [final logged withTrace numberOfFilesProcessed numberOfFilesToProcess].
           rewrite !count_app, (count_logs isReadFile l), (count_logs isWriteFile l) by auto.
           change (count isReadFile [WriteFile fp out]) with 0.
           change (count isWriteFile [WriteFile fp out]) with 1. lia.
        -- cbn [final logged withTrace numberOfFilesProcessed numberOfFilesToProcess].
           rewrite count_app, (count_logs isDone l) by auto.
           change (count isDone [WriteFile fp out]) with 0.
           rewrite A, B, !Nat.add_0_r. exact Hdone.
      * apply settled_after_logs; [discriminate | exact Hout | lia | lia | exact Hdone].
      * apply settled_after_logs; [discriminate | exact Hout | lia | lia | exact Hdone].
    + (* a file has been written *)
      cbn [callback]. rewrite writeFileDone_run. destruct err as [msg|].
      * apply settled_after_logs; [discriminate | apply onlyLogs_log | lia | lia | exact Hdone].
      * cbv zeta.
        assert (numberOfFilesProcessed (state w) < numberOfFilesToProcess (state w)) as Hlt
          by lia.
        assert (count isDone (trace (state w)) = 0) as Hzero.
        { rewrite Hdone.
          destruct (numberOfFilesProcessed (state w) =? numberOfFilesToProcess (state w))%nat
            eqn:E; [apply Nat.eqb_eq in E; lia|]. rewrite andb_false_r. reflexivity. }
        destruct (S (numberOfFilesProcessed (state w)) =? numberOfFilesToProcess (state w))%nat
          eqn:E; [|destruct (spinnerStatic "setSpinnerTitle")].
        -- apply Nat.eqb_eq in E.
           apply settled_after with
             (lnew := said cli (chalk green "Success!") ++
                      [Log (chalk green "Done :)"); SpinnerStop true]).
           ++ cbn [final logged withTrace trace]. rewrite app_assoc. reflexivity.
           ++ lia.
           ++ rewrite count_app, count_said by auto. reflexivity.
           ++ cbn [final logged withTrace numberOfFilesProcessed numberOfFilesToProcess].
              rewrite !count_app, !count_said by auto.
              change (count isReadFile [_; _]) with 0.
              change (count isWriteFile [_; _]) with 0. lia.
           ++ intros _.
              cbn [final logged withTrace numberOfFilesProcessed numberOfFilesToProcess].
              rewrite !count_app, !count_said by auto.
              change (count isReadFile [_; _]) with 0.
              change (count isWriteFile [_; _]) with 0. lia.
           ++ cbn [final logged withTrace numberOfFilesProcessed numberOfFilesToProcess].
              rewrite count_app, count_said by auto.
              change (count isDone [_; _]) with 1. rewrite Hzero, E, Nat.eqb_refl.
              destruct (numberOfFilesToProcess (state w)); [lia | reflexivity].
        -- apply settled_after with
             (lnew := said cli (chalk green "Success!") ++
                      [SpinnerTitle ("processed " +:+
                                     pretty (S (numberOfFilesProcessed (state w))) +:+
                                     " out of " +:+
                                     pretty (numberOfFilesToProcess (state w)))]).
           ++ cbn [final logged withTrace trace]. rewrite app_assoc. reflexivity.
           ++ lia.
           ++ rewrite count_app, count_said by auto. reflexivity.
           ++ cbn [final logged withTrace numberOfFilesProcessed numberOfFilesToProcess].
              rewrite !count_app, !count_said by auto.
              change (count isReadFile [_]) with 0. change (count isWriteFile [_]) with 0. lia.
           ++ intros _.
              cbn [final logged withTrace numberOfFilesProcessed numberOfFilesToProcess].
              rewrite !count_app, !count_said by auto.
              change (count isReadFile [_]) with 0. change (count isWriteFile [_]) with 0. lia.
           ++ cbn [final logged withTrace numberOfFilesProcessed numberOfFilesToProcess].
              rewrite count_app, count_said by auto.
              change (count isDone [_]) with 0. rewrite Hzero, E, andb_false_r. reflexivity.
        -- apply settled_after with (lnew := said cli (chalk green "Success!")).
           ++ reflexivity.
           ++ lia.
           ++ apply count_said. auto.
           ++ cbn [final numberOfFilesProcessed numberOfFilesToProcess].
              rewrite !count_said by auto. lia.
           ++ intros [s Hs]. discriminate Hs.
           ++ cbn [final numberOfFilesProcessed numberOfFilesToProcess].
              rewrite count_said by auto. rewrite Hzero, E, andb_false_r. reflexivity.
Qed.

Lemma steps_settled (evs : list ((string -> option entry) * event)) (w0 w : world) :
  w0 = start cli \/ settled w0 ->
  stepsOf w0 evs = Some w ->
  w = start cli \/ settled w.
Proof.
  revert w0. induction evs as [|[disk ev] evs IH]; intros w0 H0 Hrun; cbn [steps] in Hrun.
  - injection Hrun as <-. exact H0.
  - destruct (stepOf w0 disk ev) as [w1|] eqn:Hstep; [|discriminate].
    apply (IH w1); [|exact Hrun]. right. exact (step_settled w0 w1 disk ev H0 Hstep).
Qed.

(** X18: in every state the process can be in, the files processed are at most
    the files queued; the signal has fired at most once, and it has fired
    if and only if at least one file was queued and all are processed, at
    which point no read and no write is under way; and a running process
    with files queued and no read or write under way has fired it. *)
Lemma counters_invariant (evs : list ((string -> option entry) * event)) (w : world) :
  stepsOf (start cli) evs = Some w ->
  numberOfFilesProcessed (state w) <= numberOfFilesToProcess (state w) /\
  completions w <= 1 /\
  (completions w = 1 <->
   0 < numberOfFilesToProcess (state w) /\
   numberOfFilesProcessed (state w) = numberOfFilesToProcess (state w)) /\
  (completions w = 1 ->
   count isReadFile (pending w) = 0 /\ count isWriteFile (pending w) = 0) /\
  (stat w = Running -> 0 < numberOfFilesToProcess (state w) ->
   count isReadFile (pending w) = 0 -> count isWriteFile (pending w) = 0 ->
   completions w = 1).
Proof.
  intros Hrun.
  destruct (steps_settled evs (start cli) w (or_introl eq_refl) Hrun)
    as [-> | (Hd & Hle & Heq & Hdone)].
  - cbn. repeat split; try lia; intros; lia.
  - rewrite Hdone.
    destruct (Nat.ltb_spec 0 (numberOfFilesToProcess (state w))) as [E1|E1];
      destruct (Nat.eqb_spec (numberOfFilesProcessed (state w))
                  (numberOfFilesToProcess (state w))) as [E2|E2]; cbn [andb].
    + split; [lia|]. split; [lia|]. split; [split; intros; [split; assumption | reflexivity]|].
      split; [intros _; lia | intros; reflexivity].
    + split; [lia|]. split; [lia|]. split; [split; [discriminate | intros [_ H]; lia]|].
      split; [discriminate|]. intros Hrunning _ Hr Hw. specialize (Heq Hrunning). lia.
    + split; [lia|]. split; [lia|]. split; [split; [discriminate | intros [H _]; lia]|].
      split; [discriminate | intros _ H; lia].
    + split; [lia|]. split; [lia|]. split; [split; [discriminate | intros [H _]; lia]|].
      split; [discriminate | intros _ H; lia].
Qed.

(** X19: the callback of [fs.readdir] when no entry is selected stops the
    spinner and says so, and leaves both counters at zero with no read
    under way; the process then ends with code 0 once the directory of the
    output, if it had to be made, has been made. *)
Lemma nothing_queued (disk : string -> option entry) (data : list string) (w : world) :
  List.filter isHtmlFile data = [] ->
  stepOf (start cli) disk (ReaddirDone (Some data)) = Some w ->
  numberOfFilesToProcess (state w) = 0 /\
  numberOfFilesProcessed (state w) = 0 /\
  stat w = Running /\
  completions w = 0 /\
  (exists mk,
     trace (state w) =
       [ReadDir (source cli)] ++ mk ++
       [SpinnerStop false;
        Log (chalk yellow ("Did not find any .html files in directory " +:+
                           chalk blue (basePath path_join path_normalize dirname cli)))] /\
     pending w = mk /\
     (mk = [] \/ mk = [MkDir (baseOutputPath path_join path_normalize dirname cli)]) /\
     (mk = [] -> exitCode w = Some 0) /\
     (forall disk' w', stepOf w disk' (MkdirDone None) = Some w' ->
        exitCode w' = Some 0 /\ completions w' = 0 /\
        numberOfFilesProcessed (state w') = 0)).
Proof.
  intros Hnone Hstep. unfold step in Hstep. cbn [start stat pending removeFirst answers] in Hstep.
  injection Hstep as <-. cbn [callback state start]. rewrite readdirDone_run. cbv zeta.
  rewrite Hnone. cbn [length Nat.ltb Nat.leb]. 
  set (mk := if existsSync disk (baseOutputPath path_join path_normalize dirname cli)
             then [] else [MkDir (baseOutputPath path_join path_normalize dirname cli)]).
  assert (mk = [] \/ mk = [MkDir (baseOutputPath path_join path_normalize dirname cli)]) as Hmk
    by (unfold mk; destruct (existsSync _ _); auto).
  cbn [after state pending stat numberOfFilesToProcess numberOfFilesProcessed trace].
  repeat (split; [reflexivity|]). split.
  { unfold completions. cbn [state trace]. destruct Hmk as [-> | ->]; reflexivity. }
  exists mk. split; [reflexivity|]. split.
  { cbn [app drop length]. destruct Hmk as [-> | ->]; reflexivity. }
  split; [exact Hmk|]. split.
  { intros ->. reflexivity. }
  intros disk' w' Hstep'. unfold step in Hstep'. cbn [stat pending app drop length] in Hstep'.
  destruct Hmk as [-> | ->]; cbn in Hstep'; [discriminate|].
  injection Hstep' as <-. repeat split; reflexivity.
Qed.

(** X20: where the constructor has no [setSpinnerTitle], at most one file is
    ever counted as processed: with two files or more queued the signal
    never fires. *)
Lemma one_file_at_most (evs : list ((string -> option entry) * event)) (w : world) :
  spinnerStatic "setSpinnerTitle" = false ->
  stepsOf (start cli) evs = Some w ->
  numberOfFilesProcessed (state w) <= 1 /\
  (2 <= numberOfFilesToProcess (state w) -> completions w = 0).
Proof.
  intros Hno Hrun.
  assert (forall evs w0 w,
            (w0 = start cli \/ settled w0) ->
            numberOfFilesProcessed (state w0) <= 1 /\
            (stat w0 = Running -> numberOfFilesProcessed (state w0) = 0 \/
                                  numberOfFilesToProcess (state w0) = 1) ->
            stepsOf w0 evs = Some w ->
            numberOfFilesProcessed (state w) <= 1) as Hgen.
  { clear evs w Hrun. intros evs. induction evs as [|[disk ev] evs IH];
      intros w0 w H0 [Hle Hrunning] Hrun; cbn [steps] in Hrun.
    - injection Hrun as <-. exact Hle.
    - destruct (stepOf w0 disk ev) as [w1|] eqn:Hstep; [|discriminate].
      apply (IH w1 w); [right; exact (step_settled w0 w1 disk ev H0 Hstep) | | exact Hrun].
      clear IH Hrun. unfold step in Hstep.
      destruct (stat w0) eqn:Hst; try discriminate. specialize (Hrunning eq_refl).
      destruct (removeFirst ev (pending w0)) as [rest|] eqn:Hrm; [|discriminate].
      injection Hstep as <-.
      destruct ev as [data|err|file data|filePath err]; cbn [callback].
      + rewrite readdirDone_run.
        assert (numberOfFilesProcessed (state w0) = 0) as Hz.
        { destruct H0 as [-> | (Hd & _)]; [reflexivity|].
          apply removeFirst_count in Hrm as (e & Hans & Hcount).
          specialize (Hcount isReadDir). destruct e; try discriminate Hans.
          cbn [isReadDir] in Hcount. lia. }
        destruct data as [l|]; cbn [after state stat numberOfFilesProcessed logged withTrace];
          (split; [lia|]); intros _; try discriminate; left; exact Hz.
      + rewrite mkdirDone_run. destruct err;
          cbn [after state stat numberOfFilesProcessed numberOfFilesToProcess logged withTrace];
          (split; [exact Hle|]); intros H; [discriminate H | exact Hrunning].
      + pose proof (writesLast_readFileDone path_join path_normalize path_dirname chalk
                      dataUri parseDOM dirname cli disk file data (state w0)) as Hout.
        destruct (readFileDone _ _ _ _ _ _ _ _ _ _ _ _) as [[] s'|c s'|x s'];
          cbn [after state stat].
        * destruct Hout as (s3 & fp & out & (A & B & _) & ->).
          cbn [logged withTrace numberOfFilesProcessed numberOfFilesToProcess].
          rewrite A, B. split; [exact Hle | intros _; exact Hrunning].
        * destruct Hout as (A & B & _). rewrite B. split; [exact Hle | discriminate].
        * destruct Hout as (A & B & _). rewrite B. split; [exact Hle | discriminate].
      + rewrite writeFileDone_run. destruct err as [msg|];
          [cbn [after state stat numberOfFilesProcessed logged withTrace];
           split; [exact Hle | discriminate]|].
        cbv zeta. rewrite Hno.
        assert (numberOfFilesProcessed (state w0) < numberOfFilesToProcess (state w0)) as Hlt.
        { destruct H0 as [-> | (Hd & Hbound & _)]; [discriminate Hrm|].
          apply removeFirst_count in Hrm as (e & Hans & Hcount).
          specialize (Hcount isWriteFile). destruct e; try discriminate Hans.
          cbn [isWriteFile] in Hcount. lia. }
        destruct (S (numberOfFilesProcessed (state w0)) =? numberOfFilesToProcess (state w0))%nat
          eqn:E; cbn [after state stat numberOfFilesProcessed numberOfFilesToProcess
                      logged withTrace].
        * apply Nat.eqb_eq in E. split; [lia|]. intros _. right. lia.
        * apply Nat.eqb_neq in E. split; [lia | discriminate]. }
  assert (numberOfFilesProcessed (state w) <= 1) as Hone.
  { apply (Hgen evs (start cli) w); [left; reflexivity | | exact Hrun].
    cbn. split; [lia | auto]. }
  split; [exact Hone|]. intros Htwo.
  destruct (steps_settled evs (start cli) w (or_introl eq_refl) Hrun)
    as [-> | (_ & _ & _ & Hdone)]; [reflexivity|].
  rewrite Hdone.
  destruct (Nat.eqb_spec (numberOfFilesProcessed (state w)) (numberOfFilesToProcess (state w)))
    as [E|E]; [lia | rewrite andb_false_r; reflexivity].
Qed.

End Invariant.

(** ** The matcher and the words it matches *)

Lemma append_length (w s : string) :
  String.length (w +:+ s) = String.length w + String.length s.
Proof.
  induction w as [|c w IH]; [reflexivity|]. rewrite append_cons. simpl. rewrite IH.
  reflexivity.
Qed.

Lemma substring_whole (w s : string) : substring 0 (String.length w) (w +:+ s) = w.
Proof.
  induction w as [|c w IH]; [destruct s; reflexivity|].
  rewrite append_cons. simpl. rewrite IH. reflexivity.
Qed.

Lemma substring_prefix (w s : string) :
  substring 0 (String.length (w +:+ s) - String.length s) (w +:+ s) = w.
Proof.
  rewrite append_length. replace (String.length w + String.length s - String.length s)
    with (String.length w) by lia.
  apply substring_whole.
Qed.

Lemma lazyDots_eq (k : string -> option (string * option string)) (s : string) :
  lazyDots k s =
  match k s with
  | Some r => Some r
  | None =>
      match s with
      | EmptyString => None
      | String c s' => if Js.isLineTerminator c then None else lazyDots k s'
      end
  end.
Proof. destruct s; reflexivity. Qed.

Lemma lazyDots_sound (k : string -> option (string * option string)) (s : string) res :
  lazyDots k s = Some res ->
  exists w s', s = w +:+ s' /\
    allChars (fun c => negb (Js.isLineTerminator c)) w = true /\ k s' = Some res.
Proof.
  induction s as [|c s IH]; rewrite lazyDots_eq.
  - destruct (k EmptyString) as [r|] eqn:Hk; [|discriminate].
    intros H. exists EmptyString, EmptyString. rewrite Hk. auto.
  - destruct (k (String c s)) as [r|] eqn:Hk.
    + intros H. exists EmptyString, (String c s). rewrite Hk. auto.
    + destruct (Js.isLineTerminator c) eqn:Hc; [discriminate|].
      intros H. destruct (IH H) as (w & s' & -> & Hw & Hs').
      exists (String c w), s'. cbn [allChars]. rewrite Hc, Hw. auto.
Qed.

Lemma lazyDots_complete (k : string -> option (string * option string)) (w s' : string) r0 :
  allChars (fun c => negb (Js.isLineTerminator c)) w = true ->
  k s' = Some r0 ->
  exists res, lazyDots k (w +:+ s') = Some res.
Proof.
  intros Hw Hk. induction w as [|c w IH]; rewrite lazyDots_eq.
  - rewrite append_nil_l, Hk. eauto.
  - rewrite append_cons. destruct (k (String c (w +:+ s'))) as [r|]; [eauto|].
    cbn [allChars] in Hw. apply andb_true_iff in Hw as [Hc Hw].
    apply negb_true_iff in Hc. rewrite Hc. apply IH. exact Hw.
Qed.

(** The lazy [.*?] returns what its continuation returns at the first
    place where it returns something. *)
Lemma lazyDots_first (k : string -> option (string * option string)) (a b : string) r0 :
  allChars (fun c => negb (Js.isLineTerminator c)) a = true ->
  k b = Some r0 ->
  (forall a1 a2 r, a = a1 +:+ a2 -> k (a2 +:+ b) = Some r -> r = r0) ->
  lazyDots k (a +:+ b) = Some r0.
Proof.
  intros Ha Hk. induction a as [|c a IH]; intros Hu; rewrite lazyDots_eq.
  - rewrite append_nil_l, Hk. reflexivity.
  - rewrite append_cons. destruct (k (String c (a +:+ b))) as [r|] eqn:Hr.
    + f_equal. apply (Hu EmptyString (String c a)); [reflexivity | exact Hr].
    + cbn [allChars] in Ha. apply andb_true_iff in Ha as [Hc Ha].
      apply negb_true_iff in Hc. rewrite Hc. apply IH; [exact Ha|].
      intros a1 a2 r -> Hr'. apply (Hu (String c a1) a2); [reflexivity | exact Hr'].
Qed.

(** Whatever the matcher returns comes from its continuation, called on
    what is left after a word of the pattern. *)
Lemma run_sound (ic : bool) (r : regex) :
  forall s cin k res,
    run ic r s cin k = Some res ->
    exists w s' cout, s = w +:+ s' /\ matches ic r w cin cout /\ k s' cout = Some res.
Proof.
  induction r as [|c| |r1 IH1 r2 IH2|r1 IH1 r2 IH2|r1 IH1| |r1 IH1];
    intros s cin k res H; cbn [run] in H.
  - exists EmptyString, s, cin. cbn [matches]. auto.
  - destruct s as [|x s]; [discriminate|].
    destruct (if ic then Js.eqChar (Js.canonicalize x) (Js.canonicalize c) else Js.eqChar x c)
      eqn:Hx; [|discriminate].
    exists (String x EmptyString), s, cin. cbn [matches]. split; [reflexivity|].
    split; [|exact H]. exists x. auto.
  - destruct s as [|x s]; [discriminate|].
    destruct (Js.isLineTerminator x) eqn:Hx; [discriminate|].
    exists (String x EmptyString), s, cin. cbn [matches]. split; [reflexivity|].
    split; [|exact H]. exists x. auto.
  - apply IH1 in H as (w1 & s1 & c1 & -> & M1 & H).
    apply IH2 in H as (w2 & s2 & c2 & -> & M2 & H).
    exists (w1 +:+ w2), s2, c2. rewrite append_assoc. split; [reflexivity|].
    split; [|exact H]. cbn [matches]. exists w1, w2, c1. auto.
  - destruct (run ic r1 s cin k) as [res'|] eqn:H1.
    + injection H as <-. apply IH1 in H1 as (w & s' & cout & -> & M & H).
      exists w, s', cout. cbn [matches]. auto.
    + apply IH2 in H as (w & s' & cout & -> & M & H).
      exists w, s', cout. cbn [matches]. auto.
  - destruct (run ic r1 s cin k) as [res'|] eqn:H1.
    + injection H as <-. apply IH1 in H1 as (w & s' & cout & -> & M & H).
      exists w, s', cout. cbn [matches]. auto.
    + exists EmptyString, s, cin. cbn [matches]. auto.
  - apply lazyDots_sound in H as (w & s' & -> & Hw & H).
    exists w, s', cin. cbn [matches]. auto.
  - apply IH1 in H as (w & s' & c1 & -> & M & H).
    rewrite substring_prefix in H.
    exists w, s', (Some w). cbn [matches]. split; [reflexivity|]. split; [|exact H].
    split; [exists c1; exact M | reflexivity].
Qed.

(** The matcher returns something on a word of the pattern followed by a
    text on which its continuation returns something. *)
Lemma run_complete (ic : bool) (r : regex) :
  forall w cin cout s' k r0,
    matches ic r w cin cout -> k s' cout = Some r0 ->
    exists res, run ic r (w +:+ s') cin k = Some res.
Proof.
  induction r as [|c| |r1 IH1 r2 IH2|r1 IH1 r2 IH2|r1 IH1| |r1 IH1];
    intros w cin cout s' k r0 M Hk; cbn [matches] in M; cbn [run].
  - destruct M as [-> ->]. rewrite append_nil_l. eauto.
  - destruct M as (x & -> & Hx & ->). rewrite append_cons, append_nil_l, Hx. eauto.
  - destruct M as (x & -> & Hx & ->). rewrite append_cons, append_nil_l, Hx. eauto.
  - destruct M as (w1 & w2 & c1 & -> & M1 & M2). rewrite append_assoc.
    destruct (IH2 w2 c1 cout s' k r0 M2 Hk) as [res2 H2].
    apply (IH1 w1 cin c1 (w2 +:+ s') _ res2 M1 H2).
  - destruct M as [M | M].
    + destruct (IH1 w cin cout s' k r0 M Hk) as [res ->]. eauto.
    + destruct (run ic r1 (w +:+ s') cin k); [eauto|].
      apply (IH2 w cin cout s' k r0 M Hk).
  - destruct M as [[-> ->] | M].
    + rewrite append_nil_l. destruct (run ic r1 s' cin k); eauto.
    + destruct (IH1 w cin cout s' k r0 M Hk) as [res ->]. eauto.
  - destruct M as [Hw ->]. apply (lazyDots_complete _ w s' r0 Hw Hk).
  - destruct M as [[c1 M] ->].
    apply (IH1 w cin c1 s' _ r0 M). rewrite substring_prefix. exact Hk.
Qed.

(** ** Characters under the [i] flag *)

Ltac each_char x := destruct x as [[] [] [] [] [] [] [] []].

Lemma lower_canonicalize (x : ascii) : Js.lowerChar (Js.canonicalize x) = Js.lowerChar x.
Proof. each_char x; reflexivity. Qed.

Lemma canonicalize_lower (x : ascii) : Js.canonicalize (Js.lowerChar x) = Js.canonicalize x.
Proof. each_char x; reflexivity. Qed.

(** Two characters are the same under the [i] flag when their lower-case
    forms are the same. *)
Lemma sameChar_lower (x c : ascii) :
  Js.eqChar (Js.canonicalize x) (Js.canonicalize c) = true <-> Js.lowerChar x = Js.lowerChar c.
Proof.
  unfold Js.eqChar. rewrite Ascii.eqb_eq. split; intros H.
  - rewrite <- (lower_canonicalize x), H. apply lower_canonicalize.
  - rewrite <- (canonicalize_lower x), H. apply canonicalize_lower.
Qed.

Lemma isMark_lower (x : ascii) : isMark (Js.lowerChar x) = isMark x.
Proof. each_char x; reflexivity. Qed.

Lemma sameChar_mark (x c : ascii) :
  In c [dquote; "'"%char; ")"%char; "."%char] ->
  Js.eqChar (Js.canonicalize x) (Js.canonicalize c) = Js.eqChar x c.
Proof.
  intros [<- | [<- | [<- | [<- | []]]]]; each_char x; reflexivity.
Qed.

Lemma toLowerCase_app (a b : string) :
  Js.toLowerCase (a +:+ b) = Js.toLowerCase a +:+ Js.toLowerCase b.
Proof.
  induction a as [|c a IH]; [reflexivity|].
  rewrite append_cons. cbn [Js.toLowerCase]. rewrite IH. reflexivity.
Qed.

Lemma allChars_app (P : ascii -> bool) (a b : string) :
  allChars P (a +:+ b) = allChars P a && allChars P b.
Proof.
  induction a as [|c a IH]; [reflexivity|].
  rewrite append_cons. cbn [allChars]. rewrite IH. apply andb_assoc.
Qed.

Lemma allChars_impl (P Q : ascii -> bool) (s : string) :
  (forall c, P c = true -> Q c = true) -> allChars P s = true -> allChars Q s = true.
Proof.
  intros H. induction s as [|c s IH]; [reflexivity|]. cbn [allChars].
  intros Hs. apply andb_true_iff in Hs as [Hc Hs]. rewrite (H c Hc), (IH Hs). reflexivity.
Qed.

Lemma allChars_lower (s : string) :
  allChars (fun c => negb (isMark c)) (Js.toLowerCase s) =
  allChars (fun c => negb (isMark c)) s.
Proof.
  induction s as [|c s IH]; [reflexivity|].
  cbn [Js.toLowerCase allChars]. rewrite isMark_lower, IH. reflexivity.
Qed.

(** ** The words of the pattern of the rewriter *)

Lemma matches_lit (w0 : string) :
  forall w cin cout,
    matches true (lit w0) w cin cout <->
    cout = cin /\ Js.toLowerCase w = Js.toLowerCase w0.
Proof.
  induction w0 as [|c w0 IH]; intros w cin cout; cbn [lit matches].
  - split.
    + intros [-> ->]. auto.
    + intros [-> H]. destruct w; [auto | discriminate].
  - split.
    + intros (w1 & w2 & c1 & -> & (x & -> & Hx & ->) & M).
      apply IH in M as [-> M]. split; [reflexivity|].
      rewrite append_cons, append_nil_l. cbn [Js.toLowerCase].
      apply sameChar_lower in Hx. rewrite Hx, M. reflexivity.
    + intros [-> H]. destruct w as [|x w]; [discriminate|].
      cbn [Js.toLowerCase] in H. injection H as Hx H.
      exists (String x EmptyString), w, cin. split; [reflexivity|]. split.
      * exists x. split; [reflexivity|]. split; [|reflexivity].
        apply sameChar_lower. exact Hx.
      * apply IH. auto.
Qed.

Lemma matches_alts (l : list string) :
  forall x w cin cout,
    matches true (alts x l) w cin cout <->
    cout = cin /\ exists e, In e (x :: l) /\ Js.toLowerCase w = Js.toLowerCase e.
Proof.
  induction l as [|y l IH]; intros x w cin cout; cbn [alts matches].
  - rewrite matches_lit. split.
    + intros [-> H]. split; [reflexivity|]. exists x. split; [left; reflexivity | exact H].
    + intros [-> (e & [<- | []] & H)]. auto.
  - rewrite matches_lit, IH. split.
    + intros [[-> H] | [-> (e & He & H)]]; (split; [reflexivity|]).
      * exists x. split; [left; reflexivity | exact H].
      * exists e. split; [right; exact He | exact H].
    + intros [-> (e & [<- | He] & H)]; [left; auto | right].
      split; [reflexivity|]. exists e. auto.
Qed.

Lemma extension_lower (e : string) :
  In e imageExtensions -> Js.toLowerCase e = e /\ allChars (fun c => negb (isMark c)) e = true.
Proof.
  intros H. repeat (destruct H as [<- | H]; [split; reflexivity|]). destruct H.
Qed.

Lemma matches_extension (w : string) (cin cout : option string) :
  matches true extension w cin cout <->
  cout = cin /\ In (Js.toLowerCase w) imageExtensions.
Proof.
  unfold extension. cbn [imageExtensions]. rewrite matches_alts. split.
  - intros [-> (e & He & H)]. split; [reflexivity|].
    rewrite H, (proj1 (extension_lower e He)). exact He.
  - intros [-> H]. split; [reflexivity|]. exists (Js.toLowerCase w). split; [exact H|].
    symmetry. apply (extension_lower _ H).
Qed.

Lemma matches_mark (c : ascii) (w : string) (cin cout : option string) :
  In c [dquote; "'"%char; ")"%char; "."%char] ->
  matches true (Chr c) w cin cout <-> w = String c EmptyString /\ cout = cin.
Proof.
  intros Hc. cbn [matches]. split.
  - intros (x & -> & Hx & ->). rewrite (sameChar_mark x c Hc) in Hx.
    apply Ascii.eqb_eq in Hx. subst x. auto.
  - intros [-> ->]. exists c. split; [reflexivity|]. split; [|reflexivity].
    apply Ascii.eqb_refl.
Qed.

Lemma matches_quote (q : string) (cin cout : option string) :
  matches true quote q cin cout <-> optionalQuote q = true /\ cout = cin.
Proof.
  unfold quote. cbn [matches].
  fold (matches true (Chr dquote) q cin cout). fold (matches true (Chr "'") q cin cout).
  rewrite !matches_mark by (cbn; auto). split.
  - intros [[-> ->] | [[-> ->] | [-> ->]]]; auto.
  - intros [Hq ->]. destruct q as [|c [|c' q]]; [auto | | discriminate].
    right. cbn [optionalQuote] in Hq. unfold isQuote in Hq.
    apply orb_true_iff in Hq as [Hq | Hq]; apply Ascii.eqb_eq in Hq; subst c; auto.
Qed.

(** A word of the whole pattern: [url(] in any case, an optional
    quotation mark, the captured path, which ends in a dot and an image
    extension in any case, an optional quotation mark and [)]. *)
Lemma matches_url (w : string) (cin cout : option string) :
  matches true urlRegex w cin cout ->
  exists u q1 d e q2,
    w = u +:+ q1 +:+ (d +:+ "." +:+ e) +:+ q2 +:+ ")" /\
    Js.toLowerCase u = "url(" /\
    optionalQuote q1 = true /\ optionalQuote q2 = true /\
    allChars (fun c => negb (Js.isLineTerminator c)) d = true /\
    In (Js.toLowerCase e) imageExtensions /\
    cout = Some (d +:+ "." +:+ e).
Proof.
  unfold urlRegex. cbn [matches].
  fold (matches true (lit "url(")). fold (matches true quote). fold (matches true extension).
  fold (matches true (Chr ".")). fold (matches true (Chr ")")).
  intros (u & w1 & c1 & -> & Mu & q1 & w2 & c2 & -> & Mq1 & g & w3 & c3 & -> &
          ([c4 (d & w4 & c5 & -> & [Hd ->] & dot & e & c6 & -> & Mdot & Me)] & ->) &
          q2 & par & c7 & -> & Mq2 & Mpar).
  apply matches_lit in Mu as [-> Hu]. apply matches_quote in Mq1 as [Hq1 ->].
  apply matches_mark in Mdot as [-> ->]; [|cbn; auto].
  apply matches_extension in Me as [-> He].
  apply matches_quote in Mq2 as [Hq2 ->].
  apply matches_mark in Mpar as [-> ->]; [|cbn; auto].
  exists u, q1, d, e, q2. repeat split; auto.
Qed.

(** ** The scan of the global [replace] *)

Lemma matchHere_word (s rest : string) (cap : option string) :
  matchHere true urlRegex s = Some (rest, cap) ->
  exists w, s = w +:+ rest /\ matches true urlRegex w None cap.
Proof.
  unfold matchHere. intros H.
  apply run_sound in H as (w & s' & cout & -> & M & H).
  injection H as <- <-. exists w. auto.
Qed.




(** One step of the scan at a place where the pattern matches. *)
Lemma scan_match (w rest : string) (p1 : string) (c : ascii) (w' : string) :
  w = String c w' ->
  matchHere true urlRegex (w +:+ rest) = Some (rest, Some p1) ->
  scan (w +:+ rest) 0 = Hit w p1 :: scan (w' +:+ rest) (String.length w').
Proof.
  intros -> H. rewrite append_cons in *. cbn [scan]. rewrite H.
  rewrite <- append_cons, substring_prefix.
  rewrite append_length. cbn [String.length].
  replace (S (String.length w') + String.length rest - String.length rest - 1)
    with (String.length w') by lia.
  reflexivity.
Qed.

Lemma scan_skip (a b : string) : scan (a +:+ b) (String.length a) = scan b 0.
Proof.
  induction a as [|c a IH]; [reflexivity|].
  rewrite append_cons. cbn [scan String.length]. exact IH.
Qed.


(** Where the scan reports a match, the pattern matches: the text of the
    match is a word of the pattern, and the capture is its capture. *)
Lemma scan_hit (whole p1 : string) (s : string) :
  forall n, In (Hit whole p1) (scan s n) ->
    exists pre rest, s = pre +:+ whole +:+ rest /\ matches true urlRegex whole None (Some p1).
Proof.
  induction s as [|c s IH]; intros n Hin; [destruct n; destruct Hin|].
  assert (forall m, In (Hit whole p1) (scan s m) ->
            exists pre rest, String c s = pre +:+ whole +:+ rest /\
                             matches true urlRegex whole None (Some p1)) as Hrec.
  { intros m Hm. destruct (IH m Hm) as (pre & rest & -> & M).
    exists (String c pre), rest. auto. }
  destruct n as [|n]; cbn [scan] in Hin; [|exact (Hrec n Hin)].
  destruct (matchHere true urlRegex (String c s)) as [[rest [q|]]|] eqn:Hm.
  - destruct Hin as [Heq | Hin]; [|exact (Hrec _ Hin)].
    pose proof (f_equal pieceText Heq) as Hwhole. cbn [pieceText] in Hwhole.
    assert (q = p1) as -> by (injection Heq; auto). clear Heq.
    destruct (matchHere_word _ _ _ Hm) as (w & Hw & M).
    rewrite Hw, substring_prefix in Hwhole. subst w.
    exists EmptyString, rest. auto.
  - destruct Hin as [Heq | Hin]; [discriminate | exact (Hrec _ Hin)].
  - destruct Hin as [Heq | Hin]; [discriminate | exact (Hrec _ Hin)].
Qed.

(** ** A reference the pattern is meant for *)

Lemma run_lit (w0 : string) :
  forall w t cap k,
    Js.toLowerCase w = Js.toLowerCase w0 ->
    run true (lit w0) (w +:+ t) cap k = k t cap.
Proof.
  induction w0 as [|c w0 IH]; intros w t cap k H; destruct w as [|x w]; try discriminate.
  - reflexivity.
  - cbn [Js.toLowerCase] in H. injection H as Hx H.
    cbn [lit run]. rewrite append_cons. apply sameChar_lower in Hx. rewrite Hx.
    apply IH. exact H.
Qed.

(** The greedy optional quotation mark takes a quotation mark when what
    follows matches, and nothing in front of another character. *)
Lemma run_quote_taken (c : ascii) (t : string) (cap : option string) (k : cont) r0 :
  isQuote c = true -> k t cap = Some r0 ->
  run true quote (String c t) cap k = Some r0.
Proof.
  intros Hc Hk. unfold quote. cbn [run].
  rewrite !sameChar_mark by (cbn; auto).
  unfold isQuote in Hc. destruct (Js.eqChar c dquote); [rewrite Hk; reflexivity|].
  cbn [orb] in Hc. rewrite Hc, Hk. reflexivity.
Qed.

Lemma run_quote_none (s : string) (cap : option string) (k : cont) :
  match s with
  | String c _ => isQuote c = false
  | EmptyString => True
  end ->
  run true quote s cap k = k s cap.
Proof.
  intros Hs. unfold quote. cbn [run]. destruct s as [|c t]; [reflexivity|].
  rewrite !sameChar_mark by (cbn; auto).
  unfold isQuote in Hs. apply orb_false_iff in Hs as [-> ->]. reflexivity.
Qed.

Lemma run_paren (rest : string) (cap : option string) (k : cont) :
  run true (Chr ")") (")" +:+ rest) cap k = k rest cap.
Proof. reflexivity. Qed.

(** What follows the capture: an optional quotation mark and [)]. *)
Lemma run_tail (q2 rest : string) (cap : option string) :
  optionalQuote q2 = true ->
  run true (Seq quote (Chr ")")) (q2 +:+ ")" +:+ rest) cap (fun s' c' => Some (s', c')) =
    Some (rest, cap).
Proof.
  intros Hq. cbn [run]. destruct q2 as [|c [|c' q2]]; [| |discriminate].
  - rewrite append_nil_l, run_quote_none; [reflexivity | reflexivity].
  - rewrite append_cons, append_nil_l. apply run_quote_taken; [exact Hq | reflexivity].
Qed.

(** Two texts that agree up to their first quotation mark or closing
    parenthesis. *)
Lemma first_mark (a : string) :
  forall w t t',
    allChars (fun c => negb (isMark c)) a = true ->
    allChars (fun c => negb (isMark c)) w = true ->
    startsWithMark t -> startsWithMark t' ->
    a +:+ t = w +:+ t' -> a = w /\ t = t'.
Proof.
  induction a as [|x a IH]; intros w t t' Ha Hw Ht Ht' H; destruct w as [|y w].
  - auto.
  - rewrite append_nil_l, append_cons in H. subst t. cbn in Ht.
    cbn [allChars] in Hw. rewrite Ht in Hw. discriminate.
  - rewrite append_nil_l, append_cons in H. subst t'. cbn in Ht'.
    cbn [allChars] in Ha. rewrite Ht' in Ha. discriminate.
  - rewrite !append_cons in H. injection H as -> H.
    cbn [allChars] in Ha, Hw.
    apply andb_true_iff in Ha as [_ Ha]. apply andb_true_iff in Hw as [_ Hw].
    destruct (IH w t t' Ha Hw Ht Ht' H) as [-> ->]. auto.
Qed.

Lemma quote_paren_mark (q rest : string) :
  optionalQuote q = true -> startsWithMark (q +:+ ")" +:+ rest).
Proof.
  destruct q as [|c [|c' q]]; [reflexivity | | discriminate].
  cbn [optionalQuote]. intros Hq. rewrite append_cons.
  unfold startsWithMark, isMark. rewrite Hq. reflexivity.
Qed.

Lemma quote_paren_unique (q q' rest rest' : string) :
  optionalQuote q = true -> optionalQuote q' = true ->
  q +:+ ")" +:+ rest = q' +:+ ")" +:+ rest' -> rest = rest'.
Proof.
  destruct q as [|c [|c1 q]]; [| |discriminate]; destruct q' as [|c' [|c2 q']];
    try discriminate; cbn [optionalQuote]; rewrite ?append_cons, ?append_nil_l;
    intros Hq Hq' H.
  - injection H as H. exact H.
  - injection H as <- H. discriminate Hq'.
  - injection H as -> H. discriminate Hq.
  - injection H as _ H. exact H.
Qed.

Lemma pathChar_not_mark (c : ascii) : pathChar c = true -> negb (isMark c) = true.
Proof.
  unfold pathChar, isMark. intros H.
  apply andb_true_iff in H as [H Hp]. apply andb_true_iff in H as [_ Hq].
  apply negb_true_iff in Hp, Hq. rewrite Hp, Hq. reflexivity.
Qed.

Lemma pathChar_not_lt (c : ascii) : pathChar c = true -> negb (Js.isLineTerminator c) = true.
Proof.
  unfold pathChar. intros H.
  apply andb_true_iff in H as [H _]. apply andb_true_iff in H as [H _]. exact H.
Qed.

(** The capture and what follows it, on a path without quotation marks,
    parentheses and line ends: the lazy capture stops at the end of the
    path. *)
Lemma run_capture (d e q2 rest : string) :
  allChars pathChar (d +:+ "." +:+ e) = true ->
  In (Js.toLowerCase e) imageExtensions ->
  optionalQuote q2 = true ->
  run true (Seq (Group (Seq LazyDots (Seq (Chr ".") extension))) (Seq quote (Chr ")")))
    ((d +:+ "." +:+ e) +:+ q2 +:+ ")" +:+ rest) None (fun s' c' => Some (s', c')) =
    Some (rest, Some (d +:+ "." +:+ e)).
Proof.
  intros Hp He Hq2.
  set (t0 := (d +:+ "." +:+ e) +:+ q2 +:+ ")" +:+ rest).
  set (k4 := fun (s3 : string) (_ : option string) =>
               run true (Seq quote (Chr ")")) s3
                 (Some (substring 0 (String.length t0 - String.length s3) t0))
                 (fun s' c' => Some (s', c'))).
  change (lazyDots (fun s' => run true (Seq (Chr ".") extension) s' None k4) t0 =
          Some (rest, Some (d +:+ "." +:+ e))).
  assert (t0 = d +:+ ("." +:+ e +:+ q2 +:+ ")" +:+ rest)) as Ht0.
  { unfold t0. rewrite !append_assoc. reflexivity. }
  rewrite Ht0.
  rewrite !allChars_app in Hp. apply andb_true_iff in Hp as [Hd Hdote].
  apply andb_true_iff in Hdote as [_ Hpe].
  assert (forall a1 a2 r, d = a1 +:+ a2 ->
            run true (Seq (Chr ".") extension) (a2 +:+ "." +:+ e +:+ q2 +:+ ")" +:+ rest)
              None k4 = Some r ->
            r = (rest, Some (d +:+ "." +:+ e))) as Hunique.
  { intros a1 a2 r Hd12 Hr.
    apply run_sound in Hr as (w & s' & cout & Heq & M & Hk).
    cbn [matches] in M. destruct M as (w1 & e' & c1 & -> & Mdot & Me).
    apply matches_mark in Mdot as [-> ->]; [|cbn; auto].
    apply matches_extension in Me as [-> He'].
    unfold k4 in Hk. apply run_sound in Hk as (w2 & s'' & c2 & -> & M2 & Hk).
    injection Hk as <-.
    cbn [matches] in M2. destruct M2 as (q2' & par & c3 & -> & Mq & Mpar).
    apply matches_quote in Mq as [Hq2' ->].
    apply matches_mark in Mpar as [-> ->]; [|cbn; auto].
    assert (a2 +:+ "." +:+ e = "." +:+ e' /\
            q2 +:+ ")" +:+ rest = q2' +:+ ")" +:+ s'') as [_ Htail].
    { apply first_mark.
      - rewrite Hd12, allChars_app in Hd. apply andb_true_iff in Hd as [_ Ha2].
        rewrite !allChars_app, (allChars_impl _ _ _ pathChar_not_mark Ha2).
        cbn [allChars andb]. apply (allChars_impl _ _ _ pathChar_not_mark Hpe).
      - rewrite allChars_app. cbn [allChars andb].
        rewrite <- allChars_lower. apply (extension_lower _ He').
      - apply quote_paren_mark. exact Hq2.
      - apply quote_paren_mark. exact Hq2'.
      - rewrite <- !append_assoc. rewrite <- !append_assoc in Heq. exact Heq. }
    pose proof (quote_paren_unique _ _ _ _ Hq2 Hq2' Htail) as <-. f_equal. f_equal.
    rewrite append_assoc, <- Htail. unfold t0. apply substring_prefix. }
  apply lazyDots_first.
  - apply (allChars_impl _ _ _ pathChar_not_lt Hd).
  - destruct (run_complete true (Seq (Chr ".") extension) ("." +:+ e) None None
                (q2 +:+ ")" +:+ rest) k4 (rest, Some (d +:+ "." +:+ e))) as [res Hres].
    + cbn [matches]. exists ".", e, None. split; [reflexivity|]. split.
      * apply matches_mark; [cbn; auto | auto].
      * apply matches_extension. auto.
    + unfold k4. rewrite (run_tail q2 rest _ Hq2). unfold t0.
      rewrite substring_prefix. reflexivity.
    + rewrite append_assoc in Hres. rewrite Hres. f_equal.
      apply (Hunique d EmptyString res); [symmetry; apply append_nil_r|].
      rewrite append_nil_l. exact Hres.
  - intros a1 a2 r Hd12 Hr. exact (Hunique a1 a2 r Hd12 Hr).
Qed.

(** The pattern on a reference in its usual form. *)
Lemma matchHere_reference (u q1 d e q2 rest : string) :
  Js.toLowerCase u = "url(" ->
  optionalQuote q1 = true -> optionalQuote q2 = true ->
  allChars pathChar (d +:+ "." +:+ e) = true ->
  In (Js.toLowerCase e) imageExtensions ->
  matchHere true urlRegex (u +:+ q1 +:+ (d +:+ "." +:+ e) +:+ q2 +:+ ")" +:+ rest) =
    Some (rest, Some (d +:+ "." +:+ e)).
Proof.
  intros Hu Hq1 Hq2 Hp He. unfold matchHere, urlRegex.
  change (run true (lit "url(") (u +:+ q1 +:+ (d +:+ "." +:+ e) +:+ q2 +:+ ")" +:+ rest) None
            (fun s' c' => run true quote s' c'
               (fun s'' c'' =>
                  run true (Seq (Group (Seq LazyDots (Seq (Chr ".") extension)))
                              (Seq quote (Chr ")"))) s'' c'' (fun s3 c3 => Some (s3, c3)))) =
          Some (rest, Some (d +:+ "." +:+ e))).
  rewrite (run_lit "url(" u _ _ _ Hu).
  destruct q1 as [|c [|c' q1]]; [| |discriminate].
  - rewrite append_nil_l, run_quote_none; [apply run_capture; assumption|].
    destruct d as [|x d]; [reflexivity|].
    rewrite !append_cons. rewrite append_cons in Hp. cbn [allChars] in Hp.
    apply andb_true_iff in Hp as [Hx _]. unfold pathChar in Hx.
    apply andb_true_iff in Hx as [Hx _]. apply andb_true_iff in Hx as [_ Hx].
    apply negb_true_iff in Hx. exact Hx.
  - rewrite append_cons, append_nil_l.
    apply run_quote_taken; [exact Hq1 | apply run_capture; assumption].
Qed.

(** ** What the rewriter keeps and what it replaces *)


(** X2: a match of the scan is a part of the text that reads [url(] in any
    case, an optional quotation mark, the captured path, an optional
    quotation mark and [)], and the captured path ends in a dot and one of
    the image extensions in any case, after a text without line end. *)
Theorem hit_is_an_image_reference (data whole p1 : string) :
  In (Hit whole p1) (scan data 0) ->
  contains whole data /\
  exists u q1 d e q2,
    whole = u +:+ q1 +:+ p1 +:+ q2 +:+ ")" /\
    Js.toLowerCase u = "url(" /\
    optionalQuote q1 = true /\ optionalQuote q2 = true /\
    p1 = d +:+ "." +:+ e /\
    allChars (fun c => negb (Js.isLineTerminator c)) d = true /\
    In (Js.toLowerCase e) imageExtensions.
Proof.
  intros Hin. apply scan_hit in Hin as (pre & rest & -> & M). split.
  - exists pre, rest. reflexivity.
  - apply matches_url in M as (u & q1 & d & e & q2 & -> & Hu & Hq1 & Hq2 & Hd & He & Hcap).
    injection Hcap as ->. exists u, q1, d, e, q2. auto 10.
Qed.

Lemma cssSaid_no_hit (path_join : string -> string -> string) (chalk : color -> string -> string)
    (cli : flags) (baseUrl : string) (l : list piece) :
  forallb (fun pc => negb (isHit pc)) l = true ->
  cssSaid path_join chalk cli baseUrl l = [].
Proof.
  induction l as [|[c|w p] l IH]; [reflexivity | exact IH | discriminate].
Qed.

Lemma no_url_no_hit (data : string) :
  includes "url(" (Js.toLowerCase data) = false ->
  forallb (fun pc => negb (isHit pc)) (scan data 0) = true.
Proof.
  intros Hno. apply forallb_forall. intros [c|whole p1] Hin; [reflexivity|].
  apply scan_hit in Hin as (pre & rest & -> & M).
  apply matches_url in M as (u & q1 & d & e & q2 & -> & Hu & _).
  apply not_includes in Hno. destruct Hno.
  exists (Js.toLowerCase pre),
    (Js.toLowerCase (q1 +:+ (d +:+ "." +:+ e) +:+ q2 +:+ ")") +:+ Js.toLowerCase rest).
  rewrite !toLowerCase_app, Hu, !append_assoc. reflexivity.
Qed.

Section Rewriter.

Variable path_join : string -> string -> string.
Variable chalk : color -> string -> string.
Variable dataUri : string -> string -> string.
Variable cli : flags.
Variable disk : string -> option entry.

Abbreviation rewrite_css := (rewriteCss path_join chalk dataUri cli disk).

(** X3: a stylesheet that holds [url(] nowhere, in any case, comes back
    from the rewriter as it is; no file is read and nothing is logged. *)
Theorem stylesheet_without_url_is_kept (baseUrl data : string) (s : cstate) :
  includes "url(" (Js.toLowerCase data) = false ->
  rewrite_css baseUrl data s = Ret data s.
Proof.
  intros Hno. pose proof (no_url_no_hit data Hno) as Hkeep.
  rewrite (rewriteCss_text path_join chalk dataUri cli disk baseUrl data data).
  - rewrite (cssSaid_no_hit _ _ _ _ _ Hkeep), logged_nil. reflexivity.
  - apply cssText_no_hit. exact Hkeep.
Qed.

(** X4: a reference in its usual form at the start of the text ([url(] in
    any case, the path between optional quotation marks, [)], where the
    path holds no quotation mark, no closing parenthesis and no line end,
    and ends in a dot and an image extension in any case) is one match, and
    its capture is the path.  The rewriter reads the file at that path
    below the directory of the stylesheet, puts [url(], the data URI and
    [)] in the place of the reference, without the quotation marks, and
    goes on with the rest of the text. *)
Theorem reference_is_replaced (baseUrl u q1 d e q2 rest X : string) (s : cstate) :
  Js.toLowerCase u = "url(" ->
  optionalQuote q1 = true -> optionalQuote q2 = true ->
  allChars pathChar (d +:+ "." +:+ e) = true ->
  In (Js.toLowerCase e) imageExtensions ->
  disk (path_join baseUrl (d +:+ "." +:+ e)) = Some (File X) ->
  scan (u +:+ q1 +:+ (d +:+ "." +:+ e) +:+ q2 +:+ ")" +:+ rest) 0 =
    Hit (u +:+ q1 +:+ (d +:+ "." +:+ e) +:+ q2 +:+ ")") (d +:+ "." +:+ e) :: scan rest 0 /\
  rewrite_css baseUrl (u +:+ q1 +:+ (d +:+ "." +:+ e) +:+ q2 +:+ ")" +:+ rest) s =
    bind (rewrite_css baseUrl rest)
      (fun tail =>
         ret ("url(" +:+ dataUri (path_join baseUrl (d +:+ "." +:+ e)) X +:+ ")" +:+ tail))
      (logged (said cli ("Fetching image for css resource " +:+
                         chalk blue (path_join baseUrl (d +:+ "." +:+ e)))) s).
Proof.
  intros Hu Hq1 Hq2 Hp He Hd.
  pose proof (matchHere_reference u q1 d e q2 rest Hu Hq1 Hq2 Hp He) as Hm.
  assert (scan (u +:+ q1 +:+ (d +:+ "." +:+ e) +:+ q2 +:+ ")" +:+ rest) 0 =
          Hit (u +:+ q1 +:+ (d +:+ "." +:+ e) +:+ q2 +:+ ")") (d +:+ "." +:+ e) ::
          scan rest 0) as Hscan.
  { destruct u as [|c u]; [discriminate|].
    replace (String c u +:+ q1 +:+ (d +:+ "." +:+ e) +:+ q2 +:+ ")" +:+ rest)
      with ((String c u +:+ q1 +:+ (d +:+ "." +:+ e) +:+ q2 +:+ ")") +:+ rest) in *
      by (rewrite !append_assoc; reflexivity).
    rewrite (scan_match (String c u +:+ q1 +:+ (d +:+ "." +:+ e) +:+ q2 +:+ ")") rest _ c
               (u +:+ q1 +:+ (d +:+ "." +:+ e) +:+ q2 +:+ ")") (append_cons _ _ _) Hm).
    rewrite scan_skip. reflexivity. }
  split; [exact Hscan|].
  unfold rewriteCss. rewrite Hscan. cbn [replaceEach embedUrl]. unfold bind.
  rewrite verboseLog_said. unfold base64Sync, bind, readFileSync. rewrite Hd.
  unfold ret. destruct (replaceEach _ (scan rest 0) _); rewrite ?append_assoc; reflexivity.
Qed.

End Rewriter.

(** ** A pass over a whole document *)

Lemma shouldProcess_attr (t : tag) (req : list string) (k : string) :
  shouldProcess t req = true -> In k req ->
  exists a v, attribs t = Some a /\ getAttr k a = Some v /\ v <> EmptyString.
Proof.
  unfold shouldProcess. destruct (attribs t) as [a|]; [|discriminate].
  intros H Hk. rewrite forallb_forall in H. specialize (H k Hk).
  destruct (getAttr k a) as [[|c v]|] eqn:Hg; try discriminate.
  exists a, (String c v). split; [reflexivity|]. split; [exact Hg | discriminate].
Qed.

Lemma forEach_idle {A} (l : list A) (f : A -> M unit) (s : cstate) :
  (forall x, In x l -> f x s = Ret tt s) -> forEach l f s = Ret tt s.
Proof.
  induction l as [|x l IH]; intros H; [reflexivity|].
  cbn [forEach]. unfold bind. rewrite (H x (or_introl eq_refl)).
  apply IH. intros y Hy. apply H. right. exact Hy.
Qed.

Lemma count_onlyLogs (f : effect -> bool) (s s' : cstate) :
  (forall line, f (Log line) = false) -> onlyLogs s s' ->
  count f (trace s') = count f (trace s).
Proof.
  intros Hf (_ & _ & l & -> & Hl). rewrite count_app, (count_logs f l Hf Hl). lia.
Qed.

Section Document.

Variable path_join : string -> string -> string.
Variable path_normalize : string -> string.
Variable path_dirname : string -> string.
Variable chalk : color -> string -> string.
Variable dataUri : string -> string -> string.
Variable dirname : string.
Variable cli : flags.
Variable disk : string -> option entry.

Abbreviation fetch :=
  (fetchAndEmbedResource path_join path_normalize path_dirname chalk dataUri dirname cli disk).
Abbreviation embed :=
  (embedResources path_join path_normalize path_dirname chalk dataUri dirname cli disk).
Abbreviation base := (basePath path_join path_normalize dirname cli).

(** A loop leaves alone a position that it does not collect, or whose tag
    lacks an attribute its call requires. *)
Lemma loop_idle (test : node -> bool) req kind pa nt nn (dom : list node) (q : ref)
    (l : list (ref * node)) (s s' : cstate) :
  l = findAll test dom \/ l = [] ->
  heap s !! q = None ->
  (forall n, locate dom q = Some n -> test n = true -> isElement n = true -> l <> [] ->
     shouldProcess (tagOf n) req = false) ->
  forEach l (fun tag => fetch tag req kind pa nt nn) s = Ret tt s' ->
  heap s' !! q = None.
Proof.
  intros Hl Hs Hskip Hrun.
  destruct Hl as [-> | ->]; [|injection Hrun as <-; exact Hs].
  destruct (decide (q ∈ (fst <$> findAll test dom))) as [Hin | Hout].
  - apply list_elem_of_fmap in Hin as ([q' n] & Heq & Hin). cbn [fst] in Heq. subst q'.
    apply list_elem_of_In in Hin.
    pose proof (proj1 (findAll_spec test dom q n) Hin) as (Hq & _ & Hel & Ht).
    destruct (loop_at path_join path_normalize path_dirname chalk dataUri dirname cli disk
                test req kind pa nt nn dom q n s s' Hin Hrun) as (sa & sb & Ha & Hf & Hb).
    rewrite fetch_skip in Hf.
    + injection Hf as <-. congruence.
    + rewrite (deref_none _ _ _ (eq_trans Ha Hs)). apply Hskip; [exact Hq | exact Ht | exact Hel |].
      intros Hnil. rewrite Hnil in Hin. destruct Hin.
  - rewrite <- Hs.
    apply (forEach_sameAt q (findAll test dom) (fun tag => fetch tag req kind pa nt nn) s s');
      [|exact Hrun].
    intros x Hx. apply fetch_sameAt. intros Heq. apply Hout.
    apply list_elem_of_fmap. exists x. split; [symmetry; exact Heq|].
    apply list_elem_of_In. exact Hx.
Qed.

Lemma resource_none (imagesOn : bool) (n : node) :
  resource imagesOn n = None ->
  isElement n = true ->
  (String.eqb (nodeType n) "script" = true -> shouldProcess (tagOf n) ["src"] = false) /\
  (optEqb (nodeName n) "link" = true -> shouldProcess (tagOf n) ["rel"; "href"] = false) /\
  (optEqb (nodeName n) "img" = true -> imagesOn = true ->
   shouldProcess (tagOf n) ["src"] = false).
Proof.
  unfold resource, isElement. intros H Hel. rewrite Hel in H. cbn [negb] in H.
  assert (forall req k, In k req -> shouldProcess (tagOf n) req = true ->
            forall kind : string, pair kind <$> (nodeAttribs n ≫= getAttr k) <> None)
    as Hsome.
  { intros req k Hk Hsp kind.
    destruct (shouldProcess_attr _ _ k Hsp Hk) as (a & v & Ha & Hv & _).
    cbn [tagOf attribs] in Ha. rewrite Ha. cbn [mbind option_bind]. rewrite Hv. discriminate. }
  destruct (String.eqb (nodeType n) "script") eqn:Es;
    destruct (shouldProcess (tagOf n) ["src"]) eqn:Ps; cbn [andb] in H;
    try (exfalso; exact (Hsome ["src"] "src" (or_introl eq_refl) Ps "script" H));
    destruct (optEqb (nodeName n) "link") eqn:El;
    destruct (shouldProcess (tagOf n) ["rel"; "href"]) eqn:Pl; cbn [andb] in H;
    try (exfalso;
         exact (Hsome ["rel"; "href"] "href" (or_intror (or_introl eq_refl)) Pl "stylesheet" H));
    destruct imagesOn; destruct (optEqb (nodeName n) "img") eqn:Ei; cbn [andb] in H;
    try (exfalso; exact (Hsome ["src"] "src" (or_introl eq_refl) Ps "image" H));
    repeat split; intros; congruence.
Qed.

(** A pass that returns has not written to a position where no call
    acts. *)
Lemma pass_leaves (dom : list node) (filePath : string) (s s' : cstate) (q : ref) :
  heap s = ∅ ->
  (forall n, locate dom q = Some n -> resource (images (cliFlags cli)) n = None) ->
  embed dom filePath s = Ret tt s' ->
  heap s' !! q = None.
Proof.
  intros Hs Hres Hrun.
  apply embedResources_ret in Hrun as (s1 & s2 & s3 & H1 & H2 & H3 & ->).
  change (heap (logged _ s3)) with (heap s3).
  assert (heap s1 !! q = None) as Hq1.
  { apply (loop_idle _ _ _ _ _ _ dom q _ _ s1 (or_introl eq_refl)) in H1; [exact H1| |].
    - change (heap (logged _ s)) with (heap s). rewrite Hs. apply lookup_empty.
    - intros n Hq Ht Hel _. apply (proj1 (resource_none _ _ (Hres n Hq) Hel)). exact Ht. }
  assert (heap s2 !! q = None) as Hq2.
  { apply (loop_idle _ _ _ _ _ _ dom q _ _ s2 (or_introl eq_refl) Hq1) in H2; [exact H2|].
    intros n Hq Ht Hel _. apply (proj1 (proj2 (resource_none _ _ (Hres n Hq) Hel))). exact Ht. }
  apply (loop_idle (fun elem => optEqb (nodeName elem) "img") _ _ _ _ _ dom q _ _ s3)
    in H3; [exact H3 | | exact Hq2 |].
  - destruct (images (cliFlags cli)); auto.
  - intros n Hq Ht Hel Hne. apply (proj2 (proj2 (resource_none _ _ (Hres n Hq) Hel))); [exact Ht|].
    destruct (images (cliFlags cli)); congruence.
Qed.

(** X5: a pass that returns has not written to an element that no call
    acts on: an element that none of the three loops collects, or that
    lacks an attribute the call of its loop requires (a script without
    [src], a link without [rel] or [href], an img without [src], or with
    an empty one).  Its fields are those of the parsed element. *)
Theorem element_without_resource_untouched (dom : list node) (filePath : string)
    (s s' : cstate) (q : ref) (n : node) :
  heap s = ∅ ->
  locate dom q = Some n ->
  resource (images (cliFlags cli)) n = None ->
  embed dom filePath s = Ret tt s' ->
  heap s' !! q = None /\ deref (heap s') (q, n) = tagOf n.
Proof.
  intros Hs Hq Hres Hrun.
  assert (heap s' !! q = None) as Hnone.
  { apply (pass_leaves dom filePath s s' q Hs); [|exact Hrun].
    intros m Hm. rewrite Hq in Hm. injection Hm as <-. exact Hres. }
  split; [exact Hnone | apply deref_none; exact Hnone].
Qed.

Lemma outerHTMLs_ext (h1 h2 : gmap ref tag) (l : list node) :
  Forall (fun c => forall p xml, (forall r, h1 !! (p ++ r) = h2 !! (p ++ r)) ->
                    getOuterHTML h1 xml p c = getOuterHTML h2 xml p c) l ->
  forall p xml i, (forall r, h1 !! (p ++ r) = h2 !! (p ++ r)) ->
    outerHTMLs h1 xml p i l = outerHTMLs h2 xml p i l.
Proof.
  induction 1 as [|c l Hc _ IH]; intros p xml i Hp; [reflexivity|].
  cbn [outerHTMLs]. rewrite (IH p xml (S i) Hp). f_equal.
  apply Hc. intros r. rewrite <- !app_assoc. apply Hp.
Qed.

(** The text of a node depends on the objects at and below its position
    only. *)
Lemma getOuterHTML_ext (h1 h2 : gmap ref tag) (n : node) :
  forall p xml, (forall r, h1 !! (p ++ r) = h2 !! (p ++ r)) ->
    getOuterHTML h1 xml p n = getOuterHTML h2 xml p n.
Proof.
  induction n as [ty nm a ch d IH] using node_ind. intros p xml Hp.
  rewrite !getOuterHTML_eq. cbv zeta.
  assert (deref h1 (p, Node ty nm a ch d) = deref h2 (p, Node ty nm a ch d)) as ->.
  { unfold deref. cbn [fst snd]. specialize (Hp []). rewrite app_nil_r in Hp.
    rewrite Hp. reflexivity. }
  cbn [nodeChildren nodeData].
  rewrite (outerHTMLs_ext h1 h2 ch IH p _ 0 Hp). reflexivity.
Qed.

(** X6: a pass that returns writes a part of the document that holds no
    resource as it was parsed: the text of a node such that no call acts
    on it or on a node below it is the text of the parsed node, whatever
    the pass embeds elsewhere. *)
Theorem part_without_resource_is_written_as_parsed (dom : list node) (filePath : string)
    (s s' : cstate) (q : ref) (n : node) (xml : bool) :
  heap s = ∅ ->
  locate dom q = Some n ->
  (forall r m, locate dom (q ++ r) = Some m -> resource (images (cliFlags cli)) m = None) ->
  embed dom filePath s = Ret tt s' ->
  getOuterHTML (heap s') xml q n = getOuterHTML ∅ xml q n.
Proof.
  intros Hs Hq Hres Hrun. apply getOuterHTML_ext. intros r.
  rewrite lookup_empty. apply (pass_leaves dom filePath s s' (q ++ r) Hs); [|exact Hrun].
  intros m Hm. exact (Hres r m Hm).
Qed.

(** X7: when no element that the loops collect has the attributes its call
    requires, the pass returns, writes to no object, and issues the write
    of the document as it was parsed; it logs nothing but its two verbose
    lines. *)
Theorem nothing_to_embed (dom : list node) (filePath : string) (s : cstate) :
  heap s = ∅ ->
  nothingToEmbed (images (cliFlags cli)) dom = true ->
  embed dom filePath s =
    Ret tt (logged (said cli "Embedding resources..." ++
                    said cli ("Writing embedded file " +:+ chalk blue filePath) ++
                    [WriteFile filePath (outerHTMLs ∅ false [] 0 dom)]) s).
Proof.
  intros Hs Hno. unfold nothingToEmbed in Hno.
  apply andb_true_iff in Hno as [Hno Himg]. apply andb_true_iff in Hno as [Hscript Hlink].
  assert (forall l req kind pa nt nn (s0 : cstate),
            heap s0 = ∅ ->
            forallb (fun t => negb (shouldProcess (tagOf (snd t)) req)) l = true ->
            forEach l (fun tag => fetch tag req kind pa nt nn) s0 = Ret tt s0) as Hidle.
  { intros l req kind pa nt nn s0 Hs0 Hl. apply forEach_idle. intros t Ht.
    apply fetch_skip. unfold deref. rewrite Hs0, lookup_empty. cbn [default].
    rewrite forallb_forall in Hl. apply negb_true_iff. exact (Hl t Ht). }
  unfold embedResources, bind. rewrite verboseLog_said. cbv zeta.
  set (s0 := logged (said cli "Embedding resources...") s).
  assert (heap s0 = ∅) as Hs0 by exact Hs.
  rewrite (Hidle _ _ _ _ _ _ s0 Hs0 Hscript), (Hidle _ _ _ _ _ _ s0 Hs0 Hlink).
  rewrite (Hidle _ _ _ _ _ _ s0 Hs0).
  - unfold writeFile, bind. rewrite verboseLog_said, emit_logged. unfold s0.
    rewrite !logged_logged. change (heap (logged _ s)) with (heap s).
    rewrite Hs. reflexivity.
  - destruct (images (cliFlags cli)); [exact Himg | reflexivity].
Qed.

(** What a pass leaves behind, by the way it ends. *)
Lemma pass_outcome (dom : list node) (filePath : string) (s : cstate) :
  match embed dom filePath s with
  | Ret _ s' =>
      numberOfFilesToProcess s' = numberOfFilesToProcess s /\
      numberOfFilesProcessed s' = numberOfFilesProcessed s /\
      exists l, forallb isLog l = true /\
        trace s' = trace s ++ l ++ [WriteFile filePath (outerHTMLs (heap s') false [] 0 dom)]
  | Exit _ s' | Throw _ s' =>
      onlyLogs s s' /\ count isWriteFile (trace s') = count isWriteFile (trace s)
  end.
Proof.
  pose proof (writesLast_embedResources path_join path_normalize path_dirname chalk dataUri
                dirname cli disk dom filePath s) as Hw.
  destruct (embed dom filePath s) as [[] s'|c s'|w s'] eqn:Hrun.
  - destruct Hw as (s3 & fp & out & (Hn & Hp & l & Hl & Hlogs) & ->).
    apply embedResources_ret in Hrun as (s1 & s2 & s4 & _ & _ & _ & Heq).
    pose proof (f_equal trace Heq) as Htr. pose proof (f_equal heap Heq) as Hh.
    unfold logged, withTrace in Htr, Hh. cbn [trace heap] in Htr, Hh.
    rewrite app_assoc in Htr. apply app_inj_tail in Htr as [_ Hlast].
    injection Hlast as -> ->.
    cbn [logged withTrace numberOfFilesToProcess numberOfFilesProcessed trace heap].
    split; [exact Hn|]. split; [exact Hp|]. exists l. split; [exact Hlogs|].
    rewrite Hl, <- app_assoc, Hh. reflexivity.
  - split; [exact Hw | apply count_onlyLogs; [reflexivity | exact Hw]].
  - split; [exact Hw | apply count_onlyLogs; [reflexivity | exact Hw]].
Qed.

(** X8: whatever the document and the disk, a pass leaves the two counters
    alone and issues no asynchronous call but one write: all it does is
    log and, when it returns and only then, write the serialized document
    to [filePath] once, as the last thing it does. *)
Theorem pass_footprint (dom : list node) (filePath : string) (s : cstate) :
  numberOfFilesToProcess (final (embed dom filePath s)) = numberOfFilesToProcess s /\
  numberOfFilesProcessed (final (embed dom filePath s)) = numberOfFilesProcessed s /\
  exists l,
    forallb isLog l = true /\
    trace (final (embed dom filePath s)) =
      trace s ++ l ++
      match embed dom filePath s with
      | Ret _ s' => [WriteFile filePath (outerHTMLs (heap s') false [] 0 dom)]
      | Exit _ _ | Throw _ _ => []
      end.
Proof.
  pose proof (pass_outcome dom filePath s) as H.
  destruct (embed dom filePath s) as [[] s'|c s'|w s']; cbn [final].
  - destruct H as (Hn & Hp & l & Hl & Ht). eauto.
  - destruct H as ((Hn & Hp & l & Ht & Hl) & _). rewrite Ht.
    split; [exact Hn|]. split; [exact Hp|]. exists l. rewrite app_nil_r. auto.
  - destruct H as ((Hn & Hp & l & Ht & Hl) & _). rewrite Ht.
    split; [exact Hn|]. split; [exact Hp|]. exists l. rewrite app_nil_r. auto.
Qed.

End Document.

(** ** References on which a pass stops *)

Section Stops.

Variable path_join : string -> string -> string.
Variable path_normalize : string -> string.
Variable path_dirname : string -> string.
Variable chalk : color -> string -> string.
Variable dataUri : string -> string -> string.
Variable dirname : string.
Variable cli : flags.
Variable disk : string -> option entry.

Abbreviation fetch :=
  (fetchAndEmbedResource path_join path_normalize path_dirname chalk dataUri dirname cli disk).
Abbreviation embed :=
  (embedResources path_join path_normalize path_dirname chalk dataUri dirname cli disk).
Abbreviation base := (basePath path_join path_normalize dirname cli).

(** A local path that names a directory: [existsSync] says yes and the
    read throws. *)
Lemma fetch_directory t req kind pa nt nn s a src :
  shouldProcess (deref (heap s) t) req = true ->
  attribs (deref (heap s) t) = Some a ->
  getAttr pa a = Some src ->
  Js.startsWith "http" src = false ->
  disk (path_join base src) = Some Dir ->
  fetch t req kind pa nt nn s =
    Throw "EISDIR" (logged (said cli ("Fetching " +:+ kind +:+ " " +:+ chalk blue src)) s).
Proof.
  intros H Ha Hs Hx Hd. unfold fetchAndEmbedResource, bind, getTag.
  rewrite H, Ha. cbn [mbind option_bind]. rewrite Hs, Hx. cbn [negb].
  rewrite verboseLog_said. unfold existsSync, base64Sync, bind, readFileSync.
  rewrite Hd. cbn [negb]. destruct (negb (String.eqb kind "image")); reflexivity.
Qed.

Lemma replaceEach_fails baseUrl (l : list piece) (s : cstate) :
  cssText path_join dataUri disk baseUrl l = None ->
  exists what s1,
    replaceEach (embedUrl path_join chalk dataUri cli disk baseUrl) l s = Throw what s1.
Proof.
  revert s. induction l as [|pc l IH]; intros s H; [discriminate|].
  cbn [cssText replaceEach] in *. unfold bind.
  destruct (urlText path_join dataUri disk baseUrl pc) as [a|] eqn:Ha.
  - rewrite (embedUrl_text path_join chalk dataUri cli disk baseUrl pc a s Ha).
    destruct (cssText path_join dataUri disk baseUrl l) as [b|]; [discriminate|].
    destruct (IH (logged (cssSaid path_join chalk cli baseUrl [pc]) s) eq_refl)
      as (what & s1 & ->). eauto.
  - destruct pc as [c|whole p1]; [discriminate|]. cbn [urlText embedUrl] in *.
    unfold bind. rewrite verboseLog_said. unfold base64Sync, bind, readFileSync.
    destruct (disk (path_join baseUrl p1)) as [[content|]|]; [discriminate| |]; eauto.
Qed.

(** A stylesheet that is there, with a match whose file cannot be read. *)
Lemma fetch_stylesheet_fails t req pa nt nn s a href X :
  shouldProcess (deref (heap s) t) req = true ->
  attribs (deref (heap s) t) = Some a ->
  getAttr pa a = Some href ->
  Js.startsWith "http" href = false ->
  disk (path_join base href) = Some (File X) ->
  cssText path_join dataUri disk (path_dirname (path_join base href)) (scan X 0) = None ->
  exists what s1, fetch t req "stylesheet" pa nt nn s = Throw what s1.
Proof.
  intros H Ha Hs Hx Hd Hy. unfold fetchAndEmbedResource, bind, getTag.
  rewrite H, Ha. cbn [mbind option_bind]. rewrite Hs, Hx. cbn [negb].
  rewrite verboseLog_said. unfold existsSync, readFileSync.
  cbn [logged withTrace heap]. rewrite Hd.
  change (String.eqb "stylesheet" "image") with false.
  change (String.eqb "stylesheet" "stylesheet") with true. cbn [negb].
  unfold ret, setTag, bind, rewriteCss.
  match goal with
  | |- context [replaceEach ?f ?l ?st] =>
      destruct (replaceEach_fails (path_dirname (path_join base href)) l st Hy)
        as (what & s1 & ->)
  end.
  eauto.
Qed.

Lemma resource_some (imagesOn : bool) (n : node) (kind src : string) :
  resource imagesOn n = Some (kind, src) ->
  isElement n = true /\
  shouldProcess (tagOf n) (requiredOf kind) = true /\
  nodeAttribs n ≫= getAttr (pathAttributeOf kind) = Some src /\
  ((kind = "script" /\ String.eqb (nodeType n) "script" = true) \/
   (kind = "stylesheet" /\ optEqb (nodeName n) "link" = true /\
    (String.eqb (nodeType n) "script" = true -> shouldProcess (tagOf n) ["src"] = false)) \/
   (kind = "image" /\ imagesOn = true /\ optEqb (nodeName n) "img" = true /\
    String.eqb (nodeType n) "script" = false /\
    (optEqb (nodeName n) "link" = true -> shouldProcess (tagOf n) ["rel"; "href"] = false))).
Proof.
  unfold resource, isElement.
  destruct (isTag (nodeType n)); [|discriminate]. cbn [negb].
  destruct (String.eqb (nodeType n) "script") eqn:Es;
    destruct (shouldProcess (tagOf n) ["src"]) eqn:Ps;
    destruct (optEqb (nodeName n) "link") eqn:El;
    destruct (shouldProcess (tagOf n) ["rel"; "href"]) eqn:Pl;
    destruct imagesOn; destruct (optEqb (nodeName n) "img") eqn:Ei;
    cbn [andb]; try discriminate; intros H;
    match type of H with
    | pair _ <$> ?x = _ => destruct x as [v|] eqn:Hv; [|discriminate H]
    end;
    injection H as <- <-;
    (split; [reflexivity|]); (split; [first [exact Ps | exact Pl]|]); (split; [exact Hv|]);
    first [ left; split; reflexivity
          | right; left; repeat split; try reflexivity; intros; congruence
          | right; right; repeat split; try reflexivity; intros; congruence ].
Qed.

(** A pass that returns has made the call for the resource of an element,
    on the fields the element was parsed with. *)
Lemma pass_reaches (dom : list node) (filePath : string) (s s' : cstate) (q : ref) (n : node)
    (kind src : string) :
  heap s = ∅ ->
  locate dom q = Some n ->
  ancestors isElement dom q = true ->
  resource (images (cliFlags cli)) n = Some (kind, src) ->
  embed dom filePath s = Ret tt s' ->
  exists sa sb,
    deref (heap sa) (q, n) = tagOf n /\
    fetch (q, n) (requiredOf kind) kind (pathAttributeOf kind) (newTagOf kind) (newTagOf kind)
      sa = Ret tt sb.
Proof.
  intros Hs Hq Hanc Hres Hrun.
  apply resource_some in Hres as (Hel & Hsp & Hsrc & Hkind).
  apply embedResources_ret in Hrun as (s1 & s2 & s3 & H1 & H2 & H3 & _).
  assert (heap (logged (said cli "Embedding resources...") s) !! q = None) as Hq0.
  { change (heap (logged _ s)) with (heap s). rewrite Hs. apply lookup_empty. }
  destruct Hkind as [[-> Hscript] | [(-> & Hlink & Hno) | (-> & Himg & Hname & Hns & Hno)]].
  - destruct (loop_at path_join path_normalize path_dirname chalk dataUri dirname cli disk
                _ _ _ _ _ _ dom q n _ s1
                (proj2 (findAll_spec _ dom q n) (conj Hq (conj Hanc (conj Hel Hscript)))) H1)
      as (sa & sb & Ha & Hf & _).
    exists sa, sb. split; [|exact Hf]. apply deref_none. congruence.
  - assert (heap s1 !! q = None) as Hq1.
    { apply (loop_idle _ _ _ _ _ _ _ _ _ _ _ _ _ _ dom q _ _ s1 (or_introl eq_refl) Hq0)
        in H1; [exact H1|].
      intros m Hm Ht _ _. rewrite Hq in Hm. injection Hm as <-. exact (Hno Ht). }
    destruct (loop_at path_join path_normalize path_dirname chalk dataUri dirname cli disk
                _ _ _ _ _ _ dom q n _ s2
                (proj2 (findAll_spec _ dom q n) (conj Hq (conj Hanc (conj Hel Hlink)))) H2)
      as (sa & sb & Ha & Hf & _).
    exists sa, sb. split; [|exact Hf]. apply deref_none. congruence.
  - assert (heap s1 !! q = None) as Hq1.
    { apply (loop_idle _ _ _ _ _ _ _ _ _ _ _ _ _ _ dom q _ _ s1 (or_introl eq_refl) Hq0)
        in H1; [exact H1|].
      intros m Hm Ht _ _. rewrite Hq in Hm. injection Hm as <-. cbv beta in Ht. congruence. }
    assert (heap s2 !! q = None) as Hq2.
    { apply (loop_idle _ _ _ _ _ _ _ _ _ _ _ _ _ _ dom q _ _ s2 (or_introl eq_refl) Hq1)
        in H2; [exact H2|].
      intros m Hm Ht _ _. rewrite Hq in Hm. injection Hm as <-. exact (Hno Ht). }
    rewrite Himg in H3.
    destruct (loop_at path_join path_normalize path_dirname chalk dataUri dirname cli disk
                _ _ _ _ _ _ dom q n _ s3
                (proj2 (findAll_spec _ dom q n) (conj Hq (conj Hanc (conj Hel Hname)))) H3)
      as (sa & sb & Ha & Hf & _).
    exists sa, sb. split; [|exact Hf]. apply deref_none. congruence.
Qed.

Lemma pass_stops (dom : list node) (filePath : string) (s : cstate) :
  (forall s', embed dom filePath s <> Ret tt s') ->
  (forall s', embed dom filePath s <> Ret tt s') /\
  count isWriteFile (trace (final (embed dom filePath s))) = count isWriteFile (trace s).
Proof.
  intros Hno. split; [exact Hno|].
  pose proof (pass_outcome path_join path_normalize path_dirname chalk dataUri dirname cli
                disk dom filePath s) as Hfoot.
  destruct (embed dom filePath s) as [[] s'|c s'|w s']; cbn [final].
  - destruct (Hno s' eq_refl).
  - apply Hfoot.
  - apply Hfoot.
Qed.

(** X9: with the external flag on, by itself or through the all flag, a
    pass over a document that holds an element whose resource has a path
    that starts with http does not return, and the document is not
    written: no write is issued. *)
Theorem external_reference_stops_the_pass (dom : list node) (filePath : string) (s : cstate)
    (q : ref) (n : node) (kind src : string) :
  heap s = ∅ ->
  locate dom q = Some n ->
  ancestors isElement dom q = true ->
  resource (images (cliFlags cli)) n = Some (kind, src) ->
  Js.startsWith "http" src = true ->
  external cli = true \/ all cli = true ->
  (forall s', embed dom filePath s <> Ret tt s') /\
  count isWriteFile (trace (final (embed dom filePath s))) = count isWriteFile (trace s).
Proof.
  intros Hs Hq Hanc Hres Hx Hflag. apply pass_stops. intros s' Hrun.
  destruct (pass_reaches dom filePath s s' q n kind src Hs Hq Hanc Hres Hrun)
    as (sa & sb & Hd & Hf).
  apply resource_some in Hres as (_ & Hsp & Hsrc & _).
  destruct (nodeAttribs n) as [a|] eqn:Ha; [|discriminate]. cbn [mbind option_bind] in Hsrc.
  rewrite (fetch_external path_join path_normalize path_dirname chalk dataUri dirname cli disk
             (q, n) _ kind _ _ _ sa a src) in Hf;
    [| rewrite Hd; exact Hsp | rewrite Hd; exact Ha | exact Hsrc | exact Hx].
  assert (external (cliFlags cli) = true) as Hext.
  { unfold cliFlags, expandAll. destruct Hflag as [H | H].
    - destruct (all cli); [reflexivity | exact H].
    - rewrite H. reflexivity. }
  rewrite Hext in Hf. discriminate.
Qed.

(** X10: a pass over a document that holds an element whose resource has a
    local path that names a directory does not return, and the document is
    not written: the synchronous read throws, where a path that names
    nothing gets a warning. *)
Theorem directory_stops_the_pass (dom : list node) (filePath : string) (s : cstate)
    (q : ref) (n : node) (kind src : string) :
  heap s = ∅ ->
  locate dom q = Some n ->
  ancestors isElement dom q = true ->
  resource (images (cliFlags cli)) n = Some (kind, src) ->
  Js.startsWith "http" src = false ->
  disk (path_join base src) = Some Dir ->
  (forall s', embed dom filePath s <> Ret tt s') /\
  count isWriteFile (trace (final (embed dom filePath s))) = count isWriteFile (trace s).
Proof.
  intros Hs Hq Hanc Hres Hx Hdir. apply pass_stops. intros s' Hrun.
  destruct (pass_reaches dom filePath s s' q n kind src Hs Hq Hanc Hres Hrun)
    as (sa & sb & Hd & Hf).
  apply resource_some in Hres as (_ & Hsp & Hsrc & _).
  destruct (nodeAttribs n) as [a|] eqn:Ha; [|discriminate]. cbn [mbind option_bind] in Hsrc.
  rewrite (fetch_directory (q, n) _ kind _ _ _ sa a src) in Hf;
    [discriminate | rewrite Hd; exact Hsp | rewrite Hd; exact Ha | exact Hsrc | exact Hx
     | exact Hdir].
Qed.

(** X11: a pass over a document that holds a link whose stylesheet is
    there, with a match of the rewriter whose file cannot be read, does
    not return, and the document is not written: the encoder throws. *)
Theorem unreadable_image_stops_the_pass (dom : list node) (filePath : string) (s : cstate)
    (q : ref) (n : node) (href X : string) :
  heap s = ∅ ->
  locate dom q = Some n ->
  ancestors isElement dom q = true ->
  resource (images (cliFlags cli)) n = Some ("stylesheet", href) ->
  Js.startsWith "http" href = false ->
  disk (path_join base href) = Some (File X) ->
  cssText path_join dataUri disk (path_dirname (path_join base href)) (scan X 0) = None ->
  (forall s', embed dom filePath s <> Ret tt s') /\
  count isWriteFile (trace (final (embed dom filePath s))) = count isWriteFile (trace s).
Proof.
  intros Hs Hq Hanc Hres Hx Hfile Hcss. apply pass_stops. intros s' Hrun.
  destruct (pass_reaches dom filePath s s' q n "stylesheet" href Hs Hq Hanc Hres Hrun)
    as (sa & sb & Hd & Hf).
  apply resource_some in Hres as (_ & Hsp & Hsrc & _).
  destruct (nodeAttribs n) as [a|] eqn:Ha; [|discriminate]. cbn [mbind option_bind] in Hsrc.
  destruct (fetch_stylesheet_fails (q, n) (requiredOf "stylesheet")
              (pathAttributeOf "stylesheet") (newTagOf "stylesheet") (newTagOf "stylesheet")
              sa a href X) as (what & s1 & Hthrow);
    [rewrite Hd; exact Hsp | rewrite Hd; exact Ha | exact Hsrc | exact Hx | exact Hfile
     | exact Hcss |].
  rewrite Hthrow in Hf. discriminate.
Qed.

End Stops.

(** ** The callbacks, one step at a time *)

Lemma issued_logs (l : list effect) : forallb isLog l = true -> List.filter isRequest l = [].
Proof.
  induction l as [|e l IH]; [reflexivity|]. cbn [forallb List.filter].
  intros H. apply andb_true_iff in H as [He Hl]. destruct e; try discriminate He.
  cbn [isRequest]. exact (IH Hl).
Qed.

Lemma issued_said (cli : flags) (msg : string) : List.filter isRequest (said cli msg) = [].
Proof. unfold said. destruct (verbose (cliFlags cli)); reflexivity. Qed.

Lemma issued_reads (cli : flags) (g h : string -> string) (files : list string) :
  List.filter isRequest
    (flat_map (fun file => said cli (g file) ++ [ReadFile (h file) file]) files) =
  map (fun file => ReadFile (h file) file) files.
Proof.
  induction files as [|file files IH]; [reflexivity|].
  cbn [flat_map map]. rewrite !List.filter_app, issued_said, IH. reflexivity.
Qed.

Lemma said_logs (cli : flags) (msg : string) : forallb isLog (said cli msg) = true.
Proof. unfold said. destruct (verbose (cliFlags cli)); reflexivity. Qed.

Section Steps.

Variable path_join : string -> string -> string.
Variable path_normalize : string -> string.
Variable path_dirname : string -> string.
Variable chalk : color -> string -> string.
Variable dataUri : string -> string -> string.
Variable parseDOM : bool -> string -> option (list node).
Variable spinnerStatic : string -> bool.
Variable dirname : string.
Variable cli : flags.

Abbreviation stepOf :=
  (step path_join path_normalize path_dirname chalk dataUri parseDOM spinnerStatic dirname cli).
Abbreviation stepsOf :=
  (steps path_join path_normalize path_dirname chalk dataUri parseDOM spinnerStatic dirname cli).
Abbreviation base := (basePath path_join path_normalize dirname cli).
Abbreviation outDir := (baseOutputPath path_join path_normalize dirname cli).

(** What the callback of [fs.readFile] leaves behind when the file parses. *)
Lemma readFileDone_outcome (disk : string -> option entry) (file data : string)
    (dom : list node) (s : cstate) :
  parseDOM (minify (cliFlags cli)) data = Some dom ->
  match readFileDone path_join path_normalize path_dirname chalk dataUri parseDOM dirname cli
          disk file (Some data) s with
  | Ret _ s' =>
      numberOfFilesToProcess s' = numberOfFilesToProcess s /\
      numberOfFilesProcessed s' = numberOfFilesProcessed s /\
      exists l, forallb isLog l = true /\
        trace s' = trace s ++ l ++
          [WriteFile (path_join outDir file) (outerHTMLs (heap s') false [] 0 dom)]
  | Exit _ s' | Throw _ s' => onlyLogs s s'
  end.
Proof.
  intros Hdom. unfold readFileDone, bind, assertError. cbv zeta.
  rewrite (bool_decide_eq_false_2 (Some data = None)) by discriminate.
  unfold ret. rewrite verboseLog_said. cbn [default]. unfold id. rewrite Hdom.
  set (s0 := withHeap ∅ (logged (said cli "Parsing file...") s)).
  pose proof (pass_outcome path_join path_normalize path_dirname chalk dataUri dirname cli
                disk dom (path_join outDir file) s0) as Hfoot.
  assert (onlyLogs s s0) as H0.
  { split; [reflexivity|]. split; [reflexivity|].
    exists (said cli "Parsing file..."). split; [reflexivity | apply said_logs]. }
  destruct (embedResources _ _ _ _ _ _ _ _ _ _ s0) as [[] s'|c s'|x s'].
  - destruct Hfoot as (Hn & Hp & l & Hl & Ht).
    split; [exact Hn|]. split; [exact Hp|].
    exists (said cli "Parsing file..." ++ l). split.
    + rewrite forallb_app, said_logs, Hl. reflexivity.
    + rewrite Ht. unfold s0, withHeap, logged, withTrace. cbn [trace].
      rewrite <- !app_assoc. reflexivity.
  - exact (onlyLogs_trans _ _ _ H0 (proj1 Hfoot)).
  - exact (onlyLogs_trans _ _ _ H0 (proj1 Hfoot)).
Qed.

(** X12: the callback of [fs.readdir] that gets the listing sets the number
    of files queued to the number of entries selected and issues one read
    for each of them, in the order of the listing, at the entry's name
    below the base path; before that it issues [fs.mkdir] if the output
    directory is not there, without waiting for it.  The directory listed
    is the source flag as given, not the base path. *)
Theorem readdir_queues_one_read_per_file (disk : string -> option entry) (data : list string) :
  pending (start cli) = [ReadDir (source cli)] /\
  exists w,
    stepOf (start cli) disk (ReaddirDone (Some data)) = Some w /\
    stat w = Running /\
    numberOfFilesToProcess (state w) = length (List.filter isHtmlFile data) /\
    numberOfFilesProcessed (state w) = 0 /\
    pending w =
      (if existsSync disk outDir then [] else [MkDir outDir]) ++
      map (fun file => ReadFile (path_join base file) file) (List.filter isHtmlFile data).
Proof.
  split; [reflexivity|]. unfold step. cbn [start stat pending removeFirst answers].
  eexists. split; [reflexivity|]. cbn [callback state]. rewrite readdirDone_run. cbv zeta.
  cbn [after stat state pending numberOfFilesToProcess numberOfFilesProcessed trace app
       length].
  repeat (split; [reflexivity|]).
  rewrite drop_app_length, List.filter_app.
  destruct (existsSync disk outDir); cbn [List.filter isRequest app];
    destruct (List.filter isHtmlFile data) as [|file files] eqn:Hfiles;
    cbn [length Nat.ltb Nat.leb List.filter isRequest map];
    rewrite ?(issued_reads cli); reflexivity.
Qed.

(** X13: the callback of [fs.readFile] for a file that was read and that
    parses leaves the counters alone; when it returns it has issued one
    write, of the serialized document, at the entry's name below the
    output path; when it ends the process or dies it has issued
    nothing. *)
Theorem read_callback_issues_the_write (w : world) (disk : string -> option entry)
    (file data : string) (dom : list node) (rest : list effect) :
  stat w = Running ->
  removeFirst (ReadFileDone file (Some data)) (pending w) = Some rest ->
  parseDOM (minify (cliFlags cli)) data = Some dom ->
  exists w',
    stepOf w disk (ReadFileDone file (Some data)) = Some w' /\
    numberOfFilesToProcess (state w') = numberOfFilesToProcess (state w) /\
    numberOfFilesProcessed (state w') = numberOfFilesProcessed (state w) /\
    pending w' =
      match stat w' with
      | Running =>
          rest ++ [WriteFile (path_join outDir file)
                     (outerHTMLs (heap (state w')) false [] 0 dom)]
      | _ => rest
      end.
Proof.
  intros Hst Hrm Hdom. unfold step. rewrite Hst, Hrm. eexists. split; [reflexivity|].
  cbn [callback].
  pose proof (readFileDone_outcome disk file data dom (state w) Hdom) as Hout.
  destruct (readFileDone _ _ _ _ _ _ _ _ _ _ _ _) as [[] s'|c s'|x s'];
    cbn [after state stat pending].
  - destruct Hout as (Hn & Hp & l & Hl & Ht). split; [exact Hn|]. split; [exact Hp|].
    rewrite Ht, drop_app_length, List.filter_app, (issued_logs l Hl). reflexivity.
  - destruct Hout as (Hn & Hp & l & Ht & Hl). split; [exact Hn|]. split; [exact Hp|].
    rewrite Ht, drop_app_length, (issued_logs l Hl), app_nil_r. reflexivity.
  - destruct Hout as (Hn & Hp & l & Ht & Hl). split; [exact Hn|]. split; [exact Hp|].
    rewrite Ht, drop_app_length, (issued_logs l Hl), app_nil_r. reflexivity.
Qed.

(** X14: a callback that is handed the failure of its call ([fs.readdir],
    [fs.mkdir], [fs.readFile], [fs.writeFile]), or the callback of a read
    whose file does not parse, logs a line that starts with Error: in red
    as the last thing it does and ends the process with code 1: it issues
    no call, leaves the counters and the signal as they are, and no
    callback runs after it. *)
Theorem failure_ends_the_process (w : world) (disk : string -> option entry) (ev : event)
    (rest : list effect) :
  stat w = Running ->
  removeFirst ev (pending w) = Some rest ->
  failed ev = true \/
  (exists file data, ev = ReadFileDone file (Some data) /\
                     parseDOM (minify (cliFlags cli)) data = None) ->
  exists w' msg,
    stepOf w disk ev = Some w' /\
    stat w' = Exited 1 /\ exitCode w' = Some 1 /\
    onlyLogs (state w) (state w') /\
    last (trace (state w')) = Some (Log (chalk red ("Error: " +:+ msg))) /\
    pending w' = rest /\
    completions w' = completions w /\
    forall disk' ev', stepOf w' disk' ev' = None.
Proof.
  intros Hst Hrm Hfail. unfold step at 1. rewrite Hst, Hrm.
  assert (forall msg l,
            callback path_join path_normalize path_dirname chalk dataUri parseDOM
              spinnerStatic dirname cli disk ev (state w) =
              Exit 1 (logged (l ++ [Log (chalk red ("Error: " +:+ msg))]) (state w)) ->
            forallb isLog l = true ->
            exists w' msg',
              Some (after w rest
                      (callback path_join path_normalize path_dirname chalk dataUri parseDOM
                         spinnerStatic dirname cli disk ev (state w))) = Some w' /\
              stat w' = Exited 1 /\ exitCode w' = Some 1 /\
              onlyLogs (state w) (state w') /\
              last (trace (state w')) = Some (Log (chalk red ("Error: " +:+ msg'))) /\
              pending w' = rest /\
              completions w' = completions w /\
              forall disk' ev', stepOf w' disk' ev' = None) as Hgen.
  { intros msg l -> Hl. eexists. exists msg. split; [reflexivity|].
    cbn [after stat state pending]. split; [reflexivity|]. split; [reflexivity|].
    assert (forallb isLog (l ++ [Log (chalk red ("Error: " +:+ msg))]) = true) as Hall.
    { rewrite forallb_app, Hl. reflexivity. }
    split; [|split; [|split; [|split]]].
    - split; [reflexivity|]. split; [reflexivity|]. eexists. split; [reflexivity | exact Hall].
    - cbn [logged withTrace trace]. rewrite app_assoc. apply last_snoc.
    - cbn [logged withTrace trace]. rewrite drop_app_length, (issued_logs _ Hall).
      apply app_nil_r.
    - unfold completions. cbn [state logged withTrace trace].
      fold (count isDone (trace (state w) ++ l ++ [Log (chalk red ("Error: " +:+ msg))])).
      fold (count isDone (trace (state w))).
      rewrite count_app, (count_logs isDone _ (fun _ => eq_refl) Hall). lia.
    - intros disk' ev'. apply step_over. discriminate. }
  destruct Hfail as [Hfail | (file & data & -> & Hparse)].
  - destruct ev as [[l|]|[e|]|file [data|]|filePath [e|]]; try discriminate Hfail;
      cbn [callback] in *.
    + apply (Hgen ("Source directory not found (" +:+ base +:+ ")") []); [|reflexivity].
      rewrite readdirDone_run. reflexivity.
    + apply (Hgen ("Failed to create directory " +:+ outDir +:+ " - " +:+ e) []);
        [|reflexivity].
      rewrite mkdirDone_run. reflexivity.
    + apply (Hgen ("Unable to read file " +:+ path_join base file) []); [|reflexivity].
      reflexivity.
    + apply (Hgen ("Failed to write file " +:+ filePath +:+ " - " +:+ e) []); [|reflexivity].
      rewrite writeFileDone_run. reflexivity.
  - cbn [callback] in *.
    apply (Hgen "Error parsing file." (said cli "Parsing file...")); [|apply said_logs].
    unfold readFileDone, bind, assertError. cbv zeta.
    rewrite (bool_decide_eq_false_2 (Some data = None)) by discriminate.
    unfold ret. rewrite verboseLog_said. cbn [default]. unfold id. rewrite Hparse.
    unfold bind, exit. rewrite emit_logged, logged_logged. reflexivity.
Qed.

End Steps.

(** ** A run with one file *)

Section OneFile.

Variable path_join : string -> string -> string.
Variable path_normalize : string -> string.
Variable path_dirname : string -> string.
Variable chalk : color -> string -> string.
Variable dataUri : string -> string -> string.
Variable parseDOM : bool -> string -> option (list node).
Variable spinnerStatic : string -> bool.
Variable dirname : string.
Variable cli : flags.

Abbreviation stepOf :=
  (step path_join path_normalize path_dirname chalk dataUri parseDOM spinnerStatic dirname cli).
Abbreviation stepsOf :=
  (steps path_join path_normalize path_dirname chalk dataUri parseDOM spinnerStatic dirname cli).
Abbreviation base := (basePath path_join path_normalize dirname cli).
Abbreviation outDir := (baseOutputPath path_join path_normalize dirname cli).

Lemma settled_completions (w : world) :
  settled w ->
  completions w =
    (if (0 <? numberOfFilesToProcess (state w))%nat &&
        (numberOfFilesProcessed (state w) =? numberOfFilesToProcess (state w))%nat
     then 1 else 0).
Proof. intros (_ & _ & _ & H). exact H. Qed.

(** X15: with one entry selected and the output directory there, the
    callbacks of [fs.readdir] and of the read of the file run, with one
    file queued and the signal not fired; if the process is still running
    then, the write of the file at its name below the output path is the
    one call under way, and when its callback runs with no error the file
    is counted, the signal fires, this once, nothing is under way, and the
    process ends with code 0. *)
Theorem one_file_run_completes (d0 d1 d2 : string -> option entry) (data : list string)
    (file content : string) :
  List.filter isHtmlFile data = [file] ->
  existsSync d0 outDir = true ->
  exists w2,
    stepsOf (start cli) [(d0, ReaddirDone (Some data)); (d1, ReadFileDone file (Some content))]
      = Some w2 /\
    numberOfFilesToProcess (state w2) = 1 /\
    numberOfFilesProcessed (state w2) = 0 /\
    completions w2 = 0 /\
    (stat w2 = Running ->
     exists w3 out,
       pending w2 = [WriteFile (path_join outDir file) out] /\
       stepOf w2 d2 (WriteFileDone (path_join outDir file) None) = Some w3 /\
       stat w3 = Running /\ pending w3 = [] /\
       numberOfFilesProcessed (state w3) = 1 /\
       completions w3 = 1 /\ exitCode w3 = Some 0).
Proof.
  intros Hfiles Hdir. cbn [steps].
  destruct (stepOf (start cli) d0 (ReaddirDone (Some data))) as [w1|] eqn:Hstep1;
    [|discriminate Hstep1].
  pose proof (step_settled _ _ _ _ _ _ _ _ _ _ _ _ _ (or_introl eq_refl) Hstep1) as Hset1.
  unfold step in Hstep1. cbn [start stat pending removeFirst answers] in Hstep1.
  injection Hstep1 as Hw1. cbn [callback state] in Hw1.
  rewrite readdirDone_run in Hw1. cbv zeta in Hw1. rewrite Hfiles, Hdir in Hw1.
  cbn [length Nat.ltb Nat.leb flat_map app after trace] in Hw1.
  assert (stat w1 = Running /\ numberOfFilesToProcess (state w1) = 1 /\
          numberOfFilesProcessed (state w1) = 0 /\
          pending w1 = [ReadFile (path_join base file) file]) as (Hst1 & Hn1 & Hp1 & Hpend1).
  { rewrite <- Hw1. cbn [stat state pending numberOfFilesToProcess numberOfFilesProcessed].
    repeat (split; [reflexivity|]).
    cbn [start state trace length drop List.filter isRequest].
    rewrite app_nil_r, List.filter_app, issued_said. reflexivity. }
  clear Hw1.
  destruct (stepOf w1 d1 (ReadFileDone file (Some content))) as [w2|] eqn:Hstep2.
  2:{ unfold step in Hstep2. rewrite Hst1, Hpend1 in Hstep2.
      cbn [removeFirst answers] in Hstep2. rewrite String.eqb_refl in Hstep2.
      discriminate Hstep2. }
  pose proof (step_settled _ _ _ _ _ _ _ _ _ _ _ _ _ (or_intror Hset1) Hstep2) as Hset2.
  exists w2. split; [reflexivity|].
  unfold step in Hstep2. rewrite Hst1, Hpend1 in Hstep2.
  cbn [removeFirst answers] in Hstep2. rewrite String.eqb_refl in Hstep2.
  injection Hstep2 as Hw2. cbn [callback] in Hw2.
  pose proof (writesLast_readFileDone path_join path_normalize path_dirname chalk dataUri
                parseDOM dirname cli d1 file (Some content) (state w1)) as Hlast.
  assert (numberOfFilesToProcess (state w2) = 1 /\ numberOfFilesProcessed (state w2) = 0)
    as [Hn2 Hp2].
  { rewrite <- Hw2.
    destruct (readFileDone _ _ _ _ _ _ _ _ _ _ _ _) as [[] s'|c s'|x s']; cbn [after state].
    - destruct Hlast as (s3 & fp & out & (A & B & _) & ->).
      cbn [logged withTrace numberOfFilesToProcess numberOfFilesProcessed]. lia.
    - destruct Hlast as (A & B & _). lia.
    - destruct Hlast as (A & B & _). lia. }
  split; [exact Hn2|]. split; [exact Hp2|]. split.
  { rewrite (settled_completions w2 Hset2), Hn2, Hp2. reflexivity. }
  intros Hst2.
  assert (exists out, pending w2 = [WriteFile (path_join outDir file) out]) as [out Hpend2].
  { rewrite <- Hw2 in Hst2 |- *.
    destruct (parseDOM (minify (cliFlags cli)) content) as [dom|] eqn:Hdom.
    - pose proof (readFileDone_outcome path_join path_normalize path_dirname chalk dataUri
                    parseDOM dirname cli d1 file content dom (state w1) Hdom) as Hout.
      destruct (readFileDone _ _ _ _ _ _ _ _ _ _ _ _) as [[] s'|c s'|x s'];
        cbn [after stat] in Hst2; try discriminate Hst2.
      destruct Hout as (_ & _ & l & Hl & Ht). eexists. cbn [after pending].
      rewrite Ht, drop_app_length, List.filter_app, (issued_logs l Hl). reflexivity.
    - exfalso. revert Hst2. unfold readFileDone, bind, assertError. cbv zeta.
      rewrite (bool_decide_eq_false_2 (Some content = None)) by discriminate.
      unfold ret. rewrite verboseLog_said. cbn [default]. unfold id. rewrite Hdom.
      unfold bind, exit. rewrite emit_logged. cbn [after stat]. discriminate. }
  clear Hw2 Hlast.
  destruct (stepOf w2 d2 (WriteFileDone (path_join outDir file) None)) as [w3|] eqn:Hstep3.
  2:{ unfold step in Hstep3. rewrite Hst2, Hpend2 in Hstep3.
      cbn [removeFirst answers] in Hstep3. rewrite String.eqb_refl in Hstep3.
      discriminate Hstep3. }
  pose proof (step_settled _ _ _ _ _ _ _ _ _ _ _ _ _ (or_intror Hset2) Hstep3) as Hset3.
  exists w3, out. split; [exact Hpend2|]. split; [reflexivity|].
  unfold step in Hstep3. rewrite Hst2, Hpend2 in Hstep3.
  cbn [removeFirst answers] in Hstep3. rewrite String.eqb_refl in Hstep3.
  injection Hstep3 as Hw3. cbn [callback] in Hw3. rewrite writeFileDone_run in Hw3.
  cbv zeta in Hw3. rewrite Hn2, Hp2 in Hw3. cbn [Nat.eqb after app] in Hw3.
  assert (stat w3 = Running /\ numberOfFilesProcessed (state w3) = 1 /\
          numberOfFilesToProcess (state w3) = 1 /\ pending w3 = [] /\
          existsb isStop (trace (state w3)) = true) as (Hst3 & Hp3 & Hn3 & Hpend3 & Hstop).
  { rewrite <- Hw3.
    cbn [stat state pending logged withTrace numberOfFilesProcessed numberOfFilesToProcess
         trace].
    repeat (split; [reflexivity|]). split.
    - rewrite <- app_assoc, drop_app_length, List.filter_app, issued_said. reflexivity.
    - rewrite existsb_app. cbn. apply orb_true_r. }
  split; [exact Hst3|]. split; [exact Hpend3|]. split; [exact Hp3|]. split.
  - rewrite (settled_completions w3 Hset3), Hn3, Hp3. reflexivity.
  - unfold exitCode. rewrite Hst3, Hpend3, Hstop. reflexivity.
Qed.

End OneFile.

(** ** The entries the listing selects *)

Lemma extensionOf_none (name : string) :
  allChars (fun c => negb (Js.eqChar c ".")) name = true -> extensionOf name = None.
Proof.
  induction name as [|c name IH]; [reflexivity|]. cbn [allChars extensionOf].
  intros H. apply andb_true_iff in H as [Hc H]. apply negb_true_iff in Hc.
  rewrite (IH H), Hc. reflexivity.
Qed.

Lemma extensionOf_app (stem ext : string) :
  allChars (fun c => negb (Js.eqChar c ".")) ext = true ->
  extensionOf (stem +:+ "." +:+ ext) = Some ext.
Proof.
  intros H. induction stem as [|c stem IH].
  - rewrite append_nil_l, append_cons, append_nil_l. cbn [extensionOf].
    rewrite (extensionOf_none ext H). reflexivity.
  - rewrite append_cons. cbn [extensionOf]. rewrite IH. reflexivity.
Qed.

(** X16: an entry whose name ends in a dot and a text without dot is
    selected when that text reads html in any case, whatever comes before
    the dot; an entry whose name has no dot is selected when the whole name
    reads html in any case. *)
Theorem selection_by_last_segment (stem ext : string) :
  allChars (fun c => negb (Js.eqChar c ".")) ext = true ->
  isHtmlFile (stem +:+ "." +:+ ext) = String.eqb (Js.toLowerCase ext) "html" /\
  isHtmlFile ext = String.eqb (Js.toLowerCase ext) "html".
Proof.
  intros H. rewrite !isHtmlFile_spec, (extensionOf_app stem ext H), (extensionOf_none ext H).
  split; reflexivity.
Qed.

(** ** The verbose flag *)

Lemma silent_heap (s1 s2 : cstate) : silent s1 = silent s2 -> heap s1 = heap s2.
Proof. intros H. exact (f_equal heap H). Qed.

Lemma silent_logged (l : list effect) (s1 s2 : cstate) :
  silent s1 = silent s2 -> silent (logged l s1) = silent (logged l s2).
Proof.
  unfold silent, logged, withTrace. cbn [heap trace numberOfFilesToProcess numberOfFilesProcessed].
  intros H. injection H as -> -> -> Ht. rewrite !List.filter_app, Ht. reflexivity.
Qed.

Lemma silent_log (line : string) (s : cstate) : silent (logged [Log line] s) = silent s.
Proof.
  unfold silent, logged, withTrace. cbn [heap trace numberOfFilesToProcess numberOfFilesProcessed].
  rewrite List.filter_app. cbn. rewrite app_nil_r. reflexivity.
Qed.

Lemma silent_withHeap (h : gmap ref tag) (s1 s2 : cstate) :
  silent s1 = silent s2 -> silent (withHeap h s1) = silent (withHeap h s2).
Proof.
  unfold silent, withHeap, withTrace.
  cbn [heap trace numberOfFilesToProcess numberOfFilesProcessed].
  intros H. injection H as _ -> -> ->. reflexivity.
Qed.

Lemma alike_ret {A} (a : A) : alike (ret a) (ret a).
Proof. intros s1 s2 H. cbn. rewrite H. reflexivity. Qed.

Lemma alike_exit {A} (code : nat) : alike (@exit A code) (exit code).
Proof. intros s1 s2 H. cbn. rewrite H. reflexivity. Qed.

Lemma alike_throw {A} (what : string) : alike (@throw A what) (throw what).
Proof. intros s1 s2 H. cbn. rewrite H. reflexivity. Qed.

Lemma alike_bind {A B} (m1 m2 : M A) (f1 f2 : A -> M B) :
  alike m1 m2 -> (forall a, alike (f1 a) (f2 a)) -> alike (bind m1 f1) (bind m2 f2).
Proof.
  intros Hm Hf s1 s2 H. unfold bind. specialize (Hm s1 s2 H).
  destruct (m1 s1) as [a1 t1|c1 t1|w1 t1], (m2 s2) as [a2 t2|c2 t2|w2 t2];
    cbn [silentOutcome] in Hm; try discriminate Hm.
  - assert (a1 = a2 /\ silent t1 = silent t2) as [-> Ht] by (split; congruence).
    apply Hf. exact Ht.
  - assert (c1 = c2 /\ silent t1 = silent t2) as [-> Ht] by (split; congruence).
    cbn [silentOutcome]. rewrite Ht. reflexivity.
  - assert (w1 = w2 /\ silent t1 = silent t2) as [-> Ht] by (split; congruence).
    cbn [silentOutcome]. rewrite Ht. reflexivity.
Qed.

Lemma alike_emit (e : effect) : alike (emit e) (emit e).
Proof.
  intros s1 s2 H. rewrite !emit_logged. cbn. rewrite (silent_logged [e] s1 s2 H).
  reflexivity.
Qed.

(** A line that one logs and the other does not, or not the same line. *)
Lemma alike_said (l1 l2 : list effect) :
  forallb isLog l1 = true -> forallb isLog l2 = true ->
  alike (fun s => Ret tt (logged l1 s)) (fun s => Ret tt (logged l2 s)).
Proof.
  intros H1 H2 s1 s2 H. cbn [silentOutcome]. f_equal.
  assert (forall l s, forallb isLog l = true -> silent (logged l s) = silent s) as Hl.
  { intros l s Hlog. unfold silent, logged, withTrace.
    cbn [heap trace numberOfFilesToProcess numberOfFilesProcessed].
    rewrite List.filter_app.
    replace (List.filter notLog l) with (@nil effect); [rewrite app_nil_r; reflexivity|].
    clear -Hlog. induction l as [|e l IH]; [reflexivity|].
    cbn [forallb] in Hlog. apply andb_true_iff in Hlog as [He Hlog].
    cbn [List.filter]. unfold notLog at 1. rewrite He. cbn [negb]. exact (IH Hlog). }
  rewrite (Hl l1 s1 H1), (Hl l2 s2 H2). exact H.
Qed.

Lemma alike_verboseLog (c1 c2 : flags) (msg1 msg2 : string) :
  alike (verboseLog c1 msg1) (verboseLog c2 msg2).
Proof.
  intros s1 s2 H. rewrite !verboseLog_said.
  apply (alike_said (said c1 msg1) (said c2 msg2)); [apply said_logs | apply said_logs | exact H].
Qed.

Lemma alike_getTag (t : ref * node) : alike (getTag t) (getTag t).
Proof.
  intros s1 s2 H. unfold getTag. cbn. rewrite (silent_heap s1 s2 H), H. reflexivity.
Qed.

Lemma alike_setTag (t : ref * node) (v : tag) : alike (setTag t v) (setTag t v).
Proof.
  intros s1 s2 H. unfold setTag. cbn [silentOutcome]. f_equal.
  rewrite (silent_heap s1 s2 H). apply silent_withHeap. exact H.
Qed.

Lemma alike_forEach {A} (l : list A) (f1 f2 : A -> M unit) :
  (forall x, alike (f1 x) (f2 x)) -> alike (forEach l f1) (forEach l f2).
Proof.
  intros H. induction l as [|x l IH]; cbn [forEach]; [apply alike_ret|].
  apply alike_bind; [apply H | intros _; exact IH].
Qed.

Section Verbose.

Variable path_join : string -> string -> string.
Variable path_normalize : string -> string.
Variable path_dirname : string -> string.
Variable chalk : color -> string -> string.
Variable dataUri : string -> string -> string.
Variable parseDOM : bool -> string -> option (list node).
Variable spinnerStatic : string -> bool.
Variable dirname : string.
Variable disk : string -> option entry.

Lemma alike_readFileSync (p : string) : alike (readFileSync disk p) (readFileSync disk p).
Proof.
  unfold readFileSync. destruct (disk p) as [[c|]|];
    [apply alike_ret | apply alike_throw | apply alike_throw].
Qed.

Lemma alike_base64Sync (p : string) :
  alike (base64Sync dataUri disk p) (base64Sync dataUri disk p).
Proof.
  unfold base64Sync. apply alike_bind; [apply alike_readFileSync | intros c; apply alike_ret].
Qed.

Lemma alike_assertError (err : bool) (msg : string) :
  alike (assertError chalk err msg) (assertError chalk err msg).
Proof.
  unfold assertError. destruct err; [|apply alike_ret].
  apply alike_bind; [apply alike_emit | intros _; apply alike_exit].
Qed.

Lemma alike_rewriteCss (c1 c2 : flags) (baseUrl data : string) :
  alike (rewriteCss path_join chalk dataUri c1 disk baseUrl data)
        (rewriteCss path_join chalk dataUri c2 disk baseUrl data).
Proof.
  unfold rewriteCss. induction (scan data 0) as [|pc l IH]; cbn [replaceEach].
  - apply alike_ret.
  - apply alike_bind.
    + destruct pc as [c|w p1]; cbn [embedUrl]; [apply alike_ret|].
      apply alike_bind; [apply alike_verboseLog | intros _].
      apply alike_bind; [apply alike_base64Sync | intros uri; apply alike_ret].
    + intros a. apply alike_bind; [exact IH | intros b; apply alike_ret].
Qed.

Lemma sameButVerbose_flags (c1 c2 : flags) :
  sameButVerbose c1 c2 ->
  images (cliFlags c1) = images (cliFlags c2) /\
  external (cliFlags c1) = external (cliFlags c2) /\
  minify (cliFlags c1) = minify (cliFlags c2) /\
  basePath path_join path_normalize dirname c1 = basePath path_join path_normalize dirname c2 /\
  baseOutputPath path_join path_normalize dirname c1 =
    baseOutputPath path_join path_normalize dirname c2.
Proof.
  destruct c1 as [s1 o1 i1 e1 m1 a1 v1], c2 as [s2 o2 i2 e2 m2 a2 v2].
  unfold sameButVerbose, cliFlags, expandAll, basePath, baseOutputPath.
  cbn [source output images external minify all].
  intros (-> & -> & -> & -> & -> & ->). destruct a2; auto.
Qed.

Lemma alike_fetch (c1 c2 : flags) t req kind pa nt nn :
  sameButVerbose c1 c2 ->
  alike (fetchAndEmbedResource path_join path_normalize path_dirname chalk dataUri dirname c1
           disk t req kind pa nt nn)
        (fetchAndEmbedResource path_join path_normalize path_dirname chalk dataUri dirname c2
           disk t req kind pa nt nn).
Proof.
  intros Hsame. destruct (sameButVerbose_flags c1 c2 Hsame) as (_ & Hext & _ & Hbase & _).
  unfold fetchAndEmbedResource. rewrite Hext, Hbase.
  apply alike_bind; [apply alike_getTag | intros tag0].
  destruct (shouldProcess tag0 req); [|apply alike_ret].
  destruct (attribs tag0 ≫= getAttr pa) as [src|]; [|apply alike_throw].
  cbv zeta. destruct (negb (Js.startsWith "http" src)).
  - apply alike_bind; [apply alike_verboseLog | intros _].
    destruct (negb (existsSync disk _)); [apply alike_emit|].
    destruct (negb (String.eqb kind "image")).
    + apply alike_bind; [apply alike_readFileSync | intros data].
      apply alike_bind; [apply alike_setTag | intros _].
      apply alike_bind.
      * destruct (String.eqb kind "stylesheet"); [|apply alike_ret].
        apply alike_bind; [apply alike_rewriteCss | intros data'].
        apply alike_bind; [apply alike_getTag | intros tag1].
        apply alike_bind; [apply alike_setTag | intros _; apply alike_ret].
      * intros data'. apply alike_bind; [apply alike_getTag | intros tag2; apply alike_setTag].
    + apply alike_bind; [apply alike_base64Sync | intros uri].
      apply alike_bind; [apply alike_getTag | intros tag1; apply alike_setTag].
  - destruct (external (cliFlags c2)); [|apply alike_ret].
    apply alike_bind; [apply alike_verboseLog | intros _; apply alike_assertError].
Qed.

Lemma alike_embedResources (c1 c2 : flags) (dom : list node) (filePath : string) :
  sameButVerbose c1 c2 ->
  alike (embedResources path_join path_normalize path_dirname chalk dataUri dirname c1 disk
           dom filePath)
        (embedResources path_join path_normalize path_dirname chalk dataUri dirname c2 disk
           dom filePath).
Proof.
  intros Hsame. destruct (sameButVerbose_flags c1 c2 Hsame) as (Himg & _).
  unfold embedResources. cbv zeta. rewrite Himg.
  apply alike_bind; [apply alike_verboseLog | intros _].
  apply alike_bind; [apply alike_forEach; intros t; apply alike_fetch; exact Hsame | intros _].
  apply alike_bind; [apply alike_forEach; intros t; apply alike_fetch; exact Hsame | intros _].
  apply alike_bind; [apply alike_forEach; intros t; apply alike_fetch; exact Hsame | intros _].
  unfold writeFile.
  apply alike_bind.
  - intros s1 s2 H. cbn [silentOutcome]. rewrite (silent_heap s1 s2 H), H. reflexivity.
  - intros domStr. apply alike_bind; [apply alike_verboseLog | intros _; apply alike_emit].
Qed.

(** X17: the verbose flag changes what is logged and nothing else.  On two
    command lines that differ in that flag at most, and from two states
    that differ in the lines logged at most, every callback of the program
    ends in the same way (it returns, ends the process with the same code,
    or dies of the same exception), with the same counters, the same
    objects, and the same calls issued with the same arguments, the text
    of the written document among them. *)
Theorem verbose_changes_only_the_log (c1 c2 : flags) (ev : event) (s1 s2 : cstate) :
  sameButVerbose c1 c2 ->
  silent s1 = silent s2 ->
  silentOutcome (callback path_join path_normalize path_dirname chalk dataUri parseDOM
                   spinnerStatic dirname c1 disk ev s1) =
  silentOutcome (callback path_join path_normalize path_dirname chalk dataUri parseDOM
                   spinnerStatic dirname c2 disk ev s2).
Proof.
  intros Hsame. destruct (sameButVerbose_flags c1 c2 Hsame) as (_ & _ & Hmin & Hbase & Hout).
  revert s1 s2. change (alike
    (callback path_join path_normalize path_dirname chalk dataUri parseDOM spinnerStatic
       dirname c1 disk ev)
    (callback path_join path_normalize path_dirname chalk dataUri parseDOM spinnerStatic
       dirname c2 disk ev)).
  destruct ev as [data|err|file data|filePath err]; cbn [callback].
  - unfold readdirDone. rewrite Hbase, Hout. cbv zeta.
    apply alike_bind; [apply alike_assertError | intros _].
    apply alike_bind.
    { destruct (negb (existsSync disk _)); [apply alike_emit | apply alike_ret]. }
    intros _. apply alike_bind.
    { intros [h1 n1 p1 t1] [h2 n2 p2 t2] H. cbn [silentOutcome].
      unfold silent, withTrace in *. cbn in *.
      injection H as -> _ -> ->. reflexivity. }
    intros _. destruct (0 <? _)%nat.
    + apply alike_bind; [apply alike_emit | intros _].
      unfold parseHtmlFiles. rewrite Hbase. apply alike_forEach. intros file.
      apply alike_bind; [apply alike_verboseLog | intros _; apply alike_emit].
    + apply alike_bind; [apply alike_emit | intros _; apply alike_emit].
  - unfold mkdirDone. rewrite Hout. apply alike_assertError.
  - unfold readFileDone. rewrite Hbase, Hout, Hmin. cbv zeta.
    apply alike_bind; [apply alike_assertError | intros _].
    apply alike_bind; [apply alike_verboseLog | intros _].
    destruct (parseDOM _ _) as [dom|]; [|apply alike_assertError].
    apply alike_bind; [|intros _; apply alike_embedResources; exact Hsame].
    intros s1 s2 H. cbn [silentOutcome]. f_equal. apply silent_withHeap. exact H.
  - unfold writeFileDone.
    apply alike_bind; [apply alike_assertError | intros _].
    apply alike_bind; [apply alike_verboseLog | intros _].
    apply alike_bind.
    { intros [h1 n1 p1 t1] [h2 n2 p2 t2] H. cbn [silentOutcome].
      unfold silent, withTrace in *. cbn in *.
      injection H as -> -> -> ->. reflexivity. }
    intros n. apply alike_bind.
    { intros [h1 n1 p1 t1] [h2 n2 p2 t2] H. cbn [silentOutcome].
      unfold silent, withTrace in *. cbn in *.
      injection H as -> -> -> ->. reflexivity. }
    intros total. destruct (Nat.eqb n total).
    + apply alike_bind; [apply alike_emit | intros _; apply alike_emit].
    + destruct (spinnerStatic _); [apply alike_emit | apply alike_throw].
Qed.

End Verbose.

(** ** The properties on the examples *)

Lemma hit_is_an_image_reference_witness :
  contains "URL('img/c.PNG')" "a{background:URL('img/c.PNG')}".
Proof.
  apply (hit_is_an_image_reference "a{background:URL('img/c.PNG')}" "URL('img/c.PNG')"
           "img/c.PNG").
  vm_compute. do 13 right. left. reflexivity.
Defined.

Lemma stylesheet_without_url_is_kept_witness :
  rewriteCss Example.join Example.plainChalk Example.uri (Example.flagsOf false false true)
    Example.files "/site/src/css" "p{color:red}" Example.fresh =
  Ret "p{color:red}" Example.fresh.
Proof.
  apply (stylesheet_without_url_is_kept Example.join Example.plainChalk Example.uri
           (Example.flagsOf false false true) Example.files "/site/src/css" "p{color:red}"
           Example.fresh).
  vm_compute. reflexivity.
Defined.

Lemma reference_is_replaced_witness :
  scan ("URL(" +:+ "'" +:+ ("img/c" +:+ "." +:+ "png") +:+ "'" +:+ ")" +:+ "}") 0 =
    [Hit ("URL(" +:+ "'" +:+ ("img/c" +:+ "." +:+ "png") +:+ "'" +:+ ")")
       ("img/c" +:+ "." +:+ "png"); Keep "}"].
Proof.
  apply (reference_is_replaced Example.join Example.plainChalk Example.uri
           (Example.flagsOf false false false) Example.files "/site/src/css"
           "URL(" "'" "img/c" "png" "'" "}" "PNG" Example.fresh);
    [computed | computed | computed | computed | vm_compute; do 2 right; left; reflexivity
     | computed].
Defined.

Lemma element_without_resource_untouched_witness :
  heap (final (Cases.passOn (Example.flagsOf true false false)
                 (Cases.pageWith Cases.inlineScript))) !! [0; 0; 0] = None /\
  heap (final (Cases.passOn (Example.flagsOf true false false)
                 (Cases.pageWith Cases.linkNoRel))) !! [0; 0; 0] = None.
Proof.
  split.
  - apply (element_without_resource_untouched Example.join Example.normalize
             Example.dirnameOf Example.plainChalk Example.uri "/site"
             (Example.flagsOf true false false) Cases.disk (Cases.pageWith Cases.inlineScript)
             "/site/dist/index.html" Example.fresh
             (final (Cases.passOn (Example.flagsOf true false false)
                       (Cases.pageWith Cases.inlineScript)))
             [0; 0; 0] Cases.inlineScript); computed.
  - apply (element_without_resource_untouched Example.join Example.normalize
             Example.dirnameOf Example.plainChalk Example.uri "/site"
             (Example.flagsOf true false false) Cases.disk (Cases.pageWith Cases.linkNoRel)
             "/site/dist/index.html" Example.fresh
             (final (Cases.passOn (Example.flagsOf true false false)
                       (Cases.pageWith Cases.linkNoRel)))
             [0; 0; 0] Cases.linkNoRel); computed.
Defined.

Lemma part_without_resource_is_written_as_parsed_witness :
  getOuterHTML
    (heap (final (Cases.passOn (Example.flagsOf true false false)
                    (Cases.pageWith Cases.inlineScript))))
    false [0; 0; 0] Cases.inlineScript = "<script>run()</script>".
Proof.
  rewrite (part_without_resource_is_written_as_parsed Example.join Example.normalize
             Example.dirnameOf Example.plainChalk Example.uri "/site"
             (Example.flagsOf true false false) Cases.disk (Cases.pageWith Cases.inlineScript)
             "/site/dist/index.html" Example.fresh
             (final (Cases.passOn (Example.flagsOf true false false)
                       (Cases.pageWith Cases.inlineScript)))
             [0; 0; 0] Cases.inlineScript false).
  - reflexivity.
  - reflexivity.
  - reflexivity.
  - intros r m H. destruct r as [|i r].
    + injection H as <-. reflexivity.
    + destruct i as [|i]; [|destruct i; discriminate H].
      destruct r as [|j r]; [injection H as <-; reflexivity|].
      destruct j; discriminate H.
  - vm_compute. reflexivity.
Defined.

Lemma nothing_to_embed_witness :
  Cases.passOn (Example.flagsOf true false false) Cases.plainPage =
  Ret tt (logged [WriteFile "/site/dist/index.html"
                    (outerHTMLs ∅ false [] 0 Cases.plainPage)] Example.fresh).
Proof.
  apply (nothing_to_embed Example.join Example.normalize Example.dirnameOf Example.plainChalk
           Example.uri "/site" (Example.flagsOf true false false) Cases.disk Cases.plainPage
           "/site/dist/index.html" Example.fresh); computed.
Defined.

Lemma external_reference_stops_the_pass_witness :
  count isWriteFile
    (trace (final (Cases.passOn (Example.flagsOf false true false)
                     (Cases.pageWith Cases.scriptCdn)))) = 0.
Proof.
  apply (external_reference_stops_the_pass Example.join Example.normalize Example.dirnameOf
           Example.plainChalk Example.uri "/site" (Example.flagsOf false true false)
           Cases.disk (Cases.pageWith Cases.scriptCdn) "/site/dist/index.html" Example.fresh
           [0; 0; 0] Cases.scriptCdn "script" "http://cdn/lib.js");
    [computed | computed | computed | computed | computed | left; reflexivity].
Defined.

Lemma directory_stops_the_pass_witness :
  count isWriteFile
    (trace (final (Cases.passOn (Example.flagsOf false false false)
                     (Cases.pageWith Cases.scriptDir)))) = 0.
Proof.
  apply (directory_stops_the_pass Example.join Example.normalize Example.dirnameOf
           Example.plainChalk Example.uri "/site" (Example.flagsOf false false false)
           Cases.disk (Cases.pageWith Cases.scriptDir) "/site/dist/index.html" Example.fresh
           [0; 0; 0] Cases.scriptDir "script" "css"); computed.
Defined.

Lemma unreadable_image_stops_the_pass_witness :
  count isWriteFile
    (trace (final (Cases.passOn (Example.flagsOf false false false)
                     (Cases.pageWith Cases.linkBroken)))) = 0.
Proof.
  apply (unreadable_image_stops_the_pass Example.join Example.normalize Example.dirnameOf
           Example.plainChalk Example.uri "/site" (Example.flagsOf false false false)
           Cases.disk (Cases.pageWith Cases.linkBroken) "/site/dist/index.html" Example.fresh
           [0; 0; 0] Cases.linkBroken "css/broken.css" "a{background:url(none.png)}");
    computed.
Defined.

Lemma read_callback_issues_the_write_witness :
  exists w',
    step Example.join Example.normalize Example.dirnameOf Example.plainChalk Example.uri
      Example.parse Example.statics "/site" (Example.flagsOf false false false)
      (Cases.waiting (ReadFile "/site/src/a.html" "a.html")) Cases.disk
      (ReadFileDone "a.html" (Some "A")) = Some w' /\
    pending w' = [WriteFile "/site/dist/a.html" "<p>A</p>"].
Proof.
  destruct (read_callback_issues_the_write Example.join Example.normalize Example.dirnameOf
              Example.plainChalk Example.uri Example.parse Example.statics "/site"
              (Example.flagsOf false false false)
              (Cases.waiting (ReadFile "/site/src/a.html" "a.html")) Cases.disk
              "a.html" "A" [Example.element "p" [] [Example.text "A"]] [])
    as (w' & Hstep & _ & _ & Hpend); [computed | computed | computed |].
  exists w'. split; [exact Hstep|]. rewrite Hpend.
  injection Hstep as <-. vm_compute. reflexivity.
Defined.

Lemma failure_ends_the_process_witness :
  exists w',
    step Example.join Example.normalize Example.dirnameOf Example.plainChalk Example.uri
      Example.parse Example.statics "/site" (Example.flagsOf false false false)
      (Cases.waiting (WriteFile "/site/dist/a.html" "<p>A</p>")) Cases.disk
      (WriteFileDone "/site/dist/a.html" (Some "EACCES")) = Some w' /\
    exitCode w' = Some 1.
Proof.
  destruct (failure_ends_the_process Example.join Example.normalize Example.dirnameOf
              Example.plainChalk Example.uri Example.parse Example.statics "/site"
              (Example.flagsOf false false false)
              (Cases.waiting (WriteFile "/site/dist/a.html" "<p>A</p>")) Cases.disk
              (WriteFileDone "/site/dist/a.html" (Some "EACCES")) [])
    as (w' & msg & Hstep & _ & Hcode & _); [computed | computed | left; reflexivity |].
  exists w'. split; [exact Hstep | exact Hcode].
Defined.

Lemma one_file_run_completes_witness :
  exists w2,
    steps Example.join Example.normalize Example.dirnameOf Example.plainChalk Example.uri
      Example.parse Example.statics "/site" (Example.flagsOf false false false)
      (start (Example.flagsOf false false false))
      [(Cases.disk, ReaddirDone (Some ["a.html"; "notes.txt"]));
       (Cases.disk, ReadFileDone "a.html" (Some "A"))] = Some w2 /\
    completions w2 = 0.
Proof.
  destruct (one_file_run_completes Example.join Example.normalize Example.dirnameOf
              Example.plainChalk Example.uri Example.parse Example.statics "/site"
              (Example.flagsOf false false false) Cases.disk Cases.disk Cases.disk
              ["a.html"; "notes.txt"] "a.html" "A")
    as (w2 & Hrun & _ & _ & Hzero & _); [computed | computed |].
  exists w2. split; [exact Hrun | exact Hzero].
Defined.

Lemma selection_by_last_segment_witness :
  isHtmlFile ("index" +:+ "." +:+ "HTML") = true /\
  isHtmlFile ("archive.html" +:+ "." +:+ "gz") = false.
Proof.
  split.
  - rewrite (proj1 (selection_by_last_segment "index" "HTML" eq_refl)). reflexivity.
  - rewrite (proj1 (selection_by_last_segment "archive.html" "gz" eq_refl)). reflexivity.
Defined.

Lemma verbose_changes_only_the_log_witness :
  silentOutcome (callback Example.join Example.normalize Example.dirnameOf Example.plainChalk
                   Example.uri Example.parse Example.statics "/site"
                   (Example.flagsOf false false false) Cases.disk
                   (ReadFileDone "a.html" (Some "A")) Example.fresh) =
  silentOutcome (callback Example.join Example.normalize Example.dirnameOf Example.plainChalk
                   Example.uri Example.parse Example.statics "/site"
                   (Example.flagsOf false false true) Cases.disk
                   (ReadFileDone "a.html" (Some "A")) Example.fresh).
Proof.
  apply (verbose_changes_only_the_log Example.join Example.normalize Example.dirnameOf
           Example.plainChalk Example.uri Example.parse Example.statics "/site" Cases.disk
           (Example.flagsOf false false false) (Example.flagsOf false false true)
           (ReadFileDone "a.html" (Some "A")) Example.fresh Example.fresh).
  - repeat split; reflexivity.
  - reflexivity.
Defined.

Lemma counters_invariant_witness :
  numberOfFilesProcessed (state (Cases.runOn Example.twoFiles)) <=
    numberOfFilesToProcess (state (Cases.runOn Example.twoFiles)) /\
  completions (Cases.runOn Example.twoFiles) <= 1.
Proof.
  destruct (counters_invariant Example.join Example.normalize Example.dirnameOf
              Example.plainChalk Example.uri Example.parse Example.statics "/site"
              (Example.flagsOf false false false)
              (map (fun ev => (Example.files, ev)) Example.twoFiles)
              (Cases.runOn Example.twoFiles)) as (Hle & Hmax & _); [computed|].
  split; [exact Hle | exact Hmax].
Defined.

Lemma nothing_queued_witness :
  numberOfFilesToProcess (state (Cases.runOn [ReaddirDone (Some ["notes.txt"])])) = 0 /\
  completions (Cases.runOn [ReaddirDone (Some ["notes.txt"])]) = 0.
Proof.
  destruct (nothing_queued Example.join Example.normalize Example.dirnameOf
              Example.plainChalk Example.uri Example.parse Example.statics "/site"
              (Example.flagsOf false false false) Example.files ["notes.txt"]
              (Cases.runOn [ReaddirDone (Some ["notes.txt"])]))
    as (Hn & _ & _ & Hzero & _); [computed | computed |].
  split; [exact Hn | exact Hzero].
Defined.

Lemma one_file_at_most_witness :
  numberOfFilesProcessed
    (state (Cases.runOn (Example.twoFiles ++ [WriteFileDone "/site/dist/a.html" None]))) <= 1 /\
  completions (Cases.runOn (Example.twoFiles ++ [WriteFileDone "/site/dist/a.html" None])) = 0.
Proof.
  destruct (one_file_at_most Example.join Example.normalize Example.dirnameOf
              Example.plainChalk Example.uri Example.parse Example.statics "/site"
              (Example.flagsOf false false false)
              (map (fun ev => (Example.files, ev))
                 (Example.twoFiles ++ [WriteFileDone "/site/dist/a.html" None]))
              (Cases.runOn (Example.twoFiles ++ [WriteFileDone "/site/dist/a.html" None])))
    as (Hle & Hzero); [computed | computed |].
  split; [exact Hle | apply Hzero; vm_compute; lia].
Defined.
